(** * excel-reader: image resolution for spreadsheet packages

    A shallow embedding of the TypeScript sources of the reader
    (RelationshipParser, DrawingParser, ImageExtractor,
    FloatingImageManager and ExcelImageReader) together with the
    properties of its image index.

    Conventions of the embedding.
    - JavaScript strings are [string]; every pattern the code searches
      for is ASCII, so the byte view agrees with the code-unit view.
    - JavaScript numbers are integers ([Z]); where a number may be
      [NaN] or infinite it is an [option Z]. Fractions are outside the
      embedding.
    - A JavaScript [Map] is an insertion-ordered association list
      ([JSMap.t]); [set] overwrites in place or appends.
    - [throw] inside a [try] block is an [option]: [None] is the
      exceptional exit taken to the [catch] clause.
    - The XML parser, [Number] and the base64 encoder are collaborators
      of the program and are parameters of the sections that use them. *)

From Stdlib Require Import ZArith List String Ascii Bool Lia Permutation.
From Stdlib Require Import Sorting.Sorted.
Import ListNotations.
Open Scope string_scope.
Open Scope Z_scope.

(* ================================================================= *)
(** * Part I. The program                                               *)
(* ================================================================= *)

(** ** JavaScript string built-ins used by the sources *)

Module JS.

(** [s.startsWith(p)] *)
Fixpoint startsWith (p s : string) : bool :=
  match p, s with
  | EmptyString, _ => true
  | String a p', String b s' => Ascii.eqb a b && startsWith p' s'
  | String _ _, EmptyString => false
  end.

(** [s.includes(p)] *)
Fixpoint includes (p s : string) : bool :=
  startsWith p s ||
  match s with
  | EmptyString => false
  | String _ s' => includes p s'
  end.

(** [s.slice(n)] for [0 <= n] *)
Fixpoint drop (n : nat) (s : string) : string :=
  match n, s with
  | O, _ => s
  | S n', String _ s' => drop n' s'
  | S _, EmptyString => EmptyString
  end.

(** the text left after the longest prefix made of the character [c] *)
Fixpoint dropWhileChar (c : ascii) (s : string) : string :=
  match s with
  | String a s' => if Ascii.eqb a c then dropWhileChar c s' else s
  | EmptyString => EmptyString
  end.

(** [s.replace(p, r)] with a string pattern: the first occurrence only *)
Fixpoint replaceFirst (p r s : string) : string :=
  if startsWith p s then r ++ drop (String.length p) s
  else match s with
       | EmptyString => EmptyString
       | String a s' => String a (replaceFirst p r s')
       end.

(** [s.split(sep).pop()] for a one-character separator: the text after
    the last separator, the whole text when there is none *)
Fixpoint lastSegmentFrom (sep : ascii) (cur s : string) : string :=
  match s with
  | EmptyString => cur
  | String a s' =>
      if Ascii.eqb a sep then lastSegmentFrom sep s' s'
      else lastSegmentFrom sep cur s'
  end.

Definition lastSegment (sep : ascii) (s : string) : string :=
  lastSegmentFrom sep s s.

Definition isUpper (a : ascii) : bool :=
  let n := N_of_ascii a in (65 <=? n)%N && (n <=? 90)%N.

Definition lowerChar (a : ascii) : ascii :=
  if isUpper a then ascii_of_N (N_of_ascii a + 32) else a.

(** [s.toLowerCase()] on the ASCII letters *)
Fixpoint toLowerCase (s : string) : string :=
  match s with
  | EmptyString => EmptyString
  | String a s' => String (lowerChar a) (toLowerCase s')
  end.

(** white space and line terminators of the ASCII range *)
Definition isSpace (a : ascii) : bool :=
  let n := N_of_ascii a in
  ((9 <=? n)%N && (n <=? 13)%N) || (n =? 32)%N.

Fixpoint trimStart (s : string) : string :=
  match s with
  | String a s' => if isSpace a then trimStart s' else s
  | EmptyString => EmptyString
  end.

Fixpoint trimEnd (s : string) : string :=
  match s with
  | EmptyString => EmptyString
  | String a s' =>
      match trimEnd s' with
      | EmptyString => if isSpace a then EmptyString else String a EmptyString
      | t => String a t
      end
  end.

(** [s.trim()] *)
Definition trim (s : string) : string := trimEnd (trimStart s).

(** truthiness of a string: the empty string is falsy *)
Definition truthy (s : string) : bool :=
  match s with EmptyString => false | _ => true end.

(** [a || b] on strings *)
Definition orElse (a b : string) : string := if truthy a then a else b.

(** every character of [s] satisfies [P] *)
Fixpoint allChars (P : ascii -> bool) (s : string) : bool :=
  match s with
  | EmptyString => true
  | String a s' => P a && allChars P s'
  end.

Definition notColon (a : ascii) : bool := negb (Ascii.eqb a ":").

(** *** Decimal rendering of an integer, [String(n)] and [ +n] *)

Definition digitChar (d : Z) : ascii := ascii_of_N (Z.to_N (48 + d)).

Fixpoint digitsInto (fuel : nat) (n : Z) (acc : string) : string :=
  match fuel with
  | O => acc
  | S fuel' =>
      if n <=? 0 then acc
      else digitsInto fuel' (n / 10) (String (digitChar (n mod 10)) acc)
  end.

Definition fuelFor (n : Z) : nat := S (Z.to_nat (Z.log2 n)).

Definition natToString (n : Z) : string :=
  if n <=? 0 then "0" else digitsInto (fuelFor n) n "".

Definition numberToString (n : Z) : string :=
  if n <? 0 then "-" ++ natToString (- n) else natToString n.

End JS.

(** ** The cell-address utilities of the spreadsheet-model library

    [XLSX.utils.encode_cell], [decode_cell] and [decode_range] are
    consumed by the sources (DrawingParser and ExcelImageReader) and are
    transcribed from the library: columns are bijective base 26 over
    [A..Z], rows are decimal and 1-based. *)

Module XLSX.

Record CellAddress := mkAddr { r : Z; c : Z }.
Record Range := mkRange { s : CellAddress; e : CellAddress }.

Definition letterChar (d : Z) : ascii := ascii_of_N (Z.to_N (65 + d)).

(** [for(; col; col = ((col-1)/26)|0) s = chr(((col-1)%26) + 65) + s]:
    [%] is the remainder of the truncating division and [|0] truncates
    (columns stay far inside the 32-bit range) *)
Fixpoint lettersInto (fuel : nat) (col : Z) (acc : string) : string :=
  match fuel with
  | O => acc
  | S fuel' =>
      if col =? 0 then acc
      else lettersInto fuel' (Z.quot (col - 1) 26)
             (String (letterChar (Z.rem (col - 1) 26)) acc)
  end.

Definition encode_col (col : Z) : string :=
  lettersInto (JS.fuelFor (Z.abs (col + 1))) (col + 1) "".

Definition encode_row (row : Z) : string := JS.numberToString (row + 1).

Definition encode_cell (cell : CellAddress) : string :=
  encode_col (c cell) ++ encode_row (r cell).

(** one turn of the loop of [decode_cell]: digits feed [R], capital
    letters feed [C], anything else is skipped *)
Definition decode_step (RC : Z * Z) (a : ascii) : Z * Z :=
  let cc := Z.of_N (N_of_ascii a) in
  if (48 <=? cc) && (cc <=? 57) then (10 * fst RC + (cc - 48), snd RC)
  else if (65 <=? cc) && (cc <=? 90) then (fst RC, 26 * snd RC + (cc - 64))
  else RC.

Fixpoint decode_loop (cstr : string) (RC : Z * Z) : Z * Z :=
  match cstr with
  | EmptyString => RC
  | String a rest => decode_loop rest (decode_step RC a)
  end.

Definition decode_cell (cstr : string) : CellAddress :=
  let RC := decode_loop cstr (0, 0) in
  mkAddr (fst RC - 1) (snd RC - 1).

(** [range.indexOf(":")] and the two slices around it *)
Fixpoint splitColon (range : string) : option (string * string) :=
  match range with
  | EmptyString => None
  | String a rest =>
      if Ascii.eqb a ":" then Some (EmptyString, rest)
      else match splitColon rest with
           | Some (l, rr) => Some (String a l, rr)
           | None => None
           end
  end.

Definition decode_range (range : string) : Range :=
  match splitColon range with
  | None => mkRange (decode_cell range) (decode_cell range)
  | Some (l, rr) => mkRange (decode_cell l) (decode_cell rr)
  end.

End XLSX.

(** ** JavaScript [Map] with string keys

    Insertion-ordered: [set] on a key that is present replaces the value
    where it stands, [set] on a new key appends the entry. *)

Module JSMap.

Definition t (V : Type) : Type := list (string * V).

Definition empty {V : Type} : t V := [].

Fixpoint get {V : Type} (m : t V) (k : string) : option V :=
  match m with
  | [] => None
  | (k', v) :: m' => if String.eqb k' k then Some v else get m' k
  end.

Definition has {V : Type} (m : t V) (k : string) : bool :=
  match get m k with Some _ => true | None => false end.

Fixpoint set {V : Type} (m : t V) (k : string) (v : V) : t V :=
  match m with
  | [] => [(k, v)]
  | (k', v') :: m' =>
      if String.eqb k' k then (k', v) :: m' else (k', v') :: set m' k v
  end.

Definition keys {V : Type} (m : t V) : list string := map fst m.

Definition values {V : Type} (m : t V) : list V := map snd m.

End JSMap.

(** ** Values handed back by the XML parser

    The parser is configured with [ignoreAttributes: false] and an empty
    attribute prefix: an element is an object whose properties are its
    attributes and its children, a repeated element is an array, text is
    a string or a number. *)

#[local] Set Warnings "-register-all".

Inductive JsVal : Type :=
| JUndefined
| JNull
| JBool (b : bool)
| JNum (n : Z)
| JStr (s : string)
| JArr (items : list JsVal)
| JObj (fields : list (string * JsVal)).

Module Js.

Fixpoint lookup (fields : list (string * JsVal)) (k : string) : JsVal :=
  match fields with
  | [] => JUndefined
  | (k', v) :: rest => if String.eqb k' k then v else lookup rest k
  end.

(** [o?.[k]]: [undefined] on anything that is not an object *)
Definition prop (o : JsVal) (k : string) : JsVal :=
  match o with
  | JObj fields => lookup fields k
  | _ => JUndefined
  end.

Definition truthy (v : JsVal) : bool :=
  match v with
  | JUndefined | JNull => false
  | JBool b => b
  | JNum n => negb (n =? 0)
  | JStr s => JS.truthy s
  | JArr _ | JObj _ => true
  end.

Definition nullish (v : JsVal) : bool :=
  match v with
  | JUndefined | JNull => true
  | _ => false
  end.

(** [a || b] *)
Definition or (a b : JsVal) : JsVal := if truthy a then a else b.

(** [a ?? b] *)
Definition coalesce (a b : JsVal) : JsVal := if nullish a then b else a.

(** [Array.isArray(v) ? v : [v]] *)
Definition asList (v : JsVal) : list JsVal :=
  match v with
  | JArr items => items
  | _ => [v]
  end.

(** [o[k] = v] on an object: the property keeps its place when it
    exists and is added last otherwise *)
Fixpoint assign (fields : list (string * JsVal)) (k : string) (v : JsVal)
  : list (string * JsVal) :=
  match fields with
  | [] => [(k, v)]
  | (k', v') :: rest =>
      if String.eqb k' k then (k', v) :: rest
      else (k', v') :: assign rest k v
  end.

(** [delete o[k]] *)
Fixpoint remove (fields : list (string * JsVal)) (k : string)
  : list (string * JsVal) :=
  match fields with
  | [] => []
  | (k', v') :: rest =>
      if String.eqb k' k then remove rest k else (k', v') :: remove rest k
  end.

(** [String(v)] *)
Fixpoint toString (v : JsVal) : string :=
  match v with
  | JUndefined => "undefined"
  | JNull => "null"
  | JBool true => "true"
  | JBool false => "false"
  | JNum n => JS.numberToString n
  | JStr s => s
  | JArr items =>
      (fix join (l : list JsVal) : string :=
         match l with
         | [] => ""
         | x :: rest =>
             let sx := if nullish x then "" else toString x in
             match rest with
             | [] => sx
             | _ :: _ => sx ++ "," ++ join rest
             end
         end) items
  | JObj _ => "[object Object]"
  end.

(** a truthy value used as a [Map] key or as a path. The sources type
    these values as [string] and the parser delivers attribute values
    as strings; a truthy value of another type is outside the declared
    types and is treated like an absent one. *)
Definition nonEmptyString (v : JsVal) : option string :=
  match v with
  | JStr (String a rest) => Some (String a rest)
  | _ => None
  end.

End Js.

(** ** RelationshipParser.ts *)

Module RelationshipParser.

Record RelationshipInfo := mkRel {
  id : string;
  type : string;
  target : string;
  targetMode : JsVal
}.

(** the type of the first parameter of [normalizeTargetPath]:
    ['worksheets' | 'drawings'] *)
Inductive Folder := worksheets | drawings.

Definition folderName (f : Folder) : string :=
  match f with worksheets => "worksheets" | drawings => "drawings" end.

(** [target.replace(/^\.\.\//, '')] *)
Definition stripParent (target : string) : string :=
  if JS.startsWith "../" target then JS.drop 3 target else target.

(** [target.replace(/^\/+/, '')] *)
Definition stripSlashes (target : string) : string :=
  JS.dropWhileChar "/" target.

Definition normalizeTargetPath (fromFolder : Folder) (target : string)
  : string :=
  match fromFolder with
  | worksheets =>
      if JS.startsWith "../" target then stripParent target
      else if JS.startsWith "/" target then stripSlashes target
      else if negb (JS.startsWith "worksheets/" target)
              && negb (JS.startsWith "drawings/" target)
              && negb (JS.startsWith "media/" target)
           then "worksheets/" ++ target
           else target
  | drawings =>
      if JS.startsWith "../" target then stripParent target
      else if JS.startsWith "/" target then stripSlashes target
      else if negb (JS.startsWith "drawings/" target)
              && negb (JS.startsWith "media/" target)
           then "drawings/" ++ target
           else target
  end.

(** [Array.from(relationships.values()).find(r => r.type.includes(..)) || null] *)
Definition findDrawingRelationship (relationships : JSMap.t RelationshipInfo)
  : option RelationshipInfo :=
  List.find (fun r => JS.includes "/relationships/drawing" (type r))
            (JSMap.values relationships).

(** the record made of one [Relationship] entry, when [Id], [Type] and
    [Target] are all truthy *)
Definition recordOf (rel : JsVal) : option RelationshipInfo :=
  match Js.nonEmptyString (Js.prop rel "Id"),
        Js.nonEmptyString (Js.prop rel "Type"),
        Js.nonEmptyString (Js.prop rel "Target") with
  | Some i, Some ty, Some tg => Some (mkRel i ty tg (Js.prop rel "TargetMode"))
  | _, _, _ => None
  end.

(** the body of the loop over the [Relationship] entries *)
Definition addRelationship (relationships : JSMap.t RelationshipInfo)
    (rel : JsVal) : JSMap.t RelationshipInfo :=
  match recordOf rel with
  | Some info => JSMap.set relationships (id info) info
  | None => relationships
  end.

(** the folders a target may already start with, as each branch of
    [normalizeTargetPath] tests them *)
Definition recognizedFolders (fromFolder : Folder) : list string :=
  match fromFolder with
  | worksheets => ["worksheets/"; "drawings/"; "media/"]
  | drawings => ["drawings/"; "media/"]
  end.

Definition startsWithAny (prefixes : list string) (target : string) : bool :=
  existsb (fun p => JS.startsWith p target) prefixes.





Section WithParser.

(** [this.parser.parse(text)]; [None] when the parser throws *)
Variable xml_parse : string -> option JsVal.

Definition parseRelationships (relsXml : string)
  : JSMap.t RelationshipInfo :=
  match xml_parse relsXml with
  | None => JSMap.empty
  | Some doc =>
      let rels := Js.prop (Js.prop doc "Relationships") "Relationship" in
      if negb (Js.truthy rels) then JSMap.empty
      else fold_left addRelationship (Js.asList rels) JSMap.empty
  end.

(** [rel.target.replace(/^\.\//, 'worksheets/')] *)
Definition sheetPathOf (target : string) : string :=
  if JS.startsWith "./" target then "worksheets/" ++ JS.drop 2 target
  else target.

Definition addSheet (rels : JSMap.t RelationshipInfo)
    (map : JSMap.t string) (sheet : JsVal) : JSMap.t string :=
  let name := Js.prop sheet "name" in
  let rid := Js.or (Js.prop sheet "r:id") (Js.prop sheet "id") in
  match Js.nonEmptyString name, Js.nonEmptyString rid with
  | Some n, Some ri =>
      match JSMap.get rels ri with
      | Some rel => JSMap.set map n (sheetPathOf (target rel))
      | None => map
      end
  | _, _ => map
  end.

Definition mapSheetNamesToPaths (workbookXml workbookRelsXml : string)
  : JSMap.t string :=
  match xml_parse workbookXml with
  | None => JSMap.empty
  | Some workbookDoc =>
      let rels := parseRelationships workbookRelsXml in
      let sheets :=
        Js.or (Js.prop (Js.prop (Js.prop workbookDoc "workbook") "sheets") "sheet")
          (Js.or (Js.prop (Js.prop (Js.prop workbookDoc "x:workbook") "sheets") "sheet")
                 (JArr [])) in
      fold_left (addSheet rels) (Js.asList sheets) JSMap.empty
  end.

End WithParser.

End RelationshipParser.

(** ** types.ts

    One module per interface, so that the fields keep their names.
    A number is [Some n] when it is finite and [None] when it is [NaN]
    or infinite. *)

Module Position.
Record t := mk {
  x : option Z;
  y : option Z;
  width : option Z;
  height : option Z
}.
End Position.

Module CellImage.
Record t := mk {
  id : string;
  description : JsVal;
  base64 : string;
  mimeType : string;
  position : Position.t;
  relationshipId : JsVal
}.
End CellImage.

Inductive CellType := TString | TNumber | TFormula | TImage.

Module CellData.
Record t := mk {
  ref : string;
  value : string;
  type : CellType;
  styleId : option Z;
  image : option CellImage.t;
  formula : option string
}.
End CellData.

Module RowData.
Record t := mk {
  rowNumber : Z;
  height : option Z;
  customHeight : option bool;
  cells : list CellData.t;
  imageCount : Z;
  imageCells : list string
}.
End RowData.

Module ColumnData.
Record t := mk {
  min : Z;
  max : Z;
  width : Z;
  customWidth : bool
}.
End ColumnData.

Module WorksheetData.
Record t := mk {
  name : string;
  dimension : string * string;
  rows : list RowData.t;
  columns : list ColumnData.t;
  totalImages : Z;
  rowsWithImages : Z
}.
Definition dimension_start (w : t) : string := fst (dimension w).
Definition dimension_end (w : t) : string := snd (dimension w).
End WorksheetData.

Module ExcelParseResult.
Record t := mk {
  worksheets : list WorksheetData.t;
  images : JSMap.t CellImage.t;
  errors : list string
}.
End ExcelParseResult.

Module ParseOptions.
Record t := mk {
  includeImages : bool;
  includeEmptyRows : bool;
  includeEmptyColumns : bool
}.
(** the defaults merged in by [parseFile] and [parseBuffer] *)
Definition defaults : t := mk true false false.
End ParseOptions.

Module ImageExtractionResult.
Record t := mk {
  id : string;
  description : string;
  base64 : string;
  mimeType : string;
  rawData : string
}.
End ImageExtractionResult.

(** ** DrawingParser.ts *)

Module DrawingParser.

(** [FloatingImageInfo], with the two properties that
    FloatingImageManager attaches to it afterwards *)
Record FloatingImageInfo := mkInfo {
  id : string;
  description : JsVal;
  relationshipId : JsVal;
  position : Position.t;
  cellRef : string;
  rowIndex : Z;
  colIndex : Z;
  __skip : option string;
  mediaPath : option string
}.

(** the picture element of an anchor *)
Definition picOf (anchor : JsVal) : JsVal :=
  Js.or (Js.prop anchor "xdr:pic") (Js.prop anchor "pic").

Definition cNvPrOf (pic : JsVal) : JsVal :=
  let nvPicPr := Js.or (Js.prop pic "xdr:nvPicPr") (Js.prop pic "nvPicPr") in
  Js.or (Js.prop nvPicPr "xdr:cNvPr")
    (Js.or (Js.prop nvPicPr "cNvPr") (Js.prop nvPicPr "cNvPr")).

Definition embedOf (pic : JsVal) : JsVal :=
  let blipFill := Js.or (Js.prop pic "xdr:blipFill") (Js.prop pic "blipFill") in
  let aBlip := Js.or (Js.prop blipFill "a:blip") (Js.prop blipFill "blip") in
  Js.or (Js.prop aBlip "r:embed") (Js.prop aBlip "embed").

Definition xfrmOf (pic : JsVal) : JsVal :=
  let spPr := Js.or (Js.prop pic "xdr:spPr") (Js.prop pic "spPr") in
  Js.or (Js.prop spPr "a:xfrm") (Js.prop spPr "xfrm").

(** [typeof cNvPr?.name === 'string' ? cNvPr.name.trim() : ''] *)
Definition nameCandidate (cNvPr : JsVal) : string :=
  match Js.prop cNvPr "name" with
  | JStr n => JS.trim n
  | _ => ""
  end.

(** [typeof id === 'string' || typeof id === 'number' ? String(id).trim() : ''] *)
Definition idCandidate (cNvPr : JsVal) : string :=
  match Js.prop cNvPr "id" with
  | JStr i => JS.trim i
  | JNum n => JS.trim (JS.numberToString n)
  | _ => ""
  end.

(** [typeof relationshipId === 'string' ? relationshipId.trim() : ''] *)
Definition relCandidate (relationshipId : JsVal) : string :=
  match relationshipId with
  | JStr rid => JS.trim rid
  | _ => ""
  end.

(** the branch of an [mc:AlternateContent] wrapper that holds the picture *)
Definition alternatePic (ac : JsVal) : JsVal :=
  let choice := Js.or (Js.prop ac "mc:Choice") (Js.prop ac "mcChoice") in
  let fallback := Js.or (Js.prop ac "mc:Fallback") (Js.prop ac "mcFallback") in
  Js.or (Js.prop choice "xdr:pic")
    (Js.or (Js.prop fallback "xdr:pic")
       (Js.or (Js.prop choice "pic") (Js.prop fallback "pic"))).

(** the function mapped over the raw anchors *)
Definition unwrapAnchor (anc : JsVal) : JsVal :=
  if negb (Js.truthy anc) then anc
  else
    let ac := Js.prop anc "mc:AlternateContent" in
    if negb (Js.truthy ac) then anc
    else
      let pic := alternatePic ac in
      if Js.truthy pic then
        match anc with
        | JObj fields =>
            JObj (Js.remove (Js.assign fields "xdr:pic" pic) "mc:AlternateContent")
        | _ => anc
        end
      else anc.

(** [[].concat(a).concat(b)]: an array argument is spliced in, any
    other value is appended as one item *)
Definition concatArg (v : JsVal) : list JsVal := Js.asList v.

Definition rawAnchors (wsDr : JsVal) : list JsVal :=
  concatArg (Js.or (Js.prop wsDr "xdr:twoCellAnchor")
               (Js.or (Js.prop wsDr "twoCellAnchor") (JArr [])))
  ++ concatArg (Js.or (Js.prop wsDr "xdr:oneCellAnchor")
                  (Js.or (Js.prop wsDr "oneCellAnchor") (JArr []))).

Section WithParser.

Variable xml_parse : string -> option JsVal.

(** [Number(v)]: [Some n] for a finite value, [None] for [NaN] and
    the infinities *)
Variable Number : JsVal -> option Z.

Definition extractImageFromAnchor (anchor : JsVal)
  : option FloatingImageInfo :=
  let pic := picOf anchor in
  if negb (Js.truthy pic) then None
  else
    let cNvPr := cNvPrOf pic in
    let description := Js.coalesce (Js.prop cNvPr "descr") (JStr "") in
    let relationshipId := embedOf pic in
    if negb (Js.truthy relationshipId) then None
    else
      let xfrm := xfrmOf pic in
      let off := Js.or (Js.prop xfrm "a:off") (Js.prop xfrm "off") in
      let ext := Js.or (Js.prop xfrm "a:ext") (Js.prop xfrm "ext") in
      let position :=
        Position.mk (Number (Js.coalesce (Js.prop off "x") (JNum 0)))
                   (Number (Js.coalesce (Js.prop off "y") (JNum 0)))
                   (Number (Js.coalesce (Js.prop ext "cx") (JNum 0)))
                   (Number (Js.coalesce (Js.prop ext "cy") (JNum 0))) in
      let from := Js.or (Js.prop anchor "xdr:from") (Js.prop anchor "from") in
      let colIdx := Number (Js.coalesce (Js.prop from "xdr:col") (Js.prop from "col")) in
      let rowIdx := Number (Js.coalesce (Js.prop from "xdr:row") (Js.prop from "row")) in
      match rowIdx, colIdx with
      | Some rowI, Some colI =>
          let cellRef := XLSX.encode_cell (XLSX.mkAddr rowI colI) in
          let id :=
            JS.orElse (nameCandidate cNvPr)
              (JS.orElse (idCandidate cNvPr)
                 (JS.orElse (relCandidate relationshipId)
                    ("floating_" ++ cellRef))) in
          Some (mkInfo id description relationshipId position cellRef
                  rowI colI None None)
      | _, _ => None
      end.

(** the anchors handed to [extractImageFromAnchor], in order *)
Definition anchorsOf (doc : JsVal) : list JsVal :=
  let wsDr := Js.or (Js.prop doc "xdr:wsDr") (Js.or (Js.prop doc "wsDr") doc) in
  List.map unwrapAnchor (rawAnchors wsDr).

Fixpoint collectImages (anchors : list JsVal) : list FloatingImageInfo :=
  match anchors with
  | [] => []
  | anchor :: rest =>
      match extractImageFromAnchor anchor with
      | Some imageInfo => imageInfo :: collectImages rest
      | None => collectImages rest
      end
  end.

(** [doc['xdr:wsDr']] on [null] or [undefined] throws; the [catch]
    hands back what was collected so far, which is nothing *)
Definition parseDrawingXml (drawingXml : string) : list FloatingImageInfo :=
  match xml_parse drawingXml with
  | None => []
  | Some doc =>
      if Js.nullish doc then [] else collectImages (anchorsOf doc)
  end.

End WithParser.

End DrawingParser.

(** ** The opened package

    [zip.file(path)] is a lookup by path; an entry that is present is
    read in full ([async('text')], [async('nodebuffer')]). *)

Definition Zip : Type := JSMap.t string.

(** ** ImageExtractor.ts *)

Module ImageExtractor.

Definition getMimeTypeFromPath (path : string) : string :=
  let extension := JS.lastSegment "." (JS.toLowerCase path) in
  if String.eqb extension "jpg" then "image/jpeg"
  else if String.eqb extension "jpeg" then "image/jpeg"
  else if String.eqb extension "png" then "image/png"
  else if String.eqb extension "gif" then "image/gif"
  else if String.eqb extension "bmp" then "image/bmp"
  else if String.eqb extension "webp" then "image/webp"
  else "image/jpeg".

Definition createCellImage (id : string) (description : JsVal)
    (relationshipId : JsVal) (position : Position.t)
    (imageResult : ImageExtractionResult.t) : CellImage.t :=
  CellImage.mk id description
    (ImageExtractionResult.base64 imageResult)
    (ImageExtractionResult.mimeType imageResult)
    position relationshipId.



Section WithCodec.

(** [buffer.toString('base64')] *)
Variable toBase64 : string -> string.

Definition extractImageData (zip : option Zip) (imagePath : string)
  : option ImageExtractionResult.t :=
  match zip with
  | None => None
  | Some z =>
      match JSMap.get z ("xl/" ++ imagePath) with
      | None => None
      | Some imageBuffer =>
          let mimeType := getMimeTypeFromPath imagePath in
          let base64 := toBase64 imageBuffer in
          Some (ImageExtractionResult.mk "" ""
                  ("data:" ++ mimeType ++ ";base64," ++ base64)
                  mimeType imageBuffer)
      end
  end.

(** the callback mapped over [imagePaths] by [extractMultipleImages] *)
Definition collectImage (zip : option Zip)
    (results : JSMap.t ImageExtractionResult.t) (path : string)
  : JSMap.t ImageExtractionResult.t :=
  match extractImageData zip path with
  | Some result => JSMap.set results path result
  | None => results
  end.

(** [extractMultipleImages]: the callbacks are started together and
    each writes its entry when its read completes, so the entries are
    written in the order of completion, which is some arrangement of
    [imagePaths] *)
Definition extractMultipleImages (zip : option Zip)
    (completionOrder : list string) : JSMap.t ImageExtractionResult.t :=
  fold_left (collectImage zip) completionOrder JSMap.empty.

End WithCodec.

End ImageExtractor.

(** ** FloatingImageManager.ts *)

Module FloatingImageManager.

Import DrawingParser.

(** what [processFloatingImage] reads and writes: the result under
    construction and the manager's [floatingImagesBySheet] *)
Record State := mkState {
  result : ExcelParseResult.t;
  floatingImagesBySheet : JSMap.t (JSMap.t (list string))
}.

Definition pushError (st : State) (msg : string) : State :=
  let res := result st in
  mkState
    (ExcelParseResult.mk (ExcelParseResult.worksheets res)
       (ExcelParseResult.images res)
       (ExcelParseResult.errors res ++ [msg])%list)
    (floatingImagesBySheet st).

Definition setImages (st : State) (imgs : JSMap.t CellImage.t) : State :=
  let res := result st in
  mkState
    (ExcelParseResult.mk (ExcelParseResult.worksheets res) imgs
       (ExcelParseResult.errors res))
    (floatingImagesBySheet st).

Definition skipMessage (reason : string) (imageInfo : FloatingImageInfo)
    (sheetName : string) : string :=
  "[skip] reason=" ++ reason ++ " id=" ++ id imageInfo
    ++ " sheet=" ++ sheetName ++ " cell=" ++ cellRef imageInfo.

Definition bindImageToCell
    (bySheet : JSMap.t (JSMap.t (list string)))
    (imageInfo : FloatingImageInfo) (sheetName : string)
  : JSMap.t (JSMap.t (list string)) :=
  let bySheet1 :=
    if negb (JSMap.has bySheet sheetName)
    then JSMap.set bySheet sheetName JSMap.empty else bySheet in
  let byCell :=
    match JSMap.get bySheet1 sheetName with
    | Some m => m
    | None => JSMap.empty
    end in
  let byCell1 :=
    if negb (JSMap.has byCell (cellRef imageInfo))
    then JSMap.set byCell (cellRef imageInfo) [] else byCell in
  let ids :=
    match JSMap.get byCell1 (cellRef imageInfo) with
    | Some l => l
    | None => []
    end in
  JSMap.set bySheet1 sheetName
    (JSMap.set byCell1 (cellRef imageInfo) (ids ++ [id imageInfo])%list).

Definition getFloatingImageIds
    (bySheet : JSMap.t (JSMap.t (list string)))
    (sheetName cellRef : string) : list string :=
  match JSMap.get bySheet sheetName with
  | None => []
  | Some sheetImages =>
      match JSMap.get sheetImages cellRef with
      | Some ids => ids
      | None => []
      end
  end.

Definition getSheetFloatingImages
    (bySheet : JSMap.t (JSMap.t (list string)))
    (sheetName : string) : JSMap.t (list string) :=
  match JSMap.get bySheet sheetName with
  | Some m => m
  | None => JSMap.empty
  end.

Definition getAllFloatingImages
    (bySheet : JSMap.t (JSMap.t (list string)))
  : JSMap.t (JSMap.t (list string)) := bySheet.

Definition clear : JSMap.t (JSMap.t (list string)) := JSMap.empty.

(** [rel.targetMode && String(rel.targetMode).toLowerCase() === 'external'] *)
Definition isExternal (rel : RelationshipParser.RelationshipInfo) : bool :=
  let targetMode := RelationshipParser.targetMode rel in
  Js.truthy targetMode
  && String.eqb (JS.toLowerCase (Js.toString targetMode)) "external".

(** [drawingRels.get(imageInfo.relationshipId)] on a map keyed by strings *)
Definition relOf (drawingRels : JSMap.t RelationshipParser.RelationshipInfo)
    (relationshipId : JsVal) : option RelationshipParser.RelationshipInfo :=
  match relationshipId with
  | JStr rid => JSMap.get drawingRels rid
  | _ => None
  end.

Definition withSkip (imageInfo : FloatingImageInfo) (reason : string)
  : FloatingImageInfo :=
  mkInfo (id imageInfo) (description imageInfo) (relationshipId imageInfo)
    (position imageInfo) (cellRef imageInfo) (rowIndex imageInfo)
    (colIndex imageInfo) (Some reason) (mediaPath imageInfo).

Definition withMediaPath (imageInfo : FloatingImageInfo) (path : string)
  : FloatingImageInfo :=
  mkInfo (id imageInfo) (description imageInfo) (relationshipId imageInfo)
    (position imageInfo) (cellRef imageInfo) (rowIndex imageInfo)
    (colIndex imageInfo) (__skip imageInfo) (Some path).

(** the body of the loop of [parseDrawingFile] that resolves the media
    path of one image through the relationships of the drawing *)
Definition resolveMedia
    (drawingRels : JSMap.t RelationshipParser.RelationshipInfo)
    (imageInfo : FloatingImageInfo) : FloatingImageInfo :=
  match relOf drawingRels (relationshipId imageInfo) with
  | None => withSkip imageInfo "missing_relationship"
  | Some rel =>
      if isExternal rel then withSkip imageInfo "external"
      else
        withMediaPath imageInfo
          (RelationshipParser.normalizeTargetPath
             RelationshipParser.drawings (RelationshipParser.target rel))
  end.

Section WithCollaborators.

Variable xml_parse : string -> option JsVal.
Variable Number : JsVal -> option Z.
Variable toBase64 : string -> string.

(** the archive held by the manager's own extractor; [None] before
    [setZip] *)
Variable zip : option Zip.

(** [await zip.file(path)?.async('text')], falsy when the entry is
    missing or empty *)
Definition readText (z : Zip) (path : string) : option string :=
  match JSMap.get z path with
  | Some (String a rest) => Some (String a rest)
  | _ => None
  end.

(** the part of [processFloatingImage] that follows the two guards *)
Definition extractAndBind (imageInfo : FloatingImageInfo)
    (path sheetName : string) (st : State) : State :=
  match ImageExtractor.extractImageData toBase64 zip path with
  | None => pushError st (skipMessage "extract_failed" imageInfo sheetName)
  | Some imageResult =>
      let cellImage :=
        ImageExtractor.createCellImage (id imageInfo)
          (description imageInfo) (relationshipId imageInfo)
          (position imageInfo) imageResult in
      let imgs := ExcelParseResult.images (result st) in
      let st1 :=
        if negb (JSMap.has imgs (id imageInfo))
        then setImages st (JSMap.set imgs (id imageInfo) cellImage)
        else st in
      mkState (result st1)
        (bindImageToCell (floatingImagesBySheet st1) imageInfo sheetName)
  end.

(** a property that is absent or holds the empty string is falsy *)
Definition truthyProp (p : option string) : option string :=
  match p with
  | Some (String a rest) => Some (String a rest)
  | _ => None
  end.

Definition processFloatingImage (imageInfo : FloatingImageInfo)
    (sheetName : string) (st : State) : State :=
  match truthyProp (__skip imageInfo) with
  | Some reason => pushError st (skipMessage reason imageInfo sheetName)
  | None =>
      match truthyProp (mediaPath imageInfo) with
      | None =>
          pushError st (skipMessage "missing_media_path" imageInfo sheetName)
      | Some path => extractAndBind imageInfo path sheetName st
      end
  end.

Definition parseDrawingFile
    (drawingRel : RelationshipParser.RelationshipInfo) (z : Zip)
  : list FloatingImageInfo :=
  let drawingTarget :=
    RelationshipParser.normalizeTargetPath RelationshipParser.worksheets
      (RelationshipParser.target drawingRel) in
  match readText z ("xl/" ++ drawingTarget) with
  | None => []
  | Some drawingXml =>
      let drawingRelsBase :=
        JS.replaceFirst "drawings/" "drawings/_rels/" drawingTarget in
      let drawingRelsPath := "xl/" ++ drawingRelsBase ++ ".rels" in
      let drawingRels :=
        match readText z drawingRelsPath with
        | Some drawingRelsXml =>
            RelationshipParser.parseRelationships xml_parse drawingRelsXml
        | None => JSMap.empty
        end in
      let floatingImages :=
        DrawingParser.parseDrawingXml xml_parse Number drawingXml in
      List.map (resolveMedia drawingRels) floatingImages
  end.

Definition getSheetRelationships (sheetPath : string) (z : Zip)
  : option (JSMap.t RelationshipParser.RelationshipInfo) :=
  let baseName := JS.lastSegment "/" sheetPath in
  let sheetRelsPath := "xl/worksheets/_rels/" ++ baseName ++ ".rels" in
  match readText z sheetRelsPath with
  | None => None
  | Some sheetRelsXml =>
      Some (RelationshipParser.parseRelationships xml_parse sheetRelsXml)
  end.

(** the [for] loop of [parseSheetFloatingImages] *)
Definition processAll (floatingImages : list FloatingImageInfo)
    (sheetName : string) (st : State) : State :=
  fold_left (fun acc imageInfo => processFloatingImage imageInfo sheetName acc)
    floatingImages st.

Definition parseSheetFloatingImages (sheetName sheetPath : string)
    (st : State) : State :=
  match zip with
  | None => st
  | Some z =>
      match getSheetRelationships sheetPath z with
      | None => st
      | Some sheetRels =>
          match RelationshipParser.findDrawingRelationship sheetRels with
          | None => st
          | Some drawingRel =>
              processAll (parseDrawingFile drawingRel z) sheetName st
          end
      end
  end.

Definition getSheetsMap : JSMap.t string :=
  match zip with
  | None => JSMap.empty
  | Some z =>
      match readText z "xl/workbook.xml",
            readText z "xl/_rels/workbook.xml.rels" with
      | Some workbookXml, Some workbookRelsXml =>
          RelationshipParser.mapSheetNamesToPaths xml_parse
            workbookXml workbookRelsXml
      | _, _ => JSMap.empty
      end
  end.

Definition parseFloatingImages (st : State) : State :=
  fold_left
    (fun acc entry => parseSheetFloatingImages (fst entry) (snd entry) acc)
    getSheetsMap st.

End WithCollaborators.

End FloatingImageManager.

(** ** The worksheet objects of the spreadsheet-model library *)

Inductive CellValue :=
| VUndefined
| VString (text : string)
| VNumber (n : Z)
| VBool (b : bool).

Module CellObject.
Record t := mk {
  v : CellValue;
  t_ : string;
  f : option string;
  s : option Z
}.
End CellObject.

Module RowInfo.
Record t := mk { hpt : option Z }.
End RowInfo.

Module ColInfo.
Record t := mk {
  min : option Z;
  max : option Z;
  width : option Z;
  customWidth : option bool
}.
End ColInfo.

(** [worksheet['!ref']], [worksheet['!rows']], [worksheet['!cols']] and
    the cells, which are properties named by their address. The entries
    of [!cols] are column objects, as the library types them; an entry
    of [!rows] may be missing. Heights and widths are carried as
    integers. *)
Module WorkSheet.
Record t := mk {
  ref : option string;
  rows : option (list (option RowInfo.t));
  cols : option (list ColInfo.t);
  cellAt : JSMap.t CellObject.t
}.
End WorkSheet.

(** ** ExcelImageReader.ts *)

Module ExcelImageReader.

(** the double quote character *)
Definition dquote : ascii := "034"%char.

(** the longest prefix free of double quotes, and what follows it *)
Fixpoint spanNonQuote (text : string) : string * string :=
  match text with
  | EmptyString => (EmptyString, EmptyString)
  | String a rest =>
      if Ascii.eqb a dquote then (EmptyString, text)
      else let (taken, after) := spanNonQuote rest in (String a taken, after)
  end.

(** an attempt of the pattern DISPIMG\(Q([^Q]+)Q, where Q stands for
    the double quote, at the start of [text]: the group is greedy and
    the next character must be a double quote, so there is one way to
    succeed *)
Definition matchHere (text : string) : option string :=
  if JS.startsWith ("DISPIMG(" ++ String dquote EmptyString) text then
    match spanNonQuote (JS.drop 9 text) with
    | (String a taken, String _ _) => Some (String a taken)
    | _ => None
    end
  else None.

(** [text.match(pattern)]: group 1 of the leftmost match *)
Fixpoint matchDispimg (text : string) : option string :=
  match matchHere text with
  | Some imageId => Some imageId
  | None =>
      match text with
      | EmptyString => None
      | String _ rest => matchDispimg rest
      end
  end.

(** [typeof cell.v === 'string' && cell.v.includes('DISPIMG')] *)
Definition valueHasDispimg (cell : CellObject.t) : bool :=
  match CellObject.v cell with
  | VString text => JS.includes "DISPIMG" text
  | _ => false
  end.

(** [cell.f && cell.f.includes('DISPIMG')] *)
Definition formulaHasDispimg (cell : CellObject.t) : bool :=
  match CellObject.f cell with
  | Some text => JS.truthy text && JS.includes "DISPIMG" text
  | None => false
  end.

Definition valueText (cell : CellObject.t) : string :=
  match CellObject.v cell with VString text => text | _ => "" end.

Definition formulaText (cell : CellObject.t) : string :=
  match CellObject.f cell with Some text => text | None => "" end.

(** [String(cell.v ?? '')] *)
Definition valueString (cell : CellObject.t) : string :=
  match CellObject.v cell with
  | VUndefined => ""
  | VString text => text
  | VNumber n => JS.numberToString n
  | VBool true => "true"
  | VBool false => "false"
  end.

Definition lookupImage (images : JSMap.t CellImage.t) (text : string)
  : option CellImage.t :=
  match matchDispimg text with
  | Some imageId => JSMap.get images imageId
  | None => None
  end.

Definition parseCell (cell : option CellObject.t) (cellRef : string)
    (images : JSMap.t CellImage.t) : CellData.t :=
  match cell with
  | None => CellData.mk cellRef "" TString None None None
  | Some cell =>
      let value := valueString cell in
      let styleId := CellObject.s cell in
      let formulaSet :=
        negb (String.eqb (CellObject.t_ cell) "s")
        && negb (String.eqb (CellObject.t_ cell) "n")
        && JS.truthy (formulaText cell) in
      let type0 :=
        if String.eqb (CellObject.t_ cell) "s" then TString
        else if String.eqb (CellObject.t_ cell) "n" then TNumber
        else if JS.truthy (formulaText cell) then TFormula
        else TString in
      let formula := if formulaSet then CellObject.f cell else None in
      if valueHasDispimg cell then
        CellData.mk cellRef value TImage styleId
          (lookupImage images (valueText cell)) formula
      else if formulaHasDispimg cell then
        CellData.mk cellRef value TImage styleId
          (lookupImage images (formulaText cell)) formula
      else CellData.mk cellRef value type0 styleId None formula
  end.

Definition isImageCell (cell : option CellObject.t) : bool :=
  match cell with
  | None => false
  | Some cell => valueHasDispimg cell || formulaHasDispimg cell
  end.

Definition extractImageIdFromCell (cell : option CellObject.t)
  : option string :=
  match cell with
  | None => None
  | Some cell =>
      let textToSearch :=
        if formulaHasDispimg cell then formulaText cell
        else if valueHasDispimg cell then valueText cell
        else "" in
      if JS.truthy textToSearch then matchDispimg textToSearch else None
  end.

Definition parseColumn (col : ColInfo.t) : ColumnData.t :=
  ColumnData.mk
    (match ColInfo.min col with Some n => n | None => 0 end)
    (match ColInfo.max col with Some n => n | None => 0 end)
    (match ColInfo.width col with
     | Some n => if n =? 0 then 9 else n
     | None => 9
     end)
    (match ColInfo.customWidth col with Some b => b | None => false end).

Definition parseColumns (worksheet : WorkSheet.t) : list ColumnData.t :=
  match WorkSheet.cols worksheet with
  | Some cols => List.map parseColumn cols
  | None => []
  end.

(** *** parseWorksheet *)

(** the integers [lo, lo+1, ..., hi] visited by a counting [for] loop *)
Definition zrange (lo hi : Z) : list Z :=
  List.map (fun i => lo + Z.of_nat i) (seq 0 (Z.to_nat (hi - lo + 1))).

Record Bounds := mkBounds {
  startRow : Z;
  startCol : Z;
  endRow : Z;
  endCol : Z
}.

(** one turn of the loop over the anchor cells of the sheet; the
    decoded coordinates are integers, hence finite *)
Definition expandBounds (b : Bounds) (cellRef : string) : Bounds :=
  let coord := XLSX.decode_cell cellRef in
  mkBounds
    (if XLSX.r coord <? startRow b then XLSX.r coord else startRow b)
    (if XLSX.c coord <? startCol b then XLSX.c coord else startCol b)
    (if XLSX.r coord >? endRow b then XLSX.r coord else endRow b)
    (if XLSX.c coord >? endCol b then XLSX.c coord else endCol b).

Definition declaredRange (worksheet : WorkSheet.t) : XLSX.Range :=
  XLSX.decode_range
    (match WorkSheet.ref worksheet with
     | Some (String a rest) => String a rest
     | _ => "A1:A1"
     end).

(** [startRow = range.s.r], [startCol = range.s.c], [endRow = range.e.r],
    [endCol = range.e.c] *)
Definition declaredBounds (worksheet : WorkSheet.t) : Bounds :=
  let range := declaredRange worksheet in
  mkBounds (XLSX.r (XLSX.s range)) (XLSX.c (XLSX.s range))
           (XLSX.r (XLSX.e range)) (XLSX.c (XLSX.e range)).

Definition scanBounds (worksheet : WorkSheet.t)
    (floatingForSheet : JSMap.t (list string)) : Bounds :=
  fold_left expandBounds (JSMap.keys floatingForSheet)
    (declaredBounds worksheet).

(** the state of the loop over the columns of one row *)
Record RowScan := mkRowScan {
  rowSeen : list string;
  rowData : RowData.t;
  totalImages : Z
}.

(** [rowData.imageCount += 1; rowData.imageCells.push(cellRef)] *)
Definition countImage (row : RowData.t) (cellRef : string) : RowData.t :=
  RowData.mk (RowData.rowNumber row) (RowData.height row)
    (RowData.customHeight row) (RowData.cells row)
    (RowData.imageCount row + 1)
    (RowData.imageCells row ++ [cellRef])%list.

(** [rowData.cells.push(cellData)] *)
Definition pushCell (row : RowData.t) (cellData : CellData.t) : RowData.t :=
  RowData.mk (RowData.rowNumber row) (RowData.height row)
    (RowData.customHeight row) (RowData.cells row ++ [cellData])%list
    (RowData.imageCount row) (RowData.imageCells row).

Definition withImage (cellData : CellData.t) (img : CellImage.t) : CellData.t :=
  CellData.mk (CellData.ref cellData) (CellData.value cellData)
    (CellData.type cellData) (CellData.styleId cellData) (Some img)
    (CellData.formula cellData).

(** the body of [for (const fid of floatingIds)] *)
Definition countFloating (cellRef : string) (acc : RowScan) (fid : string)
  : RowScan :=
  if existsb (String.eqb fid) (rowSeen acc) then acc
  else mkRowScan (fid :: rowSeen acc) (countImage (rowData acc) cellRef)
         (totalImages acc + 1).

(** [floatingIds && floatingIds.length ? floatingIds : nothing] *)
Definition boundIds (floatingForSheet : JSMap.t (list string))
    (cellRef : string) : list string :=
  match JSMap.get floatingForSheet cellRef with
  | Some ids => ids
  | None => []
  end.

(** the named-cell image of a cell that counts for its row *)
Definition namedImageCounts (cell : option CellObject.t)
    (images : JSMap.t CellImage.t) : bool :=
  isImageCell cell &&
  match extractImageIdFromCell cell with
  | Some imageId => JS.truthy imageId && JSMap.has images imageId
  | None => false
  end.

Section Worksheet.

Variable worksheet : WorkSheet.t.
Variable images : JSMap.t CellImage.t.
Variable options : ParseOptions.t.
Variable floatingForSheet : JSMap.t (list string).

(** the body of the loop over the columns *)
Definition scanCell (rowNum : Z) (acc : RowScan) (colNum : Z) : RowScan :=
  let cellRef := XLSX.encode_cell (XLSX.mkAddr rowNum colNum) in
  let cell := JSMap.get (WorkSheet.cellAt worksheet) cellRef in
  let floatingIds := boundIds floatingForSheet cellRef in
  let acc1 := fold_left (countFloating cellRef) floatingIds acc in
  if (match cell with Some _ => true | None => false end)
     || ParseOptions.includeEmptyColumns options
  then
    let cellData := parseCell cell cellRef images in
    let cellData1 :=
      match CellData.image cellData, floatingIds with
      | None, first :: _ =>
          match JSMap.get images first with
          | Some img => withImage cellData img
          | None => cellData
          end
      | _, _ => cellData
      end in
    let acc2 :=
      mkRowScan (rowSeen acc1) (pushCell (rowData acc1) cellData1)
        (totalImages acc1) in
    if namedImageCounts cell images
    then mkRowScan (rowSeen acc2) (countImage (rowData acc2) cellRef)
           (totalImages acc2 + 1)
    else acc2
  else acc1.

(** [worksheet['!rows'][rowNum].hpt] when all of it is truthy *)
Definition rowHeight (rowNum : Z) : option Z :=
  match WorkSheet.rows worksheet with
  | Some infos =>
      if rowNum <? 0 then None
      else
        match nth_error infos (Z.to_nat rowNum) with
        | Some (Some info) =>
            match RowInfo.hpt info with
            | Some h => if h =? 0 then None else Some h
            | None => None
            end
        | _ => None
        end
  | None => None
  end.

Definition newRow (rowNum : Z) : RowData.t :=
  match rowHeight rowNum with
  | Some h => RowData.mk (rowNum + 1) (Some h) (Some true) [] 0 []
  | None => RowData.mk (rowNum + 1) None None [] 0 []
  end.

(** one row: the loop over the columns, started on a fresh [rowSeen]
    and [rowData], threading the running total of the sheet *)
Definition scanRow (b : Bounds) (total : Z) (rowNum : Z) : RowScan :=
  fold_left (scanCell rowNum) (zrange (startCol b) (endCol b))
    (mkRowScan [] (newRow rowNum) total).

(** [options.includeEmptyRows || rowData.cells.some(cell => cell.value !== '')] *)
Definition keepRow (row : RowData.t) : bool :=
  ParseOptions.includeEmptyRows options
  || existsb (fun cell => negb (String.eqb (CellData.value cell) ""))
       (RowData.cells row).

(** the state of the loop over the rows *)
Record SheetScan := mkSheetScan {
  sheetRows : list RowData.t;
  sheetTotal : Z;
  sheetRowsWithImages : Z
}.

Definition scanSheetRow (b : Bounds) (acc : SheetScan) (rowNum : Z)
  : SheetScan :=
  let scanned := scanRow b (sheetTotal acc) rowNum in
  let row := rowData scanned in
  mkSheetScan
    (if keepRow row then (sheetRows acc ++ [row])%list else sheetRows acc)
    (totalImages scanned)
    (if RowData.imageCount row >? 0
     then sheetRowsWithImages acc + 1 else sheetRowsWithImages acc).

Definition parseWorksheet (sheetName : string) : WorksheetData.t :=
  let range := declaredRange worksheet in
  let columns := parseColumns worksheet in
  let b := scanBounds worksheet floatingForSheet in
  let scanned :=
    fold_left (scanSheetRow b) (zrange (startRow b) (endRow b))
      (mkSheetScan [] 0 0) in
  WorksheetData.mk sheetName
    (XLSX.encode_cell (XLSX.s range), XLSX.encode_cell (XLSX.e range))
    (sheetRows scanned) columns (sheetTotal scanned)
    (sheetRowsWithImages scanned).

End Worksheet.

(** *** Named cell images *)

Record NamedCellImage := mkNamed {
  named_id : string;
  named_description : JsVal;
  named_position : Position.t;
  named_relationshipId : JsVal
}.

(** what the spreadsheet-model library and the archive library make of
    the input: either may throw, with a message *)
Inductive Outcome (A : Type) :=
| Threw (message : string)
| Returned (a : A).
Arguments Threw {A} message.
Arguments Returned {A} a.

Definition Workbook : Type := list (string * WorkSheet.t).

Record Input := mkInput {
  workbook : Outcome Workbook;
  archive : Outcome Zip
}.

(** what [parseFile] meets at a path: [XLSX.readFile] makes the
    workbook or throws; [fs.readFileSync] hands over the bytes, which
    the archive library then opens, or throws *)
Record FileInput := mkFileInput {
  fileWorkbook : Outcome Workbook;
  fileArchive : Outcome (Outcome Zip)
}.

Section WithCollaborators.

Variable xml_parse : string -> option JsVal.
Variable Number : JsVal -> option Z.
Variable toBase64 : string -> string.

(** the body of the loop of [parseCellImagesXml] *)
Definition namedImageOf (item : JsVal) : option NamedCellImage :=
  if negb (Js.truthy item) then None
  else
    let pic :=
      Js.or (Js.prop item "xdr:pic")
        (Js.or (Js.prop item "pic") (Js.prop item "pic")) in
    if negb (Js.truthy pic) then None
    else
      let cNvPr := DrawingParser.cNvPrOf pic in
      let xfrm := DrawingParser.xfrmOf pic in
      let off := Js.or (Js.prop xfrm "a:off") (Js.prop xfrm "off") in
      let ext := Js.or (Js.prop xfrm "a:ext") (Js.prop xfrm "ext") in
      let id := Js.prop cNvPr "name" in
      let description := Js.coalesce (Js.prop cNvPr "descr") (JStr "") in
      let relationshipId := DrawingParser.embedOf pic in
      match Js.nonEmptyString id,
            Number (Js.coalesce (Js.prop off "x") (JNum 0)),
            Number (Js.coalesce (Js.prop off "y") (JNum 0)),
            Number (Js.coalesce (Js.prop ext "cx") (JNum 0)),
            Number (Js.coalesce (Js.prop ext "cy") (JNum 0)) with
      | Some name, Some x, Some y, Some width, Some height =>
          if Js.truthy relationshipId
          then Some (mkNamed name description
                       (Position.mk (Some x) (Some y) (Some width) (Some height))
                       relationshipId)
          else None
      | _, _, _, _, _ => None
      end.

Fixpoint collectNamed (items : list JsVal) : list NamedCellImage :=
  match items with
  | [] => []
  | item :: rest =>
      match namedImageOf item with
      | Some cellImage => cellImage :: collectNamed rest
      | None => collectNamed rest
      end
  end.

Definition parseCellImagesXml (xml : string) : list NamedCellImage :=
  match xml_parse xml with
  | None => []
  | Some doc =>
      if Js.nullish doc then []
      else
        let root :=
          Js.or (Js.prop doc "etc:cellImages")
            (Js.or (Js.prop doc "cellImages") doc) in
        let itemsRaw :=
          Js.or (Js.prop root "etc:cellImage")
            (Js.or (Js.prop root "cellImage") (JArr [])) in
        collectNamed (Js.asList itemsRaw)
  end.

(** the body of the loop of [parseCellImages]: the entry is written
    with [result.images.set], whatever the map holds *)
Definition registerNamed (z : Zip)
    (relationshipMap : JSMap.t RelationshipParser.RelationshipInfo)
    (images : JSMap.t CellImage.t) (cellImage : NamedCellImage)
  : JSMap.t CellImage.t :=
  match FloatingImageManager.relOf relationshipMap
          (named_relationshipId cellImage) with
  | None => images
  | Some relationship =>
      match ImageExtractor.extractImageData toBase64 (Some z)
              (RelationshipParser.target relationship) with
      | None => images
      | Some imageResult =>
          JSMap.set images (named_id cellImage)
            (ImageExtractor.createCellImage (named_id cellImage)
               (named_description cellImage)
               (named_relationshipId cellImage)
               (named_position cellImage) imageResult)
      end
  end.

Definition parseCellImages (z : Zip) (cellImagesXml cellImagesRels : string)
    (st : FloatingImageManager.State) : FloatingImageManager.State :=
  let relationshipMap :=
    RelationshipParser.parseRelationships xml_parse cellImagesRels in
  let cellImages := parseCellImagesXml cellImagesXml in
  FloatingImageManager.setImages st
    (fold_left (registerNamed z relationshipMap) cellImages
       (ExcelParseResult.images (FloatingImageManager.result st))).

(** the state reached when the named cell images are registered and
    the floating images are still to come *)
Definition afterNamedImages (z : Zip) (st : FloatingImageManager.State)
  : FloatingImageManager.State :=
  match FloatingImageManager.readText z "xl/cellimages.xml",
        FloatingImageManager.readText z "xl/_rels/cellimages.xml.rels" with
  | Some cellImagesXml, Some cellImagesRels =>
      parseCellImages z cellImagesXml cellImagesRels st
  | _, _ => st
  end.

Definition extractImagesFromBuffer (loaded : Outcome Zip)
    (st : FloatingImageManager.State) : FloatingImageManager.State :=
  match loaded with
  | Threw message =>
      FloatingImageManager.pushError st ("提取图片失败: " ++ message)
  | Returned z =>
      FloatingImageManager.parseFloatingImages xml_parse Number toBase64
        (Some z) (afterNamedImages z st)
  end.

(** the loop over [workbook.SheetNames] *)
Definition parseSheets (sheets : Workbook) (options : ParseOptions.t)
    (st : FloatingImageManager.State) : list WorksheetData.t :=
  List.map
    (fun entry =>
       parseWorksheet (snd entry)
         (ExcelParseResult.images (FloatingImageManager.result st))
         options
         (FloatingImageManager.getSheetFloatingImages
            (FloatingImageManager.floatingImagesBySheet st) (fst entry))
         (fst entry))
    sheets.

(** [parseBuffer], and [parseFile] once the file is read: a fresh
    result, [floatingImageManager.clear()], then the images and the
    sheets *)
Definition parseBuffer (input : Input) (options : ParseOptions.t)
  : ExcelParseResult.t :=
  let st0 :=
    FloatingImageManager.mkState (ExcelParseResult.mk [] JSMap.empty [])
      FloatingImageManager.clear in
  match workbook input with
  | Threw message =>
      FloatingImageManager.result
        (FloatingImageManager.pushError st0 ("解析Buffer失败: " ++ message))
  | Returned sheets =>
      let st1 :=
        if ParseOptions.includeImages options
        then extractImagesFromBuffer (archive input) st0
        else st0 in
      let res := FloatingImageManager.result st1 in
      ExcelParseResult.mk (parseSheets sheets options st1)
        (ExcelParseResult.images res) (ExcelParseResult.errors res)
  end.

Definition extractImages (bytes : Outcome (Outcome Zip))
    (st : FloatingImageManager.State) : FloatingImageManager.State :=
  match bytes with
  | Threw message =>
      FloatingImageManager.pushError st ("读取文件失败: " ++ message)
  | Returned loaded => extractImagesFromBuffer loaded st
  end.

Definition parseFile (input : FileInput) (options : ParseOptions.t)
  : ExcelParseResult.t :=
  let st0 :=
    FloatingImageManager.mkState (ExcelParseResult.mk [] JSMap.empty [])
      FloatingImageManager.clear in
  match fileWorkbook input with
  | Threw message =>
      FloatingImageManager.result
        (FloatingImageManager.pushError st0 ("解析文件失败: " ++ message))
  | Returned sheets =>
      let st1 :=
        if ParseOptions.includeImages options
        then extractImages (fileArchive input) st0
        else st0 in
      let res := FloatingImageManager.result st1 in
      ExcelParseResult.mk (parseSheets sheets options st1)
        (ExcelParseResult.images res) (ExcelParseResult.errors res)
  end.

End WithCollaborators.

End ExcelImageReader.

(* ================================================================= *)
(** * Vocabulary of the properties                                      *)
(* ================================================================= *)

(** ** Image maps *)

(** every entry of [m] is an entry of [m'], unchanged *)
Definition keeps {V : Type} (m m' : JSMap.t V) : Prop :=
  forall k v, JSMap.get m k = Some v -> JSMap.get m' k = Some v.

(** every image is stored under its own id *)
Definition keyedById (images : JSMap.t CellImage.t) : Prop :=
  forall k img, JSMap.get images k = Some img -> CellImage.id img = k.

Definition imagesOf (st : FloatingImageManager.State) : JSMap.t CellImage.t :=
  ExcelParseResult.images (FloatingImageManager.result st).

Definition errorsOf (st : FloatingImageManager.State) : list string :=
  ExcelParseResult.errors (FloatingImageManager.result st).

(** what an image processing step leaves true of the image map *)
Definition imagesGrow (st st' : FloatingImageManager.State) : Prop :=
  keeps (imagesOf st) (imagesOf st')
  /\ (NoDup (JSMap.keys (imagesOf st)) -> NoDup (JSMap.keys (imagesOf st')))
  /\ (keyedById (imagesOf st) -> keyedById (imagesOf st')).

(** the state a parse starts from *)
Definition freshState : FloatingImageManager.State :=
  FloatingImageManager.mkState (ExcelParseResult.mk [] JSMap.empty [])
    FloatingImageManager.clear.

(** the formula of scenario A *)
Definition scenarioA_formula : string :=
  "=_xlfn.DISPIMG("
  ++ String ExcelImageReader.dquote
       ("img1" ++ String ExcelImageReader.dquote
          ("," ++ String ExcelImageReader.dquote
             ("..." ++ String ExcelImageReader.dquote ")"))).

(** ** Rows and bounds of a worksheet scan *)

Definition sumImageCount (rows : list RowData.t) : Z :=
  fold_right (fun row acc => RowData.imageCount row + acc) 0 rows.

Section ScanVocabulary.

Import ExcelImageReader.

Variable worksheet : WorkSheet.t.
Variable images : JSMap.t CellImage.t.
Variable options : ParseOptions.t.
Variable floatingForSheet : JSMap.t (list string).

(** the floating image ids bound to the cells of a row, column by column *)
Definition floatingIdsOfRow (rowNum : Z) (cols : list Z) : list string :=
  flat_map
    (fun colNum => boundIds floatingForSheet
                     (XLSX.encode_cell (XLSX.mkAddr rowNum colNum)))
    cols.

(** the columns of a row whose cell holds a named cell image that resolves *)
Definition namedCellsOfRow (rowNum : Z) (cols : list Z) : list Z :=
  filter
    (fun colNum =>
       namedImageCounts
         (JSMap.get (WorkSheet.cellAt worksheet)
            (XLSX.encode_cell (XLSX.mkAddr rowNum colNum)))
         images)
    cols.

Definition scannedColumns : list Z :=
  let b := scanBounds worksheet floatingForSheet in
  zrange (startCol b) (endCol b).

Definition scannedRowNumbers : list Z :=
  let b := scanBounds worksheet floatingForSheet in
  zrange (startRow b) (endRow b).

(** the row built for a row number, kept or not *)
Definition scannedRow (rowNum : Z) : RowData.t :=
  rowData (scanRow worksheet images options floatingForSheet
             (scanBounds worksheet floatingForSheet) 0 rowNum).

(** every row the loop builds, in order, before the empty ones are dropped *)
Definition scannedRows : list RowData.t :=
  List.map scannedRow scannedRowNumbers.

(** the bounds [b'] enclose the bounds [b] *)
Definition encloses (b' b : Bounds) : Prop :=
  startRow b' <= startRow b /\ startCol b' <= startCol b
  /\ endRow b <= endRow b' /\ endCol b <= endCol b'.

(** the cell lies within the bounds *)
Definition within (b : Bounds) (cell : XLSX.CellAddress) : Prop :=
  startRow b <= XLSX.r cell <= endRow b /\ startCol b <= XLSX.c cell <= endCol b.

(** each bound of [b'] is a bound of [b] or a coordinate of a listed anchor *)
Definition tightOver (b' b : Bounds) (anchors : list string) : Prop :=
  (startRow b' = startRow b
   \/ exists k, In k anchors /\ XLSX.r (XLSX.decode_cell k) = startRow b')
  /\ (startCol b' = startCol b
      \/ exists k, In k anchors /\ XLSX.c (XLSX.decode_cell k) = startCol b')
  /\ (endRow b' = endRow b
      \/ exists k, In k anchors /\ XLSX.r (XLSX.decode_cell k) = endRow b')
  /\ (endCol b' = endCol b
      \/ exists k, In k anchors /\ XLSX.c (XLSX.decode_cell k) = endCol b').

(** what the loop over the ids bound to one cell does to the row *)
Record FloatingStep (cellRef : string) (ids : list string)
    (acc acc' : RowScan) : Prop := {
  fs_nodup : NoDup (rowSeen acc) -> NoDup (rowSeen acc');
  fs_members : forall x, In x (rowSeen acc') <-> In x (rowSeen acc) \/ In x ids;
  fs_count : RowData.imageCount (rowData acc') - RowData.imageCount (rowData acc)
             = Z.of_nat (List.length (rowSeen acc')) - Z.of_nat (List.length (rowSeen acc));
  fs_total : totalImages acc' - totalImages acc
             = RowData.imageCount (rowData acc') - RowData.imageCount (rowData acc);
  fs_cells : RowData.cells (rowData acc') = RowData.cells (rowData acc);
  fs_number : RowData.rowNumber (rowData acc') = RowData.rowNumber (rowData acc);
  fs_refs : forall ref, In ref (RowData.imageCells (rowData acc')) ->
            In ref (RowData.imageCells (rowData acc)) \/ ref = cellRef;
  fs_old_refs : forall ref, In ref (RowData.imageCells (rowData acc)) ->
                In ref (RowData.imageCells (rowData acc'));
  fs_new : forall x, In x (rowSeen acc') -> ~ In x (rowSeen acc) ->
           In cellRef (RowData.imageCells (rowData acc'))
}.

(** what holds of the row after the columns [cols] *)
Record RowInvariant (rowNum total : Z) (cols : list Z) (acc : RowScan)
  : Prop := {
  ri_nodup : NoDup (rowSeen acc);
  ri_members : forall x, In x (rowSeen acc) <-> In x (floatingIdsOfRow rowNum cols);
  ri_count : RowData.imageCount (rowData acc)
             = Z.of_nat (List.length (rowSeen acc))
               + Z.of_nat (List.length (namedCellsOfRow rowNum cols));
  ri_total : totalImages acc = total + RowData.imageCount (rowData acc);
  ri_number : RowData.rowNumber (rowData acc) = rowNum + 1;
  ri_refs : forall x, In x (rowSeen acc) ->
            exists ref, In ref (RowData.imageCells (rowData acc))
                        /\ In x (boundIds floatingForSheet ref)
}.

(** two scans that differ at most in the running total *)
Definition sameRow (acc acc' : RowScan) : Prop :=
  rowSeen acc = rowSeen acc' /\ rowData acc = rowData acc'.




(** the cell record a column contributes to its row: none when the
    sheet has no cell there and empty columns are left out; the first
    floating image bound to the cell stands in when the cell has no
    named cell image *)
Definition cellOfColumn (rowNum colNum : Z) : list CellData.t :=
  let cellRef := XLSX.encode_cell (XLSX.mkAddr rowNum colNum) in
  let cell := JSMap.get (WorkSheet.cellAt worksheet) cellRef in
  let cellData := parseCell cell cellRef images in
  if (match cell with Some _ => true | None => false end)
     || ParseOptions.includeEmptyColumns options
  then
    [match CellData.image cellData, boundIds floatingForSheet cellRef with
     | None, first :: _ =>
         match JSMap.get images first with
         | Some img => withImage cellData img
         | None => cellData
         end
     | _, _ => cellData
     end]
  else [].

Definition cellsOfRow (rowNum : Z) (cols : list Z) : list CellData.t :=
  flat_map (cellOfColumn rowNum) cols.

End ScanVocabulary.

(* ================================================================= *)
(** * A sample package                                                  *)
(* ================================================================= *)

(** One workbook with two sheets.  Sheet1 declares A1:B51, holds a
    heading in A1 and a named cell image in B2, and has a drawing with
    three pictures: one named img1 like the named cell image and
    anchored at row 5, column 0; one whose relationship is external,
    anchored at row 2, column 1; one with an empty name and the numeric
    id 7, anchored at row 100, column 0.  Sheet2 declares A1:C1 and refers to
    the named cell image from B1 and from C1. *)

Module Sample.

(** [Number] on the values of the sample: numbers and strings of
    decimal digits *)
Fixpoint digitsValue (text : string) (acc : Z) : option Z :=
  match text with
  | EmptyString => Some acc
  | String a rest =>
      let d := Z.of_N (N_of_ascii a) - 48 in
      if (0 <=? d) && (d <=? 9) then digitsValue rest (10 * acc + d) else None
  end.

Definition Number (v : JsVal) : option Z :=
  match v with
  | JNum n => Some n
  | JStr text => digitsValue text 0
  | _ => None
  end.

(** the base64 text of the three media parts *)
Definition toBase64 (bytes : string) : string :=
  if String.eqb bytes "PNG1" then "UE5HMQ=="
  else if String.eqb bytes "PNG2" then "UE5HMg=="
  else if String.eqb bytes "PNG3" then "UE5HMw=="
  else "".

Definition relsNs : string :=
  "http://schemas.openxmlformats.org/officeDocument/2006/relationships".

Definition relationshipXml (rid kind target extra : string) : string :=
  "<Relationship Id='" ++ rid ++ "' Type='" ++ relsNs ++ "/" ++ kind
    ++ "' Target='" ++ target ++ "'" ++ extra ++ "/>".

Definition relationshipDoc (rid kind target : string)
    (extra : list (string * JsVal)) : JsVal :=
  JObj ([("Id", JStr rid); ("Type", JStr (relsNs ++ "/" ++ kind));
         ("Target", JStr target)] ++ extra)%list.

Definition picXml (cNvPrAttrs embed : string) : string :=
  "<xdr:pic><xdr:nvPicPr><xdr:cNvPr " ++ cNvPrAttrs ++ "/></xdr:nvPicPr>"
    ++ "<xdr:blipFill><a:blip r:embed='" ++ embed ++ "'/></xdr:blipFill>"
    ++ "<xdr:spPr><a:xfrm><a:off x='0' y='0'/><a:ext cx='100' cy='50'/>"
    ++ "</a:xfrm></xdr:spPr></xdr:pic>".

Definition picDoc (cNvPr : list (string * JsVal)) (embed : string) : JsVal :=
  JObj [("xdr:nvPicPr", JObj [("xdr:cNvPr", JObj cNvPr)]);
        ("xdr:blipFill", JObj [("a:blip", JObj [("r:embed", JStr embed)])]);
        ("xdr:spPr",
         JObj [("a:xfrm",
                JObj [("a:off", JObj [("x", JStr "0"); ("y", JStr "0")]);
                      ("a:ext", JObj [("cx", JStr "100"); ("cy", JStr "50")])])])].

Definition fromXml (col row : string) : string :=
  "<xdr:from><xdr:col>" ++ col ++ "</xdr:col><xdr:row>" ++ row
    ++ "</xdr:row></xdr:from>".

Definition fromDoc (col row : Z) : JsVal :=
  JObj [("xdr:col", JNum col); ("xdr:row", JNum row)].

(** *** The parts *)

Definition cellImagesXml : string :=
  "<etc:cellImages><etc:cellImage>"
    ++ picXml "id='2' name='img1' descr='logo'" "rId1"
    ++ "</etc:cellImage></etc:cellImages>".

Definition cellImagesDoc : JsVal :=
  JObj [("etc:cellImages",
         JObj [("etc:cellImage",
                JObj [("xdr:pic",
                       picDoc [("id", JStr "2"); ("name", JStr "img1");
                               ("descr", JStr "logo")] "rId1")])])].

Definition cellImagesRelsXml : string :=
  "<Relationships>" ++ relationshipXml "rId1" "image" "media/image1.png" ""
    ++ "</Relationships>".

Definition cellImagesRelsDoc : JsVal :=
  JObj [("Relationships",
         JObj [("Relationship",
                relationshipDoc "rId1" "image" "media/image1.png" [])])].

Definition workbookXml : string :=
  "<workbook><sheets><sheet name='Sheet1' sheetId='1' r:id='rId1'/>"
    ++ "<sheet name='Sheet2' sheetId='2' r:id='rId2'/></sheets></workbook>".

Definition workbookDoc : JsVal :=
  JObj [("workbook",
         JObj [("sheets",
                JObj [("sheet",
                       JArr [JObj [("name", JStr "Sheet1"); ("sheetId", JStr "1");
                                   ("r:id", JStr "rId1")];
                             JObj [("name", JStr "Sheet2"); ("sheetId", JStr "2");
                                   ("r:id", JStr "rId2")]])])])].

Definition workbookRelsXml : string :=
  "<Relationships>"
    ++ relationshipXml "rId1" "worksheet" "worksheets/sheet1.xml" ""
    ++ relationshipXml "rId2" "worksheet" "worksheets/sheet2.xml" ""
    ++ "</Relationships>".

Definition workbookRelsDoc : JsVal :=
  JObj [("Relationships",
         JObj [("Relationship",
                JArr [relationshipDoc "rId1" "worksheet" "worksheets/sheet1.xml" [];
                      relationshipDoc "rId2" "worksheet" "worksheets/sheet2.xml" []])])].

Definition sheet1RelsXml : string :=
  "<Relationships>"
    ++ relationshipXml "rId1" "drawing" "../drawings/drawing1.xml" ""
    ++ "</Relationships>".

Definition sheet1RelsDoc : JsVal :=
  JObj [("Relationships",
         JObj [("Relationship",
                relationshipDoc "rId1" "drawing" "../drawings/drawing1.xml" [])])].

Definition drawingXml : string :=
  "<xdr:wsDr>"
    ++ "<xdr:twoCellAnchor>" ++ fromXml "0" "5"
    ++ picXml "id='3' name='img1'" "rId1" ++ "</xdr:twoCellAnchor>"
    ++ "<xdr:twoCellAnchor>" ++ fromXml "1" "2"
    ++ picXml "id='4' name='Picture 2'" "rId2" ++ "</xdr:twoCellAnchor>"
    ++ "<xdr:oneCellAnchor>" ++ fromXml "0" "100"
    ++ picXml "id='7' name=''" "rId3" ++ "</xdr:oneCellAnchor>"
    ++ "</xdr:wsDr>".

Definition anchor1 : JsVal :=
  JObj [("xdr:from", fromDoc 0 5);
        ("xdr:pic", picDoc [("id", JStr "3"); ("name", JStr "img1")] "rId1")].

Definition anchor2 : JsVal :=
  JObj [("xdr:from", fromDoc 1 2);
        ("xdr:pic", picDoc [("id", JStr "4"); ("name", JStr "Picture 2")] "rId2")].

Definition anchor3 : JsVal :=
  JObj [("xdr:from", fromDoc 0 100);
        ("xdr:pic", picDoc [("id", JStr "7"); ("name", JStr "")] "rId3")].

Definition drawingDoc : JsVal :=
  JObj [("xdr:wsDr",
         JObj [("xdr:twoCellAnchor", JArr [anchor1; anchor2]);
               ("xdr:oneCellAnchor", anchor3)])].

Definition drawingRelsXml : string :=
  "<Relationships>"
    ++ relationshipXml "rId1" "image" "../media/image2.png" ""
    ++ relationshipXml "rId2" "image" "https://example.com/picture.png"
         " TargetMode='External'"
    ++ relationshipXml "rId3" "image" "../media/image3.png" ""
    ++ "</Relationships>".

Definition drawingRelsDoc : JsVal :=
  JObj [("Relationships",
         JObj [("Relationship",
                JArr [relationshipDoc "rId1" "image" "../media/image2.png" [];
                      relationshipDoc "rId2" "image" "https://example.com/picture.png"
                        [("TargetMode", JStr "External")];
                      relationshipDoc "rId3" "image" "../media/image3.png" []])])].

(** a relationship part whose only entry has an empty [Target], the
    reference to the part itself *)
Definition emptyTargetRelsXml : string :=
  "<Relationships><Relationship Id='rId9' Type='" ++ relsNs
    ++ "/hyperlink' Target=''/></Relationships>".

Definition emptyTargetEntry : JsVal := relationshipDoc "rId9" "hyperlink" "" [].

Definition emptyTargetRelsDoc : JsVal :=
  JObj [("Relationships", JObj [("Relationship", emptyTargetEntry)])].

(** what the XML parser makes of the parts of the sample; it throws on
    anything else *)
Definition xml_parse (text : string) : option JsVal :=
  if String.eqb text cellImagesXml then Some cellImagesDoc
  else if String.eqb text cellImagesRelsXml then Some cellImagesRelsDoc
  else if String.eqb text workbookXml then Some workbookDoc
  else if String.eqb text workbookRelsXml then Some workbookRelsDoc
  else if String.eqb text sheet1RelsXml then Some sheet1RelsDoc
  else if String.eqb text drawingXml then Some drawingDoc
  else if String.eqb text drawingRelsXml then Some drawingRelsDoc
  else if String.eqb text emptyTargetRelsXml then Some emptyTargetRelsDoc
  else None.

Definition zip : Zip :=
  [("xl/workbook.xml", workbookXml);
   ("xl/_rels/workbook.xml.rels", workbookRelsXml);
   ("xl/cellimages.xml", cellImagesXml);
   ("xl/_rels/cellimages.xml.rels", cellImagesRelsXml);
   ("xl/worksheets/_rels/sheet1.xml.rels", sheet1RelsXml);
   ("xl/drawings/drawing1.xml", drawingXml);
   ("xl/drawings/_rels/drawing1.xml.rels", drawingRelsXml);
   ("xl/media/image1.png", "PNG1");
   ("xl/media/image2.png", "PNG2");
   ("xl/media/image3.png", "PNG3")].

(** *** The workbook as the spreadsheet-model library reads it *)

Definition dispimgOf (imageId : string) : string :=
  "DISPIMG(" ++ String ExcelImageReader.dquote
                  (imageId ++ String ExcelImageReader.dquote ",1)").

Definition imageCell (imageId : string) : CellObject.t :=
  CellObject.mk (VString ("=" ++ dispimgOf imageId)) "str"
    (Some ("_xlfn." ++ dispimgOf imageId)) None.

Definition sheet1 : WorkSheet.t :=
  WorkSheet.mk (Some "A1:B51") None None
    [("A1", CellObject.mk (VString "name") "s" None None);
     ("B2", imageCell "img1")].

Definition sheet2 : WorkSheet.t :=
  WorkSheet.mk (Some "A1:C1") None None
    [("A1", CellObject.mk (VString "twice") "s" None None);
     ("B1", imageCell "img1");
     ("C1", imageCell "img1")].

Definition input : ExcelImageReader.Input :=
  ExcelImageReader.mkInput
    (ExcelImageReader.Returned [("Sheet1", sheet1); ("Sheet2", sheet2)])
    (ExcelImageReader.Returned zip).

Definition withEmptyRows : ParseOptions.t := ParseOptions.mk true true false.

(** the state of the reader when the images are extracted *)
Definition extracted : FloatingImageManager.State :=
  ExcelImageReader.extractImagesFromBuffer xml_parse Number toBase64
    (ExcelImageReader.Returned zip) freshState.

(** the images and the floating bindings the sheets are parsed with *)
Definition images : JSMap.t CellImage.t := imagesOf extracted.

Definition floatingOf (sheetName : string) : JSMap.t (list string) :=
  FloatingImageManager.getSheetFloatingImages
    (FloatingImageManager.floatingImagesBySheet extracted) sheetName.

Definition drawingRels : JSMap.t RelationshipParser.RelationshipInfo :=
  RelationshipParser.parseRelationships xml_parse drawingRelsXml.

Definition pictures : list DrawingParser.FloatingImageInfo :=
  DrawingParser.parseDrawingXml xml_parse Number drawingXml.

(** the picture of the sample whose relationship is external *)
Definition externalPicture : DrawingParser.FloatingImageInfo :=
  DrawingParser.mkInfo "Picture 2" (JStr "") (JStr "rId2")
    (Position.mk (Some 0) (Some 0) (Some 100) (Some 50)) "B3" 2 1 None None.

(** the picture of the sample with a blank name *)
Definition unnamedPicture : DrawingParser.FloatingImageInfo :=
  DrawingParser.mkInfo "7" (JStr "") (JStr "rId3")
    (Position.mk (Some 0) (Some 0) (Some 100) (Some 50)) "A101" 100 0 None None.

(** a cell whose cached value mentions the function while its formula
    holds the call *)
Definition staleValueCell : CellObject.t :=
  CellObject.mk (VString "DISPIMG") "str" (Some ("_xlfn." ++ dispimgOf "img1")) None.

Definition parse (options : ParseOptions.t) : ExcelParseResult.t :=
  ExcelImageReader.parseBuffer xml_parse Number toBase64 input options.

(** a sheet of the sample parsed on its own *)
Definition parsed (worksheet : WorkSheet.t) (sheetName : string)
    (options : ParseOptions.t) : WorksheetData.t :=
  ExcelImageReader.parseWorksheet worksheet images options
    (floatingOf sheetName) sheetName.

End Sample.

(* ================================================================= *)
(** * Vocabulary of the further properties                              *)
(* ================================================================= *)

(** ** Floating images, picture by picture *)

(** why [processFloatingImage] leaves a picture out, [None] when it
    binds it *)
Definition skipReason (toBase64 : string -> string) (zip : option Zip)
    (imageInfo : DrawingParser.FloatingImageInfo) : option string :=
  match FloatingImageManager.truthyProp (DrawingParser.__skip imageInfo) with
  | Some reason => Some reason
  | None =>
      match FloatingImageManager.truthyProp (DrawingParser.mediaPath imageInfo) with
      | None => Some "missing_media_path"
      | Some path =>
          match ImageExtractor.extractImageData toBase64 zip path with
          | None => Some "extract_failed"
          | Some _ => None
          end
      end
  end.

(** the line a picture that is left out adds to [errors] *)
Definition skipLine (toBase64 : string -> string) (zip : option Zip)
    (sheetName : string) (imageInfo : DrawingParser.FloatingImageInfo)
  : list string :=
  match skipReason toBase64 zip imageInfo with
  | Some reason => [FloatingImageManager.skipMessage reason imageInfo sheetName]
  | None => []
  end.

(** the pictures of a drawing that are bound to the cell, in order *)
Definition boundAt (toBase64 : string -> string) (zip : option Zip)
    (cellRef : string) (floatingImages : list DrawingParser.FloatingImageInfo)
  : list DrawingParser.FloatingImageInfo :=
  filter
    (fun imageInfo =>
       match skipReason toBase64 zip imageInfo with
       | Some _ => false
       | None => String.eqb (DrawingParser.cellRef imageInfo) cellRef
       end)
    floatingImages.

(** every id bound to a cell is a key of the image map *)
Definition boundRegistered (st : FloatingImageManager.State) : Prop :=
  forall sheetName cellRef fid,
    In fid (FloatingImageManager.getFloatingImageIds
              (FloatingImageManager.floatingImagesBySheet st) sheetName cellRef) ->
    JSMap.has (imagesOf st) fid = true.


(** ** Rows and cells *)

(** the picture count of a row goes with its list of picture cells *)
Definition tallied (acc : ExcelImageReader.RowScan) : Prop :=
  RowData.imageCount (ExcelImageReader.rowData acc)
  = Z.of_nat (List.length (RowData.imageCells (ExcelImageReader.rowData acc))).

(** ** Workbook sheets and named cell images *)

(** the [sheet] entries [mapSheetNamesToPaths] walks through *)
Definition sheetsOf (workbookDoc : JsVal) : list JsVal :=
  Js.asList
    (Js.or (Js.prop (Js.prop (Js.prop workbookDoc "workbook") "sheets") "sheet")
       (Js.or (Js.prop (Js.prop (Js.prop workbookDoc "x:workbook") "sheets") "sheet")
          (JArr []))).

(** the relationship id of a [sheet] entry: [sheet['r:id'] || sheet.id] *)
Definition sheetRelId (sheet : JsVal) : JsVal :=
  Js.or (Js.prop sheet "r:id") (Js.prop sheet "id").

(** the image [parseCellImages] makes of a declaration: the media part
    is read at the target of its relationship, as it stands *)
Definition namedImageEntry (toBase64 : string -> string) (z : Zip)
    (relationshipMap : JSMap.t RelationshipParser.RelationshipInfo)
    (cellImage : ExcelImageReader.NamedCellImage) : option CellImage.t :=
  match FloatingImageManager.relOf relationshipMap
          (ExcelImageReader.named_relationshipId cellImage) with
  | None => None
  | Some relationship =>
      match ImageExtractor.extractImageData toBase64 (Some z)
              (RelationshipParser.target relationship) with
      | None => None
      | Some imageResult =>
          Some (ImageExtractor.createCellImage
                  (ExcelImageReader.named_id cellImage)
                  (ExcelImageReader.named_description cellImage)
                  (ExcelImageReader.named_relationshipId cellImage)
                  (ExcelImageReader.named_position cellImage) imageResult)
      end
  end.

(** the entries the declarations write, in order *)
Definition namedEntries (toBase64 : string -> string) (z : Zip)
    (relationshipMap : JSMap.t RelationshipParser.RelationshipInfo)
    (cellImages : list ExcelImageReader.NamedCellImage)
  : list (string * CellImage.t) :=
  flat_map
    (fun cellImage =>
       match namedImageEntry toBase64 z relationshipMap cellImage with
       | Some img => [(ExcelImageReader.named_id cellImage, img)]
       | None => []
       end)
    cellImages.

(** the last entry written under the key *)
Definition lastEntry {V : Type} (key : string) (entries : list (string * V))
  : option V :=
  option_map snd (List.find (fun entry => String.eqb (fst entry) key) (rev entries)).

(** the text of one double quote *)
Definition quote : string := String ExcelImageReader.dquote EmptyString.

(** the call of the image function on an id, as a formula holds it *)
Definition dispimgCall (imageId : string) : string :=
  "DISPIMG(" ++ quote ++ imageId ++ quote.

(** ** Further inputs *)

Module Cases.

(** an anchor whose picture sits in an [mc:AlternateContent] wrapper,
    with a picture in each branch *)
Definition wrappedAnchor : JsVal :=
  JObj [("xdr:from", Sample.fromDoc 0 5);
        ("mc:AlternateContent",
         JObj [("mc:Choice",
                JObj [("xdr:pic",
                       Sample.picDoc [("id", JStr "3"); ("name", JStr "chosen")] "rId1")]);
               ("mc:Fallback",
                JObj [("xdr:pic",
                       Sample.picDoc [("id", JStr "4"); ("name", JStr "fallback")]
                         "rId3")])])].

(** the drawing relationship of the first sheet of the sample *)
Definition sheet1Drawing : RelationshipParser.RelationshipInfo :=
  RelationshipParser.mkRel "rId1" (Sample.relsNs ++ "/drawing")
    "../drawings/drawing1.xml" JUndefined.


(** a sheet with a numeric zero in B2 and nothing else *)
Definition zeroSheet : WorkSheet.t :=
  WorkSheet.mk (Some "A1:C3") None None
    [("B2", CellObject.mk (VNumber 0) "n" None (Some 4))].


End Cases.

(* ================================================================= *)
(** * Part II. Properties                                               *)
(* ================================================================= *)

(** ** The string built-ins on small inputs *)

Example trim_blank : JS.trim "   " = "".
Proof. reflexivity. Qed.

Example trim_inner : JS.trim "  Picture 1 " = "Picture 1".
Proof. reflexivity. Qed.

Example toLowerCase_External : JS.toLowerCase "External" = "external".
Proof. reflexivity. Qed.

Example lastSegment_path :
  JS.lastSegment "/" "worksheets/sheet1.xml" = "sheet1.xml".
Proof. reflexivity. Qed.

Example lastSegment_none : JS.lastSegment "." "image" = "image".
Proof. reflexivity. Qed.

Example replaceFirst_rels :
  JS.replaceFirst "drawings/" "drawings/_rels/" "drawings/drawing1.xml"
  = "drawings/_rels/drawing1.xml".
Proof. reflexivity. Qed.

Example includes_inside : JS.includes "DISPIMG" "=_xlfn.DISPIMG(1)" = true.
Proof. reflexivity. Qed.

Example numberToString_negative : JS.numberToString (-120) = "-120".
Proof. reflexivity. Qed.

Example mime_of_upper_case :
  ImageExtractor.getMimeTypeFromPath "media/IMAGE1.PNG" = "image/png".
Proof. reflexivity. Qed.

Example mime_default :
  ImageExtractor.getMimeTypeFromPath "media/image1.emf" = "image/jpeg".
Proof. reflexivity. Qed.

Example matchDispimg_formula :
  ExcelImageReader.matchDispimg scenarioA_formula = Some "img1".
Proof. reflexivity. Qed.

Example matchDispimg_unclosed :
  ExcelImageReader.matchDispimg
    ("DISPIMG(" ++ String ExcelImageReader.dquote "img1") = None.
Proof. reflexivity. Qed.

Example matchDispimg_second_call :
  ExcelImageReader.matchDispimg
    ("DISPIMG(" ++ String ExcelImageReader.dquote
                     (String ExcelImageReader.dquote
                        (") DISPIMG(" ++ String ExcelImageReader.dquote
                                           ("b" ++ String ExcelImageReader.dquote ")"))))
  = Some "b".
Proof. reflexivity. Qed.

(** ** Cell addresses: decoding inverts encoding *)

Example encode_cell_A1 : XLSX.encode_cell (XLSX.mkAddr 0 0) = "A1".
Proof. reflexivity. Qed.

Example encode_cell_AB101 : XLSX.encode_cell (XLSX.mkAddr 100 27) = "AB101".
Proof. reflexivity. Qed.

Example encode_cell_ZZ10 : XLSX.encode_cell (XLSX.mkAddr 9 701) = "ZZ10".
Proof. reflexivity. Qed.

Example decode_cell_AB101 : XLSX.decode_cell "AB101" = XLSX.mkAddr 100 27.
Proof. reflexivity. Qed.

Example decode_range_B2_AA51 :
  XLSX.decode_range "B2:AA51"
  = XLSX.mkRange (XLSX.mkAddr 1 1) (XLSX.mkAddr 50 26).
Proof. reflexivity. Qed.

Lemma decode_loop_app (a b : string) (RC : Z * Z) :
  XLSX.decode_loop (a ++ b) RC = XLSX.decode_loop b (XLSX.decode_loop a RC).
Proof.
  revert RC; induction a as [|x a IH]; intros RC; simpl; [reflexivity|apply IH].
Qed.

Lemma code_of_N (n : N) : (n < 256)%N -> N_of_ascii (ascii_of_N n) = n.
Proof. apply N_ascii_embedding. Qed.

Lemma decode_step_letter (R C d : Z) :
  0 <= d < 26 ->
  XLSX.decode_step (R, C) (XLSX.letterChar d) = (R, 26 * C + (d + 1)).
Proof.
  intros Hd. unfold XLSX.decode_step, XLSX.letterChar.
  rewrite code_of_N by (apply N2Z.inj_lt; change (Z.of_N 256) with 256; rewrite Z2N.id; lia).
  rewrite Z2N.id by lia. cbn [fst snd].
  replace (48 <=? 65 + d) with true by (symmetry; apply Z.leb_le; lia).
  replace (65 + d <=? 57) with false by (symmetry; apply Z.leb_gt; lia).
  replace (65 <=? 65 + d) with true by (symmetry; apply Z.leb_le; lia).
  replace (65 + d <=? 90) with true by (symmetry; apply Z.leb_le; lia).
  cbn [andb]. f_equal; lia.
Qed.

Lemma decode_step_digit (R C d : Z) :
  0 <= d < 10 ->
  XLSX.decode_step (R, C) (JS.digitChar d) = (10 * R + d, C).
Proof.
  intros Hd. unfold XLSX.decode_step, JS.digitChar.
  rewrite code_of_N by (apply N2Z.inj_lt; change (Z.of_N 256) with 256; rewrite Z2N.id; lia).
  rewrite Z2N.id by lia. cbn [fst snd].
  replace (48 <=? 48 + d) with true by (symmetry; apply Z.leb_le; lia).
  replace (48 + d <=? 57) with true by (symmetry; apply Z.leb_le; lia).
  cbn [andb]. f_equal; lia.
Qed.

Lemma lettersInto_decode (fuel : nat) :
  forall col acc R, 0 <= col < 2 ^ Z.of_nat fuel ->
  XLSX.decode_loop (XLSX.lettersInto fuel col acc) (R, 0) =
  XLSX.decode_loop acc (R, col).
Proof.
  induction fuel as [|fuel IH]; intros col acc R Hc.
  - simpl in *. assert (col = 0) by lia. subst. reflexivity.
  - simpl XLSX.lettersInto. destruct (col =? 0) eqn:E.
    + apply Z.eqb_eq in E. subst. reflexivity.
    + apply Z.eqb_neq in E.
      rewrite Z.quot_div_nonneg, Z.rem_mod_nonneg by lia.
      assert (Hm : 0 <= (col - 1) mod 26 < 26) by (apply Z.mod_pos_bound; lia).
      assert (Hq : col - 1 = 26 * ((col - 1) / 26) + (col - 1) mod 26)
        by (apply Z.div_mod; lia).
      assert (Hq0 : 0 <= (col - 1) / 26) by (apply Z.div_pos; lia).
      rewrite IH.
      * simpl XLSX.decode_loop. rewrite decode_step_letter by exact Hm.
        f_equal. f_equal. lia.
      * split; [exact Hq0|].
        rewrite Nat2Z.inj_succ, Z.pow_succ_r in Hc by lia. lia.
Qed.

Lemma digitsInto_decode (fuel : nat) :
  forall n acc C, 0 <= n < 2 ^ Z.of_nat fuel ->
  XLSX.decode_loop (JS.digitsInto fuel n acc) (0, C) =
  XLSX.decode_loop acc (n, C).
Proof.
  induction fuel as [|fuel IH]; intros n acc C Hn.
  - simpl in *. assert (n = 0) by lia. subst. reflexivity.
  - simpl JS.digitsInto. destruct (n <=? 0) eqn:E.
    + apply Z.leb_le in E. assert (n = 0) by lia. subst. reflexivity.
    + apply Z.leb_gt in E.
      assert (Hm : 0 <= n mod 10 < 10) by (apply Z.mod_pos_bound; lia).
      assert (Hq : n = 10 * (n / 10) + n mod 10) by (apply Z.div_mod; lia).
      assert (Hq0 : 0 <= n / 10) by (apply Z.div_pos; lia).
      rewrite IH.
      * simpl XLSX.decode_loop. rewrite decode_step_digit by exact Hm.
        f_equal. f_equal. lia.
      * split; [exact Hq0|].
        rewrite Nat2Z.inj_succ, Z.pow_succ_r in Hn by lia. lia.
Qed.

Lemma fuelFor_enough (n : Z) : 0 <= n -> 0 <= n < 2 ^ Z.of_nat (JS.fuelFor n).
Proof.
  intros Hn. split; [exact Hn|]. unfold JS.fuelFor.
  rewrite Nat2Z.inj_succ, Z2Nat.id by apply Z.log2_nonneg.
  destruct (Z.eq_dec n 0) as [->|Hz]; [reflexivity|].
  apply Z.log2_spec. lia.
Qed.

Theorem decode_encode_cell (row col : Z) :
  0 <= row -> 0 <= col ->
  XLSX.decode_cell (XLSX.encode_cell (XLSX.mkAddr row col)) = XLSX.mkAddr row col.
Proof.
  intros Hr Hc. unfold XLSX.decode_cell, XLSX.encode_cell, XLSX.encode_col, XLSX.encode_row.
  cbn [XLSX.c XLSX.r].
  rewrite decode_loop_app, Z.abs_eq by lia.
  rewrite lettersInto_decode by (apply fuelFor_enough; lia).
  cbn [XLSX.decode_loop].
  unfold JS.numberToString.
  replace (row + 1 <? 0) with false by (symmetry; apply Z.ltb_ge; lia).
  unfold JS.natToString.
  replace (row + 1 <=? 0) with false by (symmetry; apply Z.leb_gt; lia).
  rewrite digitsInto_decode by (apply fuelFor_enough; lia).
  cbn [XLSX.decode_loop fst snd]. f_equal; lia.
Qed.

Lemma allChars_app P (a b : string) :
  JS.allChars P (a ++ b) = JS.allChars P a && JS.allChars P b.
Proof.
  induction a as [|x a IH]; simpl; [reflexivity|].
  rewrite IH. apply andb_assoc.
Qed.

Lemma notColon_letter d : 0 <= d < 26 -> JS.notColon (XLSX.letterChar d) = true.
Proof.
  intros Hd. unfold JS.notColon. apply negb_true_iff, Ascii.eqb_neq.
  intros E. apply (f_equal N_of_ascii) in E. unfold XLSX.letterChar in E.
  rewrite code_of_N in E
    by (apply N2Z.inj_lt; change (Z.of_N 256) with 256; rewrite Z2N.id; lia).
  apply (f_equal Z.of_N) in E. rewrite Z2N.id in E by lia.
  change (Z.of_N (N_of_ascii ":")) with 58 in E. lia.
Qed.

Lemma notColon_digit d : 0 <= d < 10 -> JS.notColon (JS.digitChar d) = true.
Proof.
  intros Hd. unfold JS.notColon. apply negb_true_iff, Ascii.eqb_neq.
  intros E. apply (f_equal N_of_ascii) in E. unfold JS.digitChar in E.
  rewrite code_of_N in E
    by (apply N2Z.inj_lt; change (Z.of_N 256) with 256; rewrite Z2N.id; lia).
  apply (f_equal Z.of_N) in E. rewrite Z2N.id in E by lia.
  change (Z.of_N (N_of_ascii ":")) with 58 in E. lia.
Qed.

Lemma lettersInto_notColon (fuel : nat) :
  forall col acc, 0 <= col -> JS.allChars JS.notColon acc = true ->
  JS.allChars JS.notColon (XLSX.lettersInto fuel col acc) = true.
Proof.
  induction fuel as [|fuel IH]; intros col acc Hc Ha; simpl; [exact Ha|].
  destruct (col =? 0) eqn:E; [exact Ha|].
  apply Z.eqb_neq in E.
  rewrite Z.quot_div_nonneg, Z.rem_mod_nonneg by lia.
  apply IH; [apply Z.div_pos; lia|].
  simpl. rewrite Ha, notColon_letter; [reflexivity|].
  apply Z.mod_pos_bound; lia.
Qed.

Lemma digitsInto_notColon (fuel : nat) :
  forall n acc, JS.allChars JS.notColon acc = true ->
  JS.allChars JS.notColon (JS.digitsInto fuel n acc) = true.
Proof.
  induction fuel as [|fuel IH]; intros n acc Ha; simpl; [exact Ha|].
  destruct (n <=? 0) eqn:E; [exact Ha|].
  apply IH. simpl. rewrite Ha, notColon_digit; [reflexivity|].
  apply Z.mod_pos_bound; lia.
Qed.

Lemma encode_cell_notColon (row col : Z) :
  0 <= row -> 0 <= col ->
  JS.allChars JS.notColon (XLSX.encode_cell (XLSX.mkAddr row col)) = true.
Proof.
  intros Hr Hc. unfold XLSX.encode_cell, XLSX.encode_col, XLSX.encode_row.
  cbn [XLSX.c XLSX.r]. rewrite allChars_app.
  rewrite lettersInto_notColon by (reflexivity || lia).
  unfold JS.numberToString, JS.natToString.
  replace (row + 1 <? 0) with false by (symmetry; apply Z.ltb_ge; lia).
  replace (row + 1 <=? 0) with false by (symmetry; apply Z.leb_gt; lia).
  rewrite digitsInto_notColon by reflexivity. reflexivity.
Qed.

Lemma splitColon_app (a b : string) :
  JS.allChars JS.notColon a = true ->
  XLSX.splitColon (a ++ String ":" b) = Some (a, b).
Proof.
  induction a as [|x a IH]; simpl; intros Ha; [reflexivity|].
  apply andb_true_iff in Ha as [Hx Ha]. unfold JS.notColon in Hx.
  apply negb_true_iff in Hx. rewrite Hx, (IH Ha). reflexivity.
Qed.

Lemma decode_range_encode (sr sc er ec : Z) :
  0 <= sr -> 0 <= sc -> 0 <= er -> 0 <= ec ->
  XLSX.decode_range
    (XLSX.encode_cell (XLSX.mkAddr sr sc) ++ ":" ++ XLSX.encode_cell (XLSX.mkAddr er ec))
  = XLSX.mkRange (XLSX.mkAddr sr sc) (XLSX.mkAddr er ec).
Proof.
  intros. unfold XLSX.decode_range.
  change (":" ++ ?x) with (String ":" x).
  rewrite splitColon_app by (apply encode_cell_notColon; assumption).
  rewrite !decode_encode_cell by assumption. reflexivity.
Qed.

(** ** Maps *)

Section MapFacts.

Context {V : Type}.
Implicit Types (m : JSMap.t V) (k : string) (v : V).

Lemma get_set_same m k v : JSMap.get (JSMap.set m k v) k = Some v.
Proof.
  induction m as [|[k' v'] m IH]; simpl.
  - rewrite String.eqb_refl. reflexivity.
  - destruct (String.eqb k' k) eqn:E; simpl; rewrite E; [reflexivity|exact IH].
Qed.

Lemma get_set_other m k k' v :
  k <> k' -> JSMap.get (JSMap.set m k v) k' = JSMap.get m k'.
Proof.
  intros Hne. induction m as [|[k0 v0] m IH]; simpl.
  - destruct (String.eqb k k') eqn:E; [|reflexivity].
    apply String.eqb_eq in E. contradiction.
  - destruct (String.eqb k0 k) eqn:E; simpl.
    + apply String.eqb_eq in E. subst k0.
      destruct (String.eqb k k') eqn:E'; [|reflexivity].
      apply String.eqb_eq in E'. contradiction.
    + destruct (String.eqb k0 k'); [reflexivity|exact IH].
Qed.

Lemma get_None_keys m k : JSMap.get m k = None <-> ~ In k (JSMap.keys m).
Proof.
  induction m as [|[k' v'] m IH]; simpl.
  - split; [intros _ []|reflexivity].
  - destruct (String.eqb k' k) eqn:E.
    + apply String.eqb_eq in E. split; [discriminate|]. intros H. elim H. now left.
    + apply String.eqb_neq in E. rewrite IH. split.
      * intros H [H1|H1]; [contradiction|exact (H H1)].
      * intros H H1. apply H. now right.
Qed.

Lemma has_true_keys m k : JSMap.has m k = true <-> In k (JSMap.keys m).
Proof.
  unfold JSMap.has. destruct (JSMap.get m k) eqn:E.
  - split; [intros _|reflexivity].
    destruct (in_dec string_dec k (JSMap.keys m)) as [H|H]; [exact H|].
    apply get_None_keys in H. congruence.
  - split; [discriminate|]. intros H. apply get_None_keys in E. contradiction.
Qed.

Lemma keys_set_present m k v :
  In k (JSMap.keys m) -> JSMap.keys (JSMap.set m k v) = JSMap.keys m.
Proof.
  induction m as [|[k' v'] m IH]; simpl; [intros []|].
  intros H. destruct (String.eqb k' k) eqn:E; simpl; [reflexivity|].
  apply String.eqb_neq in E. f_equal. apply IH. destruct H; [contradiction|assumption].
Qed.

Lemma keys_set_absent m k v :
  ~ In k (JSMap.keys m) -> JSMap.keys (JSMap.set m k v) = (JSMap.keys m ++ [k])%list.
Proof.
  induction m as [|[k' v'] m IH]; simpl; [reflexivity|].
  intros H. destruct (String.eqb k' k) eqn:E; simpl.
  - apply String.eqb_eq in E. elim H. now left.
  - f_equal. apply IH. intros H1. apply H. now right.
Qed.

Lemma NoDup_keys_set m k v :
  NoDup (JSMap.keys m) -> NoDup (JSMap.keys (JSMap.set m k v)).
Proof.
  intros Hn. destruct (in_dec string_dec k (JSMap.keys m)) as [H|H].
  - rewrite keys_set_present by exact H. exact Hn.
  - rewrite keys_set_absent by exact H.
    apply NoDup_app; [exact Hn|repeat constructor; intros []|].
    intros a Ha [<-|[]]. contradiction.
Qed.

End MapFacts.

(** ** Strings *)

Lemma startsWith_app (p rest : string) : JS.startsWith p (p ++ rest) = true.
Proof.
  induction p as [|a p IH]; simpl; [reflexivity|].
  rewrite Ascii.eqb_refl. exact IH.
Qed.

Lemma drop_app (p rest : string) : JS.drop (String.length p) (p ++ rest) = rest.
Proof. induction p as [|a p IH]; simpl; [reflexivity|exact IH]. Qed.

Lemma startsWith_inv (p s : string) :
  JS.startsWith p s = true -> s = p ++ JS.drop (String.length p) s.
Proof.
  revert s; induction p as [|a p IH]; intros s H; simpl in *; [reflexivity|].
  destruct s as [|b s]; [discriminate|].
  apply andb_true_iff in H as [Hab H]. apply Ascii.eqb_eq in Hab. subst b.
  simpl. f_equal. apply IH, H.
Qed.

Lemma dropWhileChar_split (c : ascii) (s : string) :
  exists prefix,
    s = prefix ++ JS.dropWhileChar c s
    /\ JS.allChars (fun a => Ascii.eqb a c) prefix = true
    /\ JS.startsWith (String c EmptyString) (JS.dropWhileChar c s) = false.
Proof.
  induction s as [|a s IH]; simpl.
  - exists EmptyString. repeat split.
  - destruct (Ascii.eqb a c) eqn:E.
    + destruct IH as (p & Hs & Hp & Hn). exists (String a p). simpl.
      rewrite E, Hp. repeat split; [f_equal; exact Hs|exact Hn].
    + exists EmptyString. simpl. rewrite Ascii.eqb_sym, E. repeat split.
Qed.

(** ** normalizeTargetPath *)

Section RelationshipFacts.

Import RelationshipParser.


Lemma normalize_parent (fromFolder : Folder) (rest : string) :
  normalizeTargetPath fromFolder ("../" ++ rest) = rest.
Proof.
  destruct fromFolder; unfold normalizeTargetPath, stripParent;
    rewrite startsWith_app; exact (drop_app "../" rest).
Qed.

Lemma normalize_cases (fromFolder : Folder) (target : string) :
  JS.startsWith "../" target = false ->
  normalizeTargetPath fromFolder target =
    if JS.startsWith "/" target then stripSlashes target
    else if startsWithAny (recognizedFolders fromFolder) target then target
    else folderName fromFolder ++ "/" ++ target.
Proof.
  intros H. destruct fromFolder; unfold normalizeTargetPath; rewrite H;
    destruct (JS.startsWith "/" target); try reflexivity;
    unfold startsWithAny, recognizedFolders; cbn [existsb].
  - destruct (JS.startsWith "worksheets/" target),
             (JS.startsWith "drawings/" target),
             (JS.startsWith "media/" target); reflexivity.
  - destruct (JS.startsWith "drawings/" target),
             (JS.startsWith "media/" target); reflexivity.
Qed.

(** C6 (amended). For either folder: a target that starts with [../]
    loses that prefix; otherwise a target that starts with [/] loses all
    its leading slashes; otherwise a target that starts with none of the
    folder names the branch recognizes gets the calling folder's name in
    front, and one that starts with a recognized name is returned
    unchanged. From [worksheets] the recognized names are [worksheets/],
    [drawings/] and [media/]; from [drawings] they are [drawings/] and
    [media/] only. *)
Theorem normalizeTargetPath_rules (fromFolder : Folder) (target : string) :
  (forall rest, target = "../" ++ rest ->
     normalizeTargetPath fromFolder target = rest)
  /\ (JS.startsWith "../" target = false ->
      JS.startsWith "/" target = true ->
      exists slashes,
        target = slashes ++ normalizeTargetPath fromFolder target
        /\ JS.allChars (fun a => Ascii.eqb a "/") slashes = true
        /\ JS.startsWith "/" (normalizeTargetPath fromFolder target) = false)
  /\ (JS.startsWith "../" target = false ->
      JS.startsWith "/" target = false ->
      startsWithAny (recognizedFolders fromFolder) target = false ->
      normalizeTargetPath fromFolder target
        = folderName fromFolder ++ "/" ++ target)
  /\ (JS.startsWith "../" target = false ->
      JS.startsWith "/" target = false ->
      startsWithAny (recognizedFolders fromFolder) target = true ->
      normalizeTargetPath fromFolder target = target).
Proof.
  split; [|split; [|split]].
  - intros rest ->. apply normalize_parent.
  - intros Hp Hs. rewrite (normalize_cases _ _ Hp), Hs.
    exact (dropWhileChar_split "/" target).
  - intros Hp Hs Hr. rewrite (normalize_cases _ _ Hp), Hs, Hr. reflexivity.
  - intros Hp Hs Hr. rewrite (normalize_cases _ _ Hp), Hs, Hr. reflexivity.
Qed.

(** C6 on four targets. *)
Lemma normalizeTargetPath_rules_witness :
  normalizeTargetPath drawings "../media/image1.png" = "media/image1.png"
  /\ normalizeTargetPath worksheets "drawing1.xml" = "worksheets/drawing1.xml"
  /\ normalizeTargetPath drawings "worksheets/sheet1.xml"
       = "drawings/worksheets/sheet1.xml"
  /\ normalizeTargetPath worksheets "drawings/drawing1.xml"
       = "drawings/drawing1.xml".
Proof.
  split; [|split; [|split]].
  - exact (proj1 (normalizeTargetPath_rules drawings "../media/image1.png")
             "media/image1.png" eq_refl).
  - exact (proj1 (proj2 (proj2 (normalizeTargetPath_rules worksheets "drawing1.xml")))
             eq_refl eq_refl eq_refl).
  - exact (proj1 (proj2 (proj2 (normalizeTargetPath_rules drawings
                                  "worksheets/sheet1.xml")))
             eq_refl eq_refl eq_refl).
  - exact (proj2 (proj2 (proj2 (normalizeTargetPath_rules worksheets
                                  "drawings/drawing1.xml")))
             eq_refl eq_refl eq_refl).
Defined.

(** C6 as stated fails: called from [drawings], a target that starts
    with the folder name [worksheets/] is not returned unchanged. *)
Lemma normalizeTargetPath_drawings_worksheets_prefix :
  JS.startsWith "../" "worksheets/sheet1.xml" = false
  /\ JS.startsWith "/" "worksheets/sheet1.xml" = false
  /\ JS.startsWith "worksheets/" "worksheets/sheet1.xml" = true
  /\ normalizeTargetPath drawings "worksheets/sheet1.xml"
       <> "worksheets/sheet1.xml".
Proof. repeat split. discriminate. Qed.

(** ** parseRelationships *)

Lemma find_app {A : Type} (f : A -> bool) (l1 l2 : list A) :
  List.find f (l1 ++ l2) =
  match List.find f l1 with Some a => Some a | None => List.find f l2 end.
Proof.
  induction l1 as [|a l1 IH]; simpl; [reflexivity|].
  destruct (f a); [reflexivity|exact IH].
Qed.








Section ParseRelationships.

Variable xml_parse : string -> option JsVal.



End ParseRelationships.

End RelationshipFacts.

(** ** DrawingParser: the id of a floating image *)

Section DrawingFacts.

Import DrawingParser.

Variable xml_parse : string -> option JsVal.
Variable Number : JsVal -> option Z.


Lemma extractImageFromAnchor_id (anchor : JsVal) (info : FloatingImageInfo) :
  extractImageFromAnchor Number anchor = Some info ->
  relationshipId info = embedOf (picOf anchor)
  /\ Js.truthy (relationshipId info) = true
  /\ cellRef info = XLSX.encode_cell (XLSX.mkAddr (rowIndex info) (colIndex info))
  /\ __skip info = None /\ mediaPath info = None
  /\ id info =
       JS.orElse (nameCandidate (cNvPrOf (picOf anchor)))
         (JS.orElse (idCandidate (cNvPrOf (picOf anchor)))
            (JS.orElse (relCandidate (relationshipId info))
               ("floating_" ++ cellRef info))).
Proof.
  unfold extractImageFromAnchor.
  destruct (Js.truthy (picOf anchor)); simpl negb; cbv iota; [|discriminate].
  destruct (Js.truthy (embedOf (picOf anchor))) eqn:Hrel; simpl negb; cbv iota;
    [|discriminate].
  destruct (Number (Js.coalesce (Js.prop _ "xdr:row") _)) as [rowI|]; [|discriminate].
  destruct (Number (Js.coalesce (Js.prop _ "xdr:col") _)) as [colI|]; [|discriminate].
  intros [= <-]. simpl. repeat split; assumption.
Qed.

Lemma collectImages_In (anchors : list JsVal) (info : FloatingImageInfo) :
  In info (collectImages Number anchors) ->
  exists anchor, In anchor anchors
                 /\ extractImageFromAnchor Number anchor = Some info.
Proof.
  induction anchors as [|a anchors IH]; simpl; [intros []|].
  destruct (extractImageFromAnchor Number a) as [i|] eqn:E.
  - intros [<-|H].
    + exists a. split; [now left|exact E].
    + destruct (IH H) as (x & Hx & Hx'). exists x. split; [now right|exact Hx'].
  - intros H. destruct (IH H) as (x & Hx & Hx'). exists x. split; [now right|exact Hx'].
Qed.


End DrawingFacts.

(** ** FloatingImageManager: skipped images and the first registration *)

Lemma keeps_refl {V : Type} (m : JSMap.t V) : keeps m m.
Proof. intros k v H; exact H. Qed.

Lemma keeps_trans {V : Type} (m1 m2 m3 : JSMap.t V) :
  keeps m1 m2 -> keeps m2 m3 -> keeps m1 m3.
Proof. intros H1 H2 k v H. apply H2, H1, H. Qed.

Lemma keeps_set_new {V : Type} (m : JSMap.t V) (k : string) (v : V) :
  JSMap.has m k = false -> keeps m (JSMap.set m k v).
Proof.
  intros Hhas k' v' Hget. rewrite get_set_other; [exact Hget|].
  intros ->. unfold JSMap.has in Hhas. rewrite Hget in Hhas. discriminate.
Qed.

Lemma keyedById_set (images : JSMap.t CellImage.t) (k : string)
    (img : CellImage.t) :
  keyedById images -> CellImage.id img = k -> keyedById (JSMap.set images k img).
Proof.
  intros Hk Hid k' img' Hget.
  destruct (string_dec k k') as [<-|Hne].
  - rewrite get_set_same in Hget. injection Hget as <-. exact Hid.
  - rewrite get_set_other in Hget by exact Hne. apply Hk, Hget.
Qed.

Lemma toLowerCase_nonempty (mode : string) :
  JS.toLowerCase mode = "external" -> JS.truthy mode = true.
Proof. destruct mode; [discriminate|reflexivity]. Qed.

Section ManagerFacts.

Import DrawingParser FloatingImageManager.

Variable xml_parse : string -> option JsVal.
Variable Number : JsVal -> option Z.
Variable toBase64 : string -> string.

Lemma imagesGrow_refl st : imagesGrow st st.
Proof. repeat split; auto using keeps_refl. Qed.

Lemma imagesGrow_trans st1 st2 st3 :
  imagesGrow st1 st2 -> imagesGrow st2 st3 -> imagesGrow st1 st3.
Proof.
  intros (A1 & B1 & C1) (A2 & B2 & C2). repeat split; eauto using keeps_trans.
Qed.

Lemma imagesGrow_same_images st st' :
  imagesOf st' = imagesOf st -> imagesGrow st st'.
Proof.
  intros H. unfold imagesGrow. rewrite H. repeat split; auto using keeps_refl.
Qed.

Lemma imagesGrow_fold {A : Type} (f : State -> A -> State) (l : list A) :
  (forall st a, imagesGrow st (f st a)) ->
  forall st, imagesGrow st (fold_left f l st).
Proof.
  intros Hf. induction l as [|a l IH]; intros st; simpl.
  - apply imagesGrow_refl.
  - eapply imagesGrow_trans; [apply Hf|apply IH].
Qed.

Lemma extractAndBind_grows zip imageInfo path sheetName st :
  imagesGrow st (extractAndBind toBase64 zip imageInfo path sheetName st).
Proof.
  unfold extractAndBind.
  destruct (ImageExtractor.extractImageData _ _ _) as [imageResult|];
    [|apply imagesGrow_same_images; reflexivity].
  cbv zeta.
  destruct (JSMap.has _ (id imageInfo)) eqn:Hhas; simpl negb; cbv iota.
  - apply imagesGrow_same_images. reflexivity.
  - unfold imagesGrow, imagesOf. simpl. repeat split.
    + apply keeps_set_new, Hhas.
    + apply NoDup_keys_set.
    + intros Hk. apply keyedById_set; [exact Hk|reflexivity].
Qed.

Lemma processFloatingImage_grows zip imageInfo sheetName st :
  imagesGrow st (processFloatingImage toBase64 zip imageInfo sheetName st).
Proof.
  unfold processFloatingImage.
  destruct (truthyProp (__skip imageInfo));
    [apply imagesGrow_same_images; reflexivity|].
  destruct (truthyProp (mediaPath imageInfo));
    [apply extractAndBind_grows|apply imagesGrow_same_images; reflexivity].
Qed.

Lemma parseSheetFloatingImages_grows zip sheetName sheetPath st :
  imagesGrow st
    (parseSheetFloatingImages xml_parse Number toBase64 zip sheetName sheetPath st).
Proof.
  unfold parseSheetFloatingImages.
  destruct zip as [z|]; [|apply imagesGrow_refl].
  destruct (getSheetRelationships _ _ _) as [sheetRels|]; [|apply imagesGrow_refl].
  destruct (RelationshipParser.findDrawingRelationship sheetRels) as [drawingRel|];
    [|apply imagesGrow_refl].
  unfold processAll. apply imagesGrow_fold.
  intros st0 a. apply processFloatingImage_grows.
Qed.

Lemma parseFloatingImages_grows zip st :
  imagesGrow st (parseFloatingImages xml_parse Number toBase64 zip st).
Proof.
  unfold parseFloatingImages. apply imagesGrow_fold.
  intros st0 a. apply parseSheetFloatingImages_grows.
Qed.

(** C5. A floating image whose drawing relationship has the target mode
    [External], in any letter case, is marked to be skipped and gets no
    media path; processing it leaves the image map and the bindings as
    they were, appends the message [[skip] reason=external id=.. sheet=..
    cell=..] to the errors, does not depend on the archive (nothing is
    read from it), and the loop goes on with the images that follow. *)
Theorem external_image_is_skipped
    (zip : option Zip)
    (drawingRels : JSMap.t RelationshipParser.RelationshipInfo)
    (imageInfo : FloatingImageInfo) (rid mode : string)
    (rel : RelationshipParser.RelationshipInfo)
    (sheetName : string) (rest : list FloatingImageInfo) (st : State) :
  relationshipId imageInfo = JStr rid ->
  JSMap.get drawingRels rid = Some rel ->
  RelationshipParser.targetMode rel = JStr mode ->
  JS.toLowerCase mode = "external" ->
  let marked := resolveMedia drawingRels imageInfo in
  let message :=
    "[skip] reason=external id=" ++ id imageInfo ++ " sheet=" ++ sheetName
      ++ " cell=" ++ cellRef imageInfo in
  let st' := processFloatingImage toBase64 zip marked sheetName st in
  __skip marked = Some "external"
  /\ mediaPath marked = mediaPath imageInfo
  /\ imagesOf st' = imagesOf st
  /\ floatingImagesBySheet st' = floatingImagesBySheet st
  /\ errorsOf st' = (errorsOf st ++ [message])%list
  /\ (forall otherZip,
        processFloatingImage toBase64 otherZip marked sheetName st = st')
  /\ processAll toBase64 zip (marked :: rest) sheetName st
     = processAll toBase64 zip rest sheetName st'.
Proof.
  intros Hrid Hget Hmode Hext.
  assert (Hmarked : resolveMedia drawingRels imageInfo = withSkip imageInfo "external").
  { unfold resolveMedia, relOf. rewrite Hrid, Hget.
    unfold isExternal. rewrite Hmode. simpl Js.truthy. simpl Js.toString.
    rewrite (toLowerCase_nonempty _ Hext), Hext. reflexivity. }
  cbv zeta. rewrite Hmarked.
  unfold processFloatingImage, withSkip; simpl.
  repeat split.
Qed.

End ManagerFacts.

(** ** ExcelImageReader: one image map for both mechanisms *)

Section ReaderImages.

Import FloatingImageManager ExcelImageReader.

Variable xml_parse : string -> option JsVal.
Variable Number : JsVal -> option Z.
Variable toBase64 : string -> string.

Lemma processFloatingImage_existing zip imageInfo sheetName st :
  JSMap.has (imagesOf st) (DrawingParser.id imageInfo) = true ->
  imagesOf (processFloatingImage toBase64 zip imageInfo sheetName st)
  = imagesOf st.
Proof.
  intros Hhas. unfold processFloatingImage.
  destruct (truthyProp (DrawingParser.__skip imageInfo)); [reflexivity|].
  destruct (truthyProp (DrawingParser.mediaPath imageInfo)); [|reflexivity].
  unfold extractAndBind.
  destruct (ImageExtractor.extractImageData _ _ _); [|reflexivity].
  cbv zeta. unfold imagesOf in Hhas. rewrite Hhas. reflexivity.
Qed.

Lemma registerNamed_invariants z relationshipMap images cellImage :
  (NoDup (JSMap.keys images) ->
   NoDup (JSMap.keys (registerNamed toBase64 z relationshipMap images cellImage)))
  /\ (keyedById images ->
      keyedById (registerNamed toBase64 z relationshipMap images cellImage)).
Proof.
  unfold registerNamed.
  destruct (relOf _ _); [|split; auto].
  destruct (ImageExtractor.extractImageData _ _ _); [|split; auto].
  split; [apply NoDup_keys_set|].
  intros Hk. apply keyedById_set; [exact Hk|reflexivity].
Qed.

Lemma afterNamedImages_invariants z st :
  (NoDup (JSMap.keys (imagesOf st)) ->
   NoDup (JSMap.keys (imagesOf (afterNamedImages xml_parse Number toBase64 z st))))
  /\ (keyedById (imagesOf st) ->
      keyedById (imagesOf (afterNamedImages xml_parse Number toBase64 z st))).
Proof.
  unfold afterNamedImages.
  destruct (readText z "xl/cellimages.xml"); [|split; auto].
  destruct (readText z "xl/_rels/cellimages.xml.rels"); [|split; auto].
  unfold parseCellImages, imagesOf. simpl.
  set (rels := RelationshipParser.parseRelationships _ _).
  generalize (ExcelParseResult.images (result st)).
  induction (parseCellImagesXml xml_parse Number s) as [|c l IH]; intros images;
    simpl; [split; auto|].
  destruct (registerNamed_invariants z rels images c) as [H1 H2].
  destruct (IH (registerNamed toBase64 z rels images c)) as [H3 H4].
  split; auto.
Qed.

Lemma parseBuffer_images (input : Input) (options : ParseOptions.t) :
  ExcelParseResult.images (parseBuffer xml_parse Number toBase64 input options)
  = match workbook input, archive input with
    | Returned _, Returned z =>
        if ParseOptions.includeImages options
        then imagesOf (parseFloatingImages xml_parse Number toBase64 (Some z)
                         (afterNamedImages xml_parse Number toBase64 z freshState))
        else JSMap.empty
    | _, _ => JSMap.empty
    end.
Proof.
  unfold parseBuffer. destruct (workbook input) as [msg|sheets]; simpl.
  - destruct (archive input); reflexivity.
  - destruct (ParseOptions.includeImages options), (archive input); reflexivity.
Qed.

(** C4. The keys of the image map of a parse result are pairwise
    distinct; every entry registered by the named cell pipeline is still
    there, unchanged, after the floating pipeline; and a floating image
    never changes an entry that exists: when its id is present the map
    is left as it is. *)
Theorem first_registered_image_wins (input : Input) (options : ParseOptions.t) :
  let images :=
    ExcelParseResult.images (parseBuffer xml_parse Number toBase64 input options) in
  NoDup (JSMap.keys images)
  /\ (forall sheets z,
        workbook input = Returned sheets ->
        archive input = Returned z ->
        ParseOptions.includeImages options = true ->
        keeps (imagesOf (afterNamedImages xml_parse Number toBase64 z freshState))
              images)
  /\ (forall zip imageInfo sheetName st,
        keeps (imagesOf st)
              (imagesOf (processFloatingImage toBase64 zip imageInfo sheetName st))
        /\ (JSMap.has (imagesOf st) (DrawingParser.id imageInfo) = true ->
            imagesOf (processFloatingImage toBase64 zip imageInfo sheetName st)
            = imagesOf st)).
Proof.
  cbv zeta. rewrite parseBuffer_images. split; [|split].
  - destruct (workbook input); [constructor|].
    destruct (archive input) as [|z]; [constructor|].
    destruct (ParseOptions.includeImages options); [|constructor].
    apply (parseFloatingImages_grows xml_parse Number toBase64).
    apply afterNamedImages_invariants. constructor.
  - intros sheets z -> -> ->.
    apply (parseFloatingImages_grows xml_parse Number toBase64).
  - intros zip imageInfo sheetName st. split.
    + apply processFloatingImage_grows.
    + apply processFloatingImage_existing.
Qed.

(** every image of a parse result is stored under its own id *)
Lemma parseBuffer_images_keyed (input : Input) (options : ParseOptions.t) :
  keyedById
    (ExcelParseResult.images (parseBuffer xml_parse Number toBase64 input options)).
Proof.
  rewrite parseBuffer_images.
  assert (He : keyedById JSMap.empty) by (intros k img; discriminate).
  destruct (workbook input); [exact He|].
  destruct (archive input) as [|z]; [exact He|].
  destruct (ParseOptions.includeImages options); [|exact He].
  apply (parseFloatingImages_grows xml_parse Number toBase64).
  apply afterNamedImages_invariants. exact He.
Qed.

End ReaderImages.

(** ** parseCell: named cell images *)

Section CellFacts.

Import ExcelImageReader.

Variable xml_parse : string -> option JsVal.
Variable Number : JsVal -> option Z.
Variable toBase64 : string -> string.



End CellFacts.

(** ** parseWorksheet *)

Lemma fold_left_snoc_inv {A B : Type} (f : A -> B -> A) (P : list B -> A -> Prop)
    (a0 : A) :
  P [] a0 ->
  (forall l a x, P l a -> P (l ++ [x])%list (f a x)) ->
  forall l, P l (fold_left f l a0).
Proof.
  intros H0 Hstep l. induction l as [|x l IH] using rev_ind; [exact H0|].
  rewrite fold_left_app. simpl. apply Hstep, IH.
Qed.

Lemma NoDup_same_members_length (l1 l2 : list string) :
  NoDup l1 -> NoDup l2 -> (forall x, In x l1 <-> In x l2) ->
  List.length l1 = List.length l2.
Proof.
  intros H1 H2 H. apply Permutation_length, NoDup_Permutation; assumption.
Qed.

Lemma existsb_eqb_In (x : string) (l : list string) :
  existsb (String.eqb x) l = true <-> In x l.
Proof.
  rewrite existsb_exists. split.
  - intros (y & Hy & E). apply String.eqb_eq in E. now subst.
  - intros H. exists x. split; [exact H|apply String.eqb_refl].
Qed.

Lemma zrange_In (lo hi x : Z) : In x (ExcelImageReader.zrange lo hi) <-> lo <= x <= hi.
Proof.
  unfold ExcelImageReader.zrange. rewrite in_map_iff. split.
  - intros (i & <- & Hi). apply in_seq in Hi. lia.
  - intros H. exists (Z.to_nat (x - lo)). split; [lia|]. apply in_seq. lia.
Qed.

Section WorksheetFacts.

Import ExcelImageReader.

Variable worksheet : WorkSheet.t.
Variable images : JSMap.t CellImage.t.
Variable options : ParseOptions.t.
Variable floatingForSheet : JSMap.t (list string).

#[local] Abbreviation scanCell := (scanCell worksheet images options floatingForSheet).
#[local] Abbreviation scanRow := (scanRow worksheet images options floatingForSheet).
#[local] Abbreviation RowInvariant :=
  (RowInvariant worksheet images floatingForSheet).

(** *** The loop over the ids bound to one cell *)

Lemma countFloating_fold (cellRef : string) (ids : list string) :
  forall acc,
  FloatingStep cellRef ids acc (fold_left (countFloating cellRef) ids acc).
Proof.
  induction ids as [|fid ids IH]; intros acc; simpl.
  - constructor; simpl; try tauto; try lia; try reflexivity.
  - specialize (IH (countFloating cellRef acc fid)).
    destruct IH as [N M C T Ce Nu R O W].
    unfold countFloating in *.
    destruct (existsb (String.eqb fid) (rowSeen acc)) eqn:E.
    + apply existsb_eqb_In in E.
      constructor; try assumption.
      intros x. rewrite M. split.
      * intros [Hx|Hx]; [now left|right; now right].
      * intros [Hx|[<-|Hx]]; [now left|now left|now right].
    + assert (Hnot : ~ In fid (rowSeen acc)).
      { intros H. apply existsb_eqb_In in H. congruence. }
      simpl in *. constructor.
      * intros Hn. apply N. constructor; assumption.
      * intros x. rewrite M. simpl. split.
        -- intros [[<-|Hx]|Hx]; [right; now left|now left|right; now right].
        -- intros [Hx|[<-|Hx]]; [left; now right|left; now left|now right].
      * lia.
      * lia.
      * exact Ce.
      * exact Nu.
      * intros ref Hr. destruct (R ref Hr) as [Hx|Hx]; [|now right].
        apply in_app_or in Hx as [Hx|[<-|[]]]; [now left|now right].
      * intros ref Hr. apply O, in_or_app. now left.
      * intros x Hx Hnx. apply O, in_or_app. right. now left.
Qed.

(** *** The loop over the columns of one row *)

Lemma namedImageCounts_None : namedImageCounts None images = false.
Proof. reflexivity. Qed.

Lemma scanCell_invariant (rowNum total : Z) (cols : list Z) (acc : RowScan)
    (colNum : Z) :
  RowInvariant rowNum total cols acc ->
  RowInvariant rowNum total (cols ++ [colNum]) (scanCell rowNum acc colNum).
Proof.
  intros [N M C T Nu R].
  unfold ExcelImageReader.scanCell.
  set (cellRef := XLSX.encode_cell (XLSX.mkAddr rowNum colNum)).
  set (cell := JSMap.get (WorkSheet.cellAt worksheet) cellRef).
  set (ids := boundIds floatingForSheet cellRef).
  destruct (countFloating_fold cellRef ids acc) as [N1 M1 C1 T1 Ce1 Nu1 R1 O1 W1].
  set (acc1 := fold_left (countFloating cellRef) ids acc) in *.
  assert (Hfl : forall x, In x (rowSeen acc1)
                      <-> In x (floatingIdsOfRow floatingForSheet rowNum (cols ++ [colNum]))).
  { intros x. rewrite M1, M. unfold floatingIdsOfRow.
    rewrite flat_map_app, in_app_iff. simpl. rewrite app_nil_r. reflexivity. }
  assert (Hnamed : List.length (namedCellsOfRow worksheet images rowNum (cols ++ [colNum]))
                   = (List.length (namedCellsOfRow worksheet images rowNum cols)
                      + (if namedImageCounts cell images then 1 else 0))%nat).
  { unfold namedCellsOfRow. rewrite filter_app, length_app. simpl.
    fold cellRef. fold cell. destruct (namedImageCounts cell images); reflexivity. }
  assert (Hrefs1 : forall x, In x (rowSeen acc1) ->
            exists ref, In ref (RowData.imageCells (rowData acc1))
                        /\ In x (boundIds floatingForSheet ref)).
  { intros x Hx.
    destruct (in_dec string_dec x (rowSeen acc)) as [Hold|Hnew].
    - destruct (R x Hold) as (ref & Hr & Hb). exists ref. split; [apply O1, Hr|exact Hb].
    - exists cellRef. split; [apply (W1 x Hx Hnew)|].
      apply M1 in Hx as [Hx|Hx]; [contradiction|exact Hx]. }
  destruct ((match cell with Some _ => true | None => false end)
            || ParseOptions.includeEmptyColumns options) eqn:Hkeep.
  - destruct (namedImageCounts cell images) eqn:Hn; simpl.
    + constructor; simpl.
      * apply N1, N.
      * exact Hfl.
      * rewrite Hnamed. lia.
      * lia.
      * rewrite Nu1. exact Nu.
      * intros x Hx. destruct (Hrefs1 x Hx) as (ref & Hr & Hb).
        exists ref. split; [apply in_or_app; now left|exact Hb].
    + constructor; simpl.
      * apply N1, N.
      * exact Hfl.
      * rewrite Hnamed. lia.
      * lia.
      * rewrite Nu1. exact Nu.
      * exact Hrefs1.
  - assert (Hn : namedImageCounts cell images = false).
    { destruct cell; [discriminate|reflexivity]. }
    rewrite Hn in Hnamed.
    constructor.
    + apply N1, N.
    + exact Hfl.
    + rewrite Hnamed. lia.
    + lia.
    + rewrite Nu1. exact Nu.
    + exact Hrefs1.
Qed.

Lemma newRow_fresh (rowNum : Z) :
  RowData.rowNumber (newRow worksheet rowNum) = rowNum + 1
  /\ RowData.imageCount (newRow worksheet rowNum) = 0
  /\ RowData.cells (newRow worksheet rowNum) = []
  /\ RowData.imageCells (newRow worksheet rowNum) = [].
Proof. unfold newRow. destruct (rowHeight worksheet rowNum); repeat split. Qed.

Lemma scanRow_invariant (b : Bounds) (total rowNum : Z) :
  RowInvariant rowNum total (zrange (startCol b) (endCol b))
    (scanRow b total rowNum).
Proof.
  unfold ExcelImageReader.scanRow.
  apply (fold_left_snoc_inv (scanCell rowNum) (RowInvariant rowNum total)).
  - destruct (newRow_fresh rowNum) as (H1 & H2 & H3 & H4).
    constructor; simpl.
    + constructor.
    + intros x. tauto.
    + rewrite H2. reflexivity.
    + rewrite H2. lia.
    + exact H1.
    + intros x [].
  - intros l a x. apply scanCell_invariant.
Qed.

(** *** The running total does not shape the row *)

Lemma countFloating_sameRow cellRef ids :
  forall acc acc', sameRow acc acc' ->
  sameRow (fold_left (countFloating cellRef) ids acc)
          (fold_left (countFloating cellRef) ids acc').
Proof.
  induction ids as [|fid ids IH]; intros acc acc' [Hs Hd]; simpl; [now split|].
  apply IH. unfold countFloating. rewrite Hs, Hd.
  destruct (existsb _ _); split; simpl; congruence.
Qed.

Lemma scanCell_sameRow rowNum colNum acc acc' :
  sameRow acc acc' ->
  sameRow (scanCell rowNum acc colNum) (scanCell rowNum acc' colNum).
Proof.
  intros H. unfold ExcelImageReader.scanCell.
  set (cellRef := XLSX.encode_cell (XLSX.mkAddr rowNum colNum)).
  destruct (countFloating_sameRow cellRef (boundIds floatingForSheet cellRef) _ _ H)
    as [Hs Hd].
  destruct (_ || _); [|now split].
  rewrite Hs, Hd. destruct (namedImageCounts _ _); split; reflexivity.
Qed.

Lemma scanRow_total_irrelevant (b : Bounds) (total rowNum : Z) :
  rowData (scanRow b total rowNum) = rowData (scanRow b 0 rowNum).
Proof.
  unfold ExcelImageReader.scanRow.
  assert (H : sameRow (mkRowScan [] (newRow worksheet rowNum) total)
                      (mkRowScan [] (newRow worksheet rowNum) 0)) by (split; reflexivity).
  revert H. generalize (mkRowScan [] (newRow worksheet rowNum) total)
                       (mkRowScan [] (newRow worksheet rowNum) 0).
  induction (zrange (startCol b) (endCol b)) as [|c l IH]; intros a a' H; simpl.
  - apply H.
  - apply IH, scanCell_sameRow, H.
Qed.

End WorksheetFacts.

Lemma sumImageCount_app (l1 l2 : list RowData.t) :
  sumImageCount (l1 ++ l2) = sumImageCount l1 + sumImageCount l2.
Proof.
  unfold sumImageCount. induction l1 as [|a l1 IH]; simpl; [reflexivity|].
  rewrite IH. lia.
Qed.


Section BoundsFacts.

Import ExcelImageReader.

Lemma expandBounds_step (b : Bounds) (k : string) :
  encloses (expandBounds b k) b
  /\ within (expandBounds b k) (XLSX.decode_cell k)
  /\ tightOver (expandBounds b k) b [k].
Proof.
  unfold encloses, within, tightOver, expandBounds.
  set (cell := XLSX.decode_cell k).
  cbn [startRow startCol endRow endCol].
  rewrite !Z.gtb_ltb.
  destruct (Z.ltb_spec (XLSX.r cell) (startRow b));
  destruct (Z.ltb_spec (XLSX.c cell) (startCol b));
  destruct (Z.ltb_spec (endRow b) (XLSX.r cell));
  destruct (Z.ltb_spec (endCol b) (XLSX.c cell));
  repeat split; try lia;
  first [now left | right; exists k; split; [now left|reflexivity]].
Qed.

Lemma expandBounds_fold (anchors : list string) :
  forall b,
  let b' := fold_left expandBounds anchors b in
  encloses b' b
  /\ (forall k, In k anchors -> within b' (XLSX.decode_cell k))
  /\ tightOver b' b anchors.
Proof.
  induction anchors as [|k anchors IH]; intros b; simpl.
  - unfold encloses, tightOver. repeat split; try lia; try (now left).
  - destruct (IH (expandBounds b k)) as (E & W & T).
    destruct (expandBounds_step b k) as (E1 & W1 & T1).
    set (b' := fold_left expandBounds anchors (expandBounds b k)) in *.
    split; [|split].
    + unfold encloses in *. lia.
    + intros k0 [<-|Hk]; [|apply W, Hk].
      unfold within, encloses in *. lia.
    + unfold tightOver in *.
      destruct T as (Ta & Tb & Tc & Td). destruct T1 as (Sa & Sb & Sc & Sd).
      repeat split.
      * destruct Ta as [Ta|(k0 & Hk0 & Ek0)];
          [|right; exists k0; split; [now right|exact Ek0]].
        destruct Sa as [Sa|(k0 & [<-|[]] & Ek0)];
          [left; congruence|right; exists k; split; [now left|congruence]].
      * destruct Tb as [Tb|(k0 & Hk0 & Ek0)];
          [|right; exists k0; split; [now right|exact Ek0]].
        destruct Sb as [Sb|(k0 & [<-|[]] & Ek0)];
          [left; congruence|right; exists k; split; [now left|congruence]].
      * destruct Tc as [Tc|(k0 & Hk0 & Ek0)];
          [|right; exists k0; split; [now right|exact Ek0]].
        destruct Sc as [Sc|(k0 & [<-|[]] & Ek0)];
          [left; congruence|right; exists k; split; [now left|congruence]].
      * destruct Td as [Td|(k0 & Hk0 & Ek0)];
          [|right; exists k0; split; [now right|exact Ek0]].
        destruct Sd as [Sd|(k0 & [<-|[]] & Ek0)];
          [left; congruence|right; exists k; split; [now left|congruence]].
Qed.

End BoundsFacts.

Section SheetFacts.

Import ExcelImageReader.

Variable worksheet : WorkSheet.t.
Variable images : JSMap.t CellImage.t.
Variable options : ParseOptions.t.
Variable floatingForSheet : JSMap.t (list string).

#[local] Abbreviation bounds := (scanBounds worksheet floatingForSheet).
#[local] Abbreviation rowOf := (scannedRow worksheet images options floatingForSheet).
#[local] Abbreviation parsed :=
  (parseWorksheet worksheet images options floatingForSheet).

Lemma scanSheetRow_fold (rowNums : list Z) :
  let scanned :=
    fold_left (scanSheetRow worksheet images options floatingForSheet bounds)
      rowNums (mkSheetScan [] 0 0) in
  sheetRows scanned = filter (keepRow options) (List.map rowOf rowNums)
  /\ sheetTotal scanned = sumImageCount (List.map rowOf rowNums).
Proof.
  apply (fold_left_snoc_inv
           (scanSheetRow worksheet images options floatingForSheet bounds)
           (fun done acc =>
              sheetRows acc = filter (keepRow options) (List.map rowOf done)
              /\ sheetTotal acc = sumImageCount (List.map rowOf done))).
  - split; reflexivity.
  - intros done acc rowNum [Hrows Htotal].
    unfold scanSheetRow. cbv zeta.
    rewrite (scanRow_total_irrelevant worksheet images options floatingForSheet
               bounds (sheetTotal acc) rowNum).
    fold (rowOf rowNum).
    destruct (scanRow_invariant worksheet images options floatingForSheet
                bounds (sheetTotal acc) rowNum) as [_ _ _ T _ _].
    rewrite (scanRow_total_irrelevant worksheet images options floatingForSheet
               bounds (sheetTotal acc) rowNum) in T.
    fold (rowOf rowNum) in T.
    rewrite map_app, filter_app, sumImageCount_app. simpl.
    split.
    + rewrite Hrows. destruct (keepRow options (rowOf rowNum)); simpl;
        [reflexivity|now rewrite app_nil_r].
    + rewrite T, Htotal. unfold sumImageCount. simpl. lia.
Qed.

Lemma parseWorksheet_rows (sheetName : string) :
  WorksheetData.rows (parsed sheetName)
  = filter (keepRow options)
      (scannedRows worksheet images options floatingForSheet).
Proof. apply (scanSheetRow_fold _). Qed.

Lemma parseWorksheet_total (sheetName : string) :
  WorksheetData.totalImages (parsed sheetName)
  = sumImageCount (scannedRows worksheet images options floatingForSheet).
Proof. apply (scanSheetRow_fold _). Qed.

Lemma scannedRow_count (rowNum : Z) :
  RowData.rowNumber (rowOf rowNum) = rowNum + 1
  /\ RowData.imageCount (rowOf rowNum)
     = Z.of_nat (List.length (nodup string_dec
                   (floatingIdsOfRow floatingForSheet rowNum
                      (scannedColumns worksheet floatingForSheet))))
       + Z.of_nat (List.length
                     (namedCellsOfRow worksheet images rowNum
                        (scannedColumns worksheet floatingForSheet))).
Proof.
  destruct (scanRow_invariant worksheet images options floatingForSheet
              bounds 0 rowNum) as [N M C _ Nu _].
  split; [exact Nu|]. unfold scannedRow. rewrite C. f_equal. f_equal.
  apply NoDup_same_members_length; [exact N|apply NoDup_nodup|].
  intros x. rewrite nodup_In. apply M.
Qed.


(** C3 (amended). [totalImages] is the plain sum of [imageCount] over
    every row of the scan range, emitted or not, with no deduplication
    across rows; the emitted rows are the scanned rows that pass the row
    filter, and when [includeEmptyRows] is set the sum over the emitted
    rows is [totalImages]. *)
Theorem totalImages_sums_scanned_rows (sheetName : string) :
  WorksheetData.totalImages (parsed sheetName)
  = sumImageCount (scannedRows worksheet images options floatingForSheet)
  /\ WorksheetData.rows (parsed sheetName)
     = filter (keepRow options)
         (scannedRows worksheet images options floatingForSheet)
  /\ (ParseOptions.includeEmptyRows options = true ->
      WorksheetData.totalImages (parsed sheetName)
      = sumImageCount (WorksheetData.rows (parsed sheetName))).
Proof.
  split; [apply parseWorksheet_total|]. split; [apply parseWorksheet_rows|].
  intros Hall. rewrite parseWorksheet_total, parseWorksheet_rows. f_equal.
  symmetry. apply forallb_filter_id, forallb_forall.
  intros row _. unfold keepRow. rewrite Hall. reflexivity.
Qed.

(** C10. The reported dimension is the declared range, encoded back to
    cell addresses: it is the same whatever floating images are bound to
    the sheet, it is A1:A1 when no range is declared, and for a declared
    range written in A1 notation its two ends are the declared ones. *)
Theorem dimension_is_declared_range (sheetName : string) :
  WorksheetData.dimension (parsed sheetName)
  = (XLSX.encode_cell (XLSX.s (declaredRange worksheet)),
     XLSX.encode_cell (XLSX.e (declaredRange worksheet)))
  /\ WorksheetData.dimension (parsed sheetName)
     = WorksheetData.dimension
         (parseWorksheet worksheet images options JSMap.empty sheetName)
  /\ (WorkSheet.ref worksheet = None ->
      WorksheetData.dimension (parsed sheetName) = ("A1", "A1"))
  /\ (forall sr sc er ec,
        0 <= sr -> 0 <= sc -> 0 <= er -> 0 <= ec ->
        WorkSheet.ref worksheet
        = Some (XLSX.encode_cell (XLSX.mkAddr sr sc) ++ ":"
                  ++ XLSX.encode_cell (XLSX.mkAddr er ec)) ->
        WorksheetData.dimension (parsed sheetName)
        = (XLSX.encode_cell (XLSX.mkAddr sr sc),
           XLSX.encode_cell (XLSX.mkAddr er ec))).
Proof.
  split; [reflexivity|]. split; [reflexivity|]. split.
  - intros Href. unfold parseWorksheet, declaredRange. rewrite Href. reflexivity.
  - intros sr sc er ec Hsr Hsc Her Hec Href.
    unfold parseWorksheet, declaredRange. rewrite Href. cbn [WorksheetData.dimension].
    assert (Hd : XLSX.decode_range
                   (match (XLSX.encode_cell (XLSX.mkAddr sr sc) ++ ":"
                            ++ XLSX.encode_cell (XLSX.mkAddr er ec)) with
                    | String a rest => String a rest
                    | EmptyString => "A1:A1"
                    end)
                 = XLSX.mkRange (XLSX.mkAddr sr sc) (XLSX.mkAddr er ec)).
    { rewrite <- (decode_range_encode sr sc er ec) by assumption.
      destruct (XLSX.encode_cell (XLSX.mkAddr sr sc) ++ ":"
                  ++ XLSX.encode_cell (XLSX.mkAddr er ec)) eqn:E; [|reflexivity].
      exfalso. destruct (XLSX.encode_cell (XLSX.mkAddr sr sc)); discriminate. }
    rewrite Hd. reflexivity.
Qed.

End SheetFacts.

(** ** The cells of an emitted row *)

Section CellsFacts.

Import ExcelImageReader.

Variable worksheet : WorkSheet.t.
Variable images : JSMap.t CellImage.t.
Variable options : ParseOptions.t.
Variable floatingForSheet : JSMap.t (list string).

Lemma scanCell_cells (rowNum : Z) (acc : RowScan) (colNum : Z) :
  RowData.cells
    (rowData (scanCell worksheet images options floatingForSheet rowNum acc colNum))
  = (RowData.cells (rowData acc)
     ++ cellOfColumn worksheet images options floatingForSheet rowNum colNum)%list.
Proof.
  unfold scanCell, cellOfColumn.
  set (cellRef := XLSX.encode_cell (XLSX.mkAddr rowNum colNum)).
  destruct (countFloating_fold cellRef (boundIds floatingForSheet cellRef) acc)
    as [_ _ _ _ Ce _ _ _ _].
  destruct (_ || _).
  - destruct (namedImageCounts _ _); simpl; rewrite Ce; reflexivity.
  - rewrite Ce, app_nil_r. reflexivity.
Qed.

Lemma scanRow_cells (b : Bounds) (total rowNum : Z) :
  RowData.cells
    (rowData (scanRow worksheet images options floatingForSheet b total rowNum))
  = cellsOfRow worksheet images options floatingForSheet rowNum
      (zrange (startCol b) (endCol b)).
Proof.
  unfold scanRow, cellsOfRow.
  apply (fold_left_snoc_inv
           (scanCell worksheet images options floatingForSheet rowNum)
           (fun cols acc =>
              RowData.cells (rowData acc)
              = flat_map
                  (cellOfColumn worksheet images options floatingForSheet rowNum)
                  cols)).
  - apply (newRow_fresh worksheet rowNum).
  - intros cols acc colNum IH. rewrite scanCell_cells, IH, flat_map_app.
    simpl. rewrite app_nil_r. reflexivity.
Qed.

(** the cells of an emitted row are the cell records of the scanned
    columns, in order *)
Lemma emitted_row_cells (sheetName : string) (row : RowData.t) :
  In row (WorksheetData.rows
            (parseWorksheet worksheet images options floatingForSheet sheetName)) ->
  RowData.cells row
  = cellsOfRow worksheet images options floatingForSheet
      (RowData.rowNumber row - 1)
      (scannedColumns worksheet floatingForSheet).
Proof.
  rewrite parseWorksheet_rows. intros Hin.
  apply filter_In in Hin as [Hin _].
  unfold scannedRows in Hin. apply in_map_iff in Hin as (rowNum & <- & _).
  destruct (scannedRow_count worksheet images options floatingForSheet rowNum)
    as [Hn _].
  rewrite Hn. replace (rowNum + 1 - 1) with rowNum by lia.
  apply scanRow_cells.
Qed.

End CellsFacts.

(** ** The anchors of the floating images and the scan range *)

Section AnchorFacts.

Import ExcelImageReader.

Variable worksheet : WorkSheet.t.
Variable images : JSMap.t CellImage.t.
Variable options : ParseOptions.t.
Variable floatingForSheet : JSMap.t (list string).

#[local] Abbreviation bounds := (scanBounds worksheet floatingForSheet).
#[local] Abbreviation rowOf := (scannedRow worksheet images options floatingForSheet).
#[local] Abbreviation parsed :=
  (parseWorksheet worksheet images options floatingForSheet).

Lemma scanBounds_union :
  encloses bounds (declaredBounds worksheet)
  /\ (forall k, In k (JSMap.keys floatingForSheet) ->
      within bounds (XLSX.decode_cell k))
  /\ tightOver bounds (declaredBounds worksheet) (JSMap.keys floatingForSheet).
Proof. apply expandBounds_fold. Qed.


End AnchorFacts.

Section SampleFacts.

Import ExcelImageReader.

(** ** The sample package, property by property *)

Example sample_parse_sheets :
  ExcelParseResult.worksheets (Sample.parse ParseOptions.defaults)
  = [Sample.parsed Sample.sheet1 "Sheet1" ParseOptions.defaults;
     Sample.parsed Sample.sheet2 "Sheet2" ParseOptions.defaults].
Proof. vm_compute. reflexivity. Qed.

Example sample_bindings :
  Sample.floatingOf "Sheet1" = [("A6", ["img1"]); ("A101", ["7"])]
  /\ Sample.floatingOf "Sheet2" = [].
Proof. split; vm_compute; reflexivity. Qed.

Example sample_images :
  List.map (fun img => (CellImage.id img, CellImage.base64 img))
    (JSMap.values Sample.images)
  = [("img1", "data:image/png;base64,UE5HMQ==");
     ("7", "data:image/png;base64,UE5HMw==")]
  /\ JSMap.keys Sample.images = ["img1"; "7"]
  /\ ExcelParseResult.images (Sample.parse ParseOptions.defaults) = Sample.images.
Proof. repeat split; vm_compute; reflexivity. Qed.

Example sample_errors :
  ExcelParseResult.errors (Sample.parse ParseOptions.defaults)
  = ["[skip] reason=external id=Picture 2 sheet=Sheet1 cell=B3"].
Proof. vm_compute. reflexivity. Qed.

Example sample_cell_B2 :
  List.map
    (fun row =>
       (RowData.rowNumber row,
        List.map (fun cell => (CellData.ref cell, CellData.type cell,
                               option_map CellImage.id (CellData.image cell)))
          (RowData.cells row)))
    (WorksheetData.rows
       (Sample.parsed Sample.sheet1 "Sheet1" ParseOptions.defaults))
  = [(1, [("A1", TString, None)]); (2, [("B2", TImage, Some "img1")])].
Proof. vm_compute. reflexivity. Qed.

Example sample_pictures :
  List.map DrawingParser.id Sample.pictures = ["img1"; "Picture 2"; "7"]
  /\ nth_error Sample.pictures 1 = Some Sample.externalPicture
  /\ nth_error Sample.pictures 2 = Some Sample.unnamedPicture.
Proof. vm_compute. repeat split. Qed.





(** C3 on the sample, with [includeEmptyRows]. *)
Lemma totalImages_sums_scanned_rows_witness :
  WorksheetData.totalImages
    (Sample.parsed Sample.sheet1 "Sheet1" Sample.withEmptyRows)
  = sumImageCount
      (WorksheetData.rows
         (Sample.parsed Sample.sheet1 "Sheet1" Sample.withEmptyRows)).
Proof.
  apply (totalImages_sums_scanned_rows Sample.sheet1 Sample.images
           Sample.withEmptyRows (Sample.floatingOf "Sheet1") "Sheet1").
  reflexivity.
Defined.

(** C3 as stated fails: under the default options Sheet1 reports 3
    images while its emitted rows count 1. *)
Lemma totalImages_exceeds_emitted_rows :
  WorksheetData.totalImages
    (Sample.parsed Sample.sheet1 "Sheet1" ParseOptions.defaults) = 3
  /\ List.map (fun row => (RowData.rowNumber row, RowData.imageCount row))
       (WorksheetData.rows
          (Sample.parsed Sample.sheet1 "Sheet1" ParseOptions.defaults))
     = [(1, 0); (2, 1)]
  /\ sumImageCount
       (WorksheetData.rows
          (Sample.parsed Sample.sheet1 "Sheet1" ParseOptions.defaults)) = 1.
Proof. repeat split; vm_compute; reflexivity. Qed.

(** C4 on the sample: the named cell image img1 and the picture named
    img1 collide, and the entry of the named cell image is kept. *)
Lemma first_registered_image_wins_witness :
  option_map CellImage.base64
    (JSMap.get (imagesOf (afterNamedImages Sample.xml_parse Sample.Number
                            Sample.toBase64 Sample.zip freshState)) "img1")
  = Some "data:image/png;base64,UE5HMQ=="
  /\ option_map CellImage.base64
       (JSMap.get (ExcelParseResult.images (Sample.parse ParseOptions.defaults))
          "img1")
     = Some "data:image/png;base64,UE5HMQ==".
Proof.
  destruct (JSMap.get (imagesOf (afterNamedImages Sample.xml_parse Sample.Number
                                   Sample.toBase64 Sample.zip freshState)) "img1")
    as [img|] eqn:E; [|discriminate E].
  assert (Hb : CellImage.base64 img = "data:image/png;base64,UE5HMQ==").
  { vm_compute in E. injection E as <-. reflexivity. }
  split; [simpl; f_equal; exact Hb|].
  destruct (first_registered_image_wins Sample.xml_parse Sample.Number
              Sample.toBase64 Sample.input ParseOptions.defaults)
    as (_ & Hkeep & _).
  unfold Sample.parse.
  rewrite (Hkeep _ Sample.zip eq_refl eq_refl eq_refl "img1" img E).
  simpl. f_equal. exact Hb.
Defined.

(** C5 on the sample: the second picture of the drawing. *)
Lemma external_image_is_skipped_witness :
  nth_error Sample.pictures 1 = Some Sample.externalPicture
  /\ errorsOf
       (FloatingImageManager.processFloatingImage Sample.toBase64 (Some Sample.zip)
          (FloatingImageManager.resolveMedia Sample.drawingRels
             Sample.externalPicture)
          "Sheet1" freshState)
     = ["[skip] reason=external id=Picture 2 sheet=Sheet1 cell=B3"].
Proof.
  split; [vm_compute; reflexivity|].
  destruct (JSMap.get Sample.drawingRels "rId2") as [rel|] eqn:E;
    [|vm_compute in E; discriminate E].
  assert (Hm : RelationshipParser.targetMode rel = JStr "External").
  { vm_compute in E. injection E as <-. reflexivity. }
  destruct (external_image_is_skipped Sample.toBase64 (Some Sample.zip)
              Sample.drawingRels Sample.externalPicture "rId2" "External" rel
              "Sheet1" [] freshState eq_refl E Hm eq_refl)
    as (_ & _ & _ & _ & He & _).
  exact He.
Defined.






(** C10 on the sample: the scan of Sheet1 reaches row 100, the reported
    dimension stays A1:B51. *)
Lemma dimension_is_declared_range_witness :
  WorkSheet.ref Sample.sheet1 = Some "A1:B51"
  /\ scanBounds Sample.sheet1 (Sample.floatingOf "Sheet1") = mkBounds 0 0 100 1
  /\ WorksheetData.dimension
       (Sample.parsed Sample.sheet1 "Sheet1" ParseOptions.defaults)
     = ("A1", "B51").
Proof.
  split; [reflexivity|]. split; [vm_compute; reflexivity|].
  apply (dimension_is_declared_range Sample.sheet1 Sample.images
           ParseOptions.defaults (Sample.floatingOf "Sheet1") "Sheet1")
    with (sr := 0) (sc := 0) (er := 50) (ec := 1); try lia.
  reflexivity.
Defined.

End SampleFacts.

(* ================================================================= *)
(** * Part III. Further properties of the sources                       *)
(* ================================================================= *)

(** ** ImageExtractor *)

Lemma lowerChar_idempotent (a : ascii) :
  JS.lowerChar (JS.lowerChar a) = JS.lowerChar a.
Proof. destruct a as [[] [] [] [] [] [] [] []]; reflexivity. Qed.

Lemma lowerChar_dot (a : ascii) :
  Ascii.eqb (JS.lowerChar a) "." = Ascii.eqb a ".".
Proof. destruct a as [[] [] [] [] [] [] [] []]; reflexivity. Qed.

Lemma toLowerCase_idempotent (text : string) :
  JS.toLowerCase (JS.toLowerCase text) = JS.toLowerCase text.
Proof.
  induction text as [|a text IH]; simpl; [reflexivity|].
  now rewrite lowerChar_idempotent, IH.
Qed.

Lemma toLowerCase_app (a b : string) :
  JS.toLowerCase (a ++ b) = JS.toLowerCase a ++ JS.toLowerCase b.
Proof. induction a as [|x a IH]; simpl; [reflexivity|now rewrite IH]. Qed.

Lemma includes_char_cons (c a : ascii) (text : string) :
  JS.includes (String c "") (String a text)
  = Ascii.eqb c a || JS.includes (String c "") text.
Proof. cbn [JS.includes JS.startsWith]. now rewrite andb_true_r. Qed.

Lemma includes_dot_lower (text : string) :
  JS.includes "." (JS.toLowerCase text) = JS.includes "." text.
Proof.
  induction text as [|a text IH]; [reflexivity|].
  cbn [JS.toLowerCase]. rewrite !includes_char_cons, IH.
  now rewrite (Ascii.eqb_sym "." (JS.lowerChar a)), lowerChar_dot, Ascii.eqb_sym.
Qed.

Lemma lastSegmentFrom_absent (sep : ascii) (text : string) :
  JS.includes (String sep "") text = false ->
  forall cur, JS.lastSegmentFrom sep cur text = cur.
Proof.
  induction text as [|a text IH]; intros H cur; [reflexivity|].
  rewrite includes_char_cons in H. apply orb_false_iff in H as [Ha Ht].
  cbn [JS.lastSegmentFrom]. rewrite Ascii.eqb_sym, Ha. now apply IH.
Qed.

Lemma lastSegment_after (sep : ascii) (stem last : string) :
  JS.includes (String sep "") last = false ->
  JS.lastSegment sep (stem ++ String sep last) = last.
Proof.
  intros H. unfold JS.lastSegment.
  generalize (stem ++ String sep last) at 1. induction stem as [|a stem IH]; intros cur.
  - cbn [append JS.lastSegmentFrom]. rewrite Ascii.eqb_refl.
    now apply lastSegmentFrom_absent.
  - cbn [append JS.lastSegmentFrom]. destruct (Ascii.eqb a sep); apply IH.
Qed.

Section MimeFacts.

Import ImageExtractor.

(** X1. The MIME type is one of the five the switch knows; it is read
    off the text after the last dot of the path, whatever the letter
    case, and a path without a known extension gets image/jpeg. *)
Theorem mimeType_by_extension (path : string) :
  In (getMimeTypeFromPath path)
     ["image/jpeg"; "image/png"; "image/gif"; "image/bmp"; "image/webp"]
  /\ getMimeTypeFromPath (JS.toLowerCase path) = getMimeTypeFromPath path
  /\ (forall stem ext,
        JS.includes "." ext = false ->
        path = stem ++ "." ++ ext ->
        getMimeTypeFromPath path = getMimeTypeFromPath ext)
  /\ (~ In (JS.lastSegment "." (JS.toLowerCase path))
           ["jpg"; "jpeg"; "png"; "gif"; "bmp"; "webp"] ->
      getMimeTypeFromPath path = "image/jpeg").
Proof.
  repeat split.
  - unfold getMimeTypeFromPath.
    repeat match goal with
           | |- context [if ?b then _ else _] => destruct b
           end; simpl; tauto.
  - unfold getMimeTypeFromPath. now rewrite toLowerCase_idempotent.
  - intros stem ext Hext ->. unfold getMimeTypeFromPath.
    rewrite !toLowerCase_app.
    change (JS.toLowerCase ".") with ".".
    change ("." ++ JS.toLowerCase ext) with (String "." (JS.toLowerCase ext)).
    rewrite lastSegment_after by now rewrite includes_dot_lower.
    unfold JS.lastSegment.
    now rewrite lastSegmentFrom_absent by now rewrite includes_dot_lower.
  - intros Hnot. unfold getMimeTypeFromPath.
    repeat match goal with
           | |- context [if String.eqb ?a ?b then _ else _] =>
               destruct (String.eqb_spec a b) as [Heq|_];
               [exfalso; apply Hnot; rewrite Heq; simpl; tauto|]
           end.
    reflexivity.
Qed.

Lemma mimeType_by_extension_witness :
  JS.includes "." "PNG" = false
  /\ getMimeTypeFromPath "media/photo.final.PNG" = getMimeTypeFromPath "PNG"
  /\ getMimeTypeFromPath "PNG" = "image/png".
Proof.
  split; [reflexivity|]. split; [|reflexivity].
  exact (proj1 (proj2 (proj2 (mimeType_by_extension "media/photo.final.PNG")))
           "media/photo.final" "PNG" eq_refl eq_refl).
Defined.

End MimeFacts.

Section ImageExtractorFacts.

Import ImageExtractor.

Variable toBase64 : string -> string.


Lemma collectImage_fold (zip : option Zip) (path : string)
    (order : list string) :
  forall results,
  JSMap.get (fold_left (collectImage toBase64 zip) order results) path
  = match (if existsb (String.eqb path) order
           then extractImageData toBase64 zip path else None) with
    | Some found => Some found
    | None => JSMap.get results path
    end.
Proof.
  induction order as [|p order IH]; intros results; [reflexivity|].
  cbn [fold_left existsb]. rewrite IH.
  destruct (existsb (String.eqb path) order) eqn:Ex.
  - rewrite orb_true_r.
    destruct (extractImageData toBase64 zip path) as [found|] eqn:E; [reflexivity|].
    unfold collectImage.
    destruct (String.eqb_spec path p) as [<-|Hne].
    + now rewrite E.
    + destruct (extractImageData toBase64 zip p); [|reflexivity].
      now rewrite get_set_other by congruence.
  - rewrite orb_false_r. unfold collectImage.
    destruct (String.eqb_spec path p) as [<-|Hne].
    + destruct (extractImageData toBase64 zip path) as [found|] eqn:E;
        [now rewrite get_set_same|reflexivity].
    + destruct (extractImageData toBase64 zip p); [|reflexivity].
      now rewrite get_set_other by congruence.
Qed.

(** X3. Whatever the order in which the concurrent reads of
    [extractMultipleImages] complete, the map it returns holds, for each
    requested path whose part exists, what [extractImageData] gives for
    that path, and nothing for any other path. *)
Theorem extractMultipleImages_lookup (zip : option Zip)
    (imagePaths completionOrder : list string) (path : string) :
  Permutation imagePaths completionOrder ->
  JSMap.get (extractMultipleImages toBase64 zip completionOrder) path
  = if existsb (String.eqb path) imagePaths
    then extractImageData toBase64 zip path
    else None.
Proof.
  intros Hperm. unfold extractMultipleImages. rewrite collectImage_fold.
  assert (Hex : existsb (String.eqb path) completionOrder
                = existsb (String.eqb path) imagePaths).
  { apply eq_true_iff_eq. rewrite !existsb_eqb_In.
    split; apply Permutation_in; [now apply Permutation_sym|assumption]. }
  rewrite Hex.
  destruct (existsb (String.eqb path) imagePaths); [|reflexivity].
  now destruct (extractImageData toBase64 zip path).
Qed.

End ImageExtractorFacts.

Lemma extractMultipleImages_lookup_witness :
  Permutation ["media/image1.png"; "media/none.png"; "media/image2.png"]
              ["media/image2.png"; "media/none.png"; "media/image1.png"]
  /\ option_map ImageExtractionResult.rawData
       (JSMap.get
          (ImageExtractor.extractMultipleImages Sample.toBase64 (Some Sample.zip)
             ["media/image2.png"; "media/none.png"; "media/image1.png"])
          "media/image1.png")
     = Some "PNG1".
Proof.
  assert (Hperm : Permutation
            ["media/image1.png"; "media/none.png"; "media/image2.png"]
            ["media/image2.png"; "media/none.png"; "media/image1.png"])
    by apply (Permutation_rev ["media/image1.png"; "media/none.png"; "media/image2.png"]).
  split; [exact Hperm|].
  rewrite (extractMultipleImages_lookup Sample.toBase64 (Some Sample.zip)
             _ _ "media/image1.png" Hperm).
  reflexivity.
Defined.

(** ** FloatingImageManager: the binding table *)

Section BindingTable.

Import DrawingParser FloatingImageManager.

Lemma getFloatingImageIds_bind bySheet (imageInfo : FloatingImageInfo)
    (sheetName sheet' cell' : string) :
  getFloatingImageIds (bindImageToCell bySheet imageInfo sheetName) sheet' cell'
  = if String.eqb sheet' sheetName && String.eqb cell' (cellRef imageInfo)
    then (getFloatingImageIds bySheet sheetName (cellRef imageInfo)
            ++ [id imageInfo])%list
    else getFloatingImageIds bySheet sheet' cell'.
Proof.
  unfold bindImageToCell, getFloatingImageIds, JSMap.has.
  destruct (String.eqb_spec sheet' sheetName) as [->|Hs]; cbn [andb].
  - rewrite get_set_same.
    destruct (JSMap.get bySheet sheetName) as [byCell|] eqn:E; cbn [negb].
    + rewrite E.
      destruct (String.eqb_spec cell' (cellRef imageInfo)) as [->|Hc].
      * rewrite get_set_same.
        destruct (JSMap.get byCell (cellRef imageInfo)) as [ids|] eqn:E2; cbn [negb].
        -- now rewrite E2.
        -- now rewrite get_set_same.
      * rewrite get_set_other by congruence.
        destruct (JSMap.get byCell (cellRef imageInfo)) as [ids|] eqn:E2; cbn [negb];
          [reflexivity|].
        now rewrite get_set_other by congruence.
    + rewrite get_set_same. cbn [JSMap.get JSMap.empty negb].
      destruct (String.eqb_spec cell' (cellRef imageInfo)) as [->|Hc].
      * rewrite get_set_same. now rewrite get_set_same.
      * rewrite get_set_other by congruence.
        now rewrite get_set_other by congruence.
  - destruct (JSMap.get bySheet sheetName) as [byCell|] eqn:E; cbn [negb];
      rewrite get_set_other by congruence; [reflexivity|].
    now rewrite get_set_other by congruence.
Qed.

(** X4. [bindImageToCell] appends the id of the picture to the ids of
    its anchor cell on its sheet and changes the ids of no other cell
    and no other sheet; [getFloatingImageIds] gives the empty list for
    a sheet or a cell without bindings and after [clear]; the map that
    [getSheetFloatingImages] hands to the worksheet scan holds for each
    cell the ids [getFloatingImageIds] gives. *)
Theorem binding_table_lookup bySheet (imageInfo : FloatingImageInfo)
    (sheetName sheet' cell' : string) :
  getFloatingImageIds (bindImageToCell bySheet imageInfo sheetName)
    sheetName (cellRef imageInfo)
  = (getFloatingImageIds bySheet sheetName (cellRef imageInfo)
       ++ [id imageInfo])%list
  /\ (sheet' <> sheetName \/ cell' <> cellRef imageInfo ->
      getFloatingImageIds (bindImageToCell bySheet imageInfo sheetName) sheet' cell'
      = getFloatingImageIds bySheet sheet' cell')
  /\ getFloatingImageIds clear sheet' cell' = []
  /\ (JSMap.get bySheet sheet' = None ->
      getFloatingImageIds bySheet sheet' cell' = []
      /\ getSheetFloatingImages bySheet sheet' = JSMap.empty)
  /\ (JSMap.get (getSheetFloatingImages bySheet sheet') cell' = None ->
      getFloatingImageIds bySheet sheet' cell' = [])
  /\ ExcelImageReader.boundIds (getSheetFloatingImages bySheet sheet') cell'
     = getFloatingImageIds bySheet sheet' cell'
  /\ getSheetFloatingImages (getAllFloatingImages bySheet) sheet'
     = getSheetFloatingImages bySheet sheet'.
Proof.
  split; [|split; [|split; [|split; [|split; [|split]]]]].
  - rewrite getFloatingImageIds_bind, !String.eqb_refl. reflexivity.
  - intros Hne. rewrite getFloatingImageIds_bind.
    destruct (String.eqb_spec sheet' sheetName) as [Hs|Hs];
      destruct (String.eqb_spec cell' (cellRef imageInfo)) as [Hc|Hc];
      cbn [andb]; try reflexivity.
    exfalso. destruct Hne; contradiction.
  - reflexivity.
  - unfold getFloatingImageIds, getSheetFloatingImages. now intros ->.
  - unfold getFloatingImageIds, getSheetFloatingImages.
    destruct (JSMap.get bySheet sheet'); [now intros ->|reflexivity].
  - unfold ExcelImageReader.boundIds, getSheetFloatingImages, getFloatingImageIds.
    now destruct (JSMap.get bySheet sheet').
  - reflexivity.
Qed.

Lemma binding_table_lookup_witness :
  getFloatingImageIds
    (bindImageToCell
       (bindImageToCell clear Sample.unnamedPicture "Sheet1")
       Sample.externalPicture "Sheet1")
    "Sheet1" "A101"
  = ["7"].
Proof.
  rewrite (proj1 (proj2 (binding_table_lookup
                           (bindImageToCell clear Sample.unnamedPicture "Sheet1")
                           Sample.externalPicture "Sheet1" "Sheet1" "A101")))
    by (right; discriminate).
  reflexivity.
Defined.

End BindingTable.

(** *** One picture *)

Section ProcessFacts.

Import DrawingParser FloatingImageManager.

Variable toBase64 : string -> string.

Lemma processFloatingImage_skipped zip imageInfo sheetName st reason :
  skipReason toBase64 zip imageInfo = Some reason ->
  processFloatingImage toBase64 zip imageInfo sheetName st
  = pushError st (skipMessage reason imageInfo sheetName).
Proof.
  unfold skipReason, processFloatingImage, extractAndBind.
  destruct (truthyProp (__skip imageInfo)); [now intros [= ->]|].
  destruct (truthyProp (mediaPath imageInfo)) as [path|]; [|now intros [= <-]].
  destruct (ImageExtractor.extractImageData toBase64 zip path);
    [discriminate|now intros [= <-]].
Qed.

Lemma processFloatingImage_bound zip imageInfo sheetName st :
  skipReason toBase64 zip imageInfo = None ->
  let st' := processFloatingImage toBase64 zip imageInfo sheetName st in
  errorsOf st' = errorsOf st
  /\ floatingImagesBySheet st'
     = bindImageToCell (floatingImagesBySheet st) imageInfo sheetName
  /\ JSMap.has (imagesOf st') (id imageInfo) = true
  /\ ExcelParseResult.worksheets (result st')
     = ExcelParseResult.worksheets (result st).
Proof.
  unfold skipReason, processFloatingImage, extractAndBind.
  destruct (truthyProp (__skip imageInfo)); [discriminate|].
  destruct (truthyProp (mediaPath imageInfo)) as [path|]; [|discriminate].
  destruct (ImageExtractor.extractImageData toBase64 zip path) as [found|];
    [intros _|discriminate].
  cbv zeta. unfold errorsOf, imagesOf.
  destruct (JSMap.has (ExcelParseResult.images (result st)) (id imageInfo)) eqn:Hhas;
    cbn [negb result floatingImagesBySheet setImages ExcelParseResult.errors
         ExcelParseResult.images ExcelParseResult.worksheets].
  - now rewrite Hhas.
  - repeat split. unfold JSMap.has. now rewrite get_set_same.
Qed.

Lemma filter_snoc {A : Type} (f : A -> bool) (l : list A) (a : A) :
  filter f (l ++ [a]) = (filter f l ++ (if f a then [a] else []))%list.
Proof. rewrite filter_app. reflexivity. Qed.

(** X5. The pictures of a drawing, processed in order: a picture that
    is marked to be skipped, has no media path or whose media part is
    missing adds one [skip] line to [errors] and nothing else; every
    other picture adds no error and its id is appended to the ids of its
    anchor cell on the sheet. So [errors] grows by the lines of the
    pictures left out, in drawing order, each cell of the sheet gains
    the ids of the pictures bound to it, in drawing order, and the other
    sheets and the worksheets are left as they were. *)
Theorem processAll_outcome (zip : option Zip)
    (floatingImages : list FloatingImageInfo) (sheetName : string) (st : State) :
  let st' := processAll toBase64 zip floatingImages sheetName st in
  errorsOf st'
  = (errorsOf st ++ flat_map (skipLine toBase64 zip sheetName) floatingImages)%list
  /\ (forall cell,
        getFloatingImageIds (floatingImagesBySheet st') sheetName cell
        = (getFloatingImageIds (floatingImagesBySheet st) sheetName cell
             ++ List.map id (boundAt toBase64 zip cell floatingImages))%list)
  /\ (forall otherSheet cell,
        otherSheet <> sheetName ->
        getFloatingImageIds (floatingImagesBySheet st') otherSheet cell
        = getFloatingImageIds (floatingImagesBySheet st) otherSheet cell)
  /\ ExcelParseResult.worksheets (result st')
     = ExcelParseResult.worksheets (result st)
  /\ List.length (errorsOf st')
     = (List.length (errorsOf st)
        + List.length (filter (fun imageInfo =>
                                 match skipReason toBase64 zip imageInfo with
                                 | Some _ => true
                                 | None => false
                                 end) floatingImages))%nat.
Proof.
  cbv zeta. unfold processAll.
  apply (fold_left_snoc_inv
           (fun acc imageInfo => processFloatingImage toBase64 zip imageInfo sheetName acc)
           (fun done acc =>
              errorsOf acc
              = (errorsOf st ++ flat_map (skipLine toBase64 zip sheetName) done)%list
              /\ (forall cell,
                    getFloatingImageIds (floatingImagesBySheet acc) sheetName cell
                    = (getFloatingImageIds (floatingImagesBySheet st) sheetName cell
                         ++ List.map id (boundAt toBase64 zip cell done))%list)
              /\ (forall otherSheet cell,
                    otherSheet <> sheetName ->
                    getFloatingImageIds (floatingImagesBySheet acc) otherSheet cell
                    = getFloatingImageIds (floatingImagesBySheet st) otherSheet cell)
              /\ ExcelParseResult.worksheets (result acc)
                 = ExcelParseResult.worksheets (result st)
              /\ List.length (errorsOf acc)
                 = (List.length (errorsOf st)
                    + List.length (filter (fun imageInfo =>
                                 match skipReason toBase64 zip imageInfo with
                                 | Some _ => true
                                 | None => false
                                 end) done))%nat)).
  - cbn. rewrite !app_nil_r. repeat split; try reflexivity.
    + intros cell. now rewrite app_nil_r.
    + lia.
  - intros done acc imageInfo (He & Hb & Ho & Hw & Hl).
    unfold boundAt, skipLine in *. rewrite flat_map_app. cbn [flat_map].
    rewrite app_nil_r.
    destruct (skipReason toBase64 zip imageInfo) as [reason|] eqn:Hr.
    + rewrite (processFloatingImage_skipped _ _ _ _ _ Hr).
      unfold errorsOf in *.
      cbn [pushError result floatingImagesBySheet ExcelParseResult.errors
           ExcelParseResult.worksheets].
      rewrite He, <- app_assoc. repeat split; try assumption.
      * intros cell. rewrite filter_snoc, Hr, app_nil_r. apply Hb.
      * rewrite He in Hl. rewrite filter_snoc, Hr. rewrite !length_app in *.
        cbn [List.length]. lia.
    + destruct (processFloatingImage_bound zip imageInfo sheetName acc Hr)
        as (He' & Hb' & _ & Hw').
      rewrite He', Hb', Hw', app_nil_r. repeat split; try assumption.
      * intros cell. rewrite getFloatingImageIds_bind, String.eqb_refl.
        cbn [andb]. rewrite filter_snoc, Hr, map_app, (String.eqb_sym cell).
        destruct (String.eqb_spec (cellRef imageInfo) cell) as [<-|Hc].
        -- rewrite Hb, <- app_assoc. reflexivity.
        -- cbn [List.map]. rewrite app_nil_r. apply Hb.
      * intros otherSheet cell Hne. rewrite getFloatingImageIds_bind.
        destruct (String.eqb_spec otherSheet sheetName); [contradiction|].
        cbn [andb]. now apply Ho.
      * rewrite filter_snoc, Hr, app_nil_r. exact Hl.
Qed.

(** *** Bound ids are registered *)

Lemma has_keeps {V : Type} (m m' : JSMap.t V) (k : string) :
  keeps m m' -> JSMap.has m k = true -> JSMap.has m' k = true.
Proof.
  unfold JSMap.has. intros Hk H.
  destruct (JSMap.get m k) as [v|] eqn:E; [|discriminate].
  now rewrite (Hk _ _ E).
Qed.

Lemma processFloatingImage_registered zip imageInfo sheetName st :
  boundRegistered st ->
  boundRegistered (processFloatingImage toBase64 zip imageInfo sheetName st).
Proof.
  intros Hst sheet cell fid.
  destruct (skipReason toBase64 zip imageInfo) as [reason|] eqn:Hr.
  - rewrite (processFloatingImage_skipped _ _ _ _ _ Hr). apply Hst.
  - destruct (processFloatingImage_bound zip imageInfo sheetName st Hr)
      as (_ & Hb & Hhas & _).
    rewrite Hb, getFloatingImageIds_bind.
    pose proof (processFloatingImage_grows toBase64 zip imageInfo sheetName st)
      as (Hkeeps & _).
    destruct (String.eqb sheet sheetName && String.eqb cell (cellRef imageInfo)) eqn:Hc.
    + apply andb_true_iff in Hc as [Hs%String.eqb_eq Hc%String.eqb_eq]. subst.
      intros [Hin|[<-|[]]]%in_app_or; [|exact Hhas].
      eapply has_keeps; [exact Hkeeps|]. eapply Hst, Hin.
    + intros Hin. eapply has_keeps; [exact Hkeeps|]. eapply Hst, Hin.
Qed.

End ProcessFacts.

Section RegisteredFacts.

Import DrawingParser FloatingImageManager.

Variable xml_parse : string -> option JsVal.
Variable Number : JsVal -> option Z.
Variable toBase64 : string -> string.

Lemma parseFloatingImages_registered zip st :
  boundRegistered st ->
  boundRegistered (parseFloatingImages xml_parse Number toBase64 zip st).
Proof.
  unfold parseFloatingImages.
  generalize (getSheetsMap xml_parse zip). intros sheets. revert st.
  induction sheets as [|[sheetName sheetPath] sheets IH]; intros st Hst;
    [exact Hst|].
  cbn [fold_left fst snd]. apply IH.
  unfold parseSheetFloatingImages.
  destruct zip as [z|]; [|exact Hst].
  destruct (getSheetRelationships xml_parse sheetPath z) as [sheetRels|];
    [|exact Hst].
  destruct (RelationshipParser.findDrawingRelationship sheetRels) as [drawingRel|];
    [|exact Hst].
  unfold processAll.
  generalize (parseDrawingFile xml_parse Number drawingRel z). intros infos.
  revert st Hst. induction infos as [|info infos IHi]; intros st Hst; [exact Hst|].
  cbn [fold_left]. apply IHi. now apply processFloatingImage_registered.
Qed.

End RegisteredFacts.

(** ** parseWorksheet: rows, cells and counters *)

Lemma zrange_sorted (lo hi : Z) :
  StronglySorted Z.lt (ExcelImageReader.zrange lo hi).
Proof.
  unfold ExcelImageReader.zrange.
  generalize (Z.to_nat (hi - lo + 1)) as n. generalize 0%nat as start.
  intros start n. revert start.
  induction n as [|n IH]; intros start; cbn [seq List.map]; constructor.
  - apply IH.
  - apply Forall_forall. intros y [i [<- Hi%in_seq]]%in_map_iff. lia.
Qed.

Lemma filter_all {A : Type} (f : A -> bool) (l : list A) :
  (forall a, In a l -> f a = true) -> filter f l = l.
Proof.
  induction l as [|a l IH]; intros H; [reflexivity|].
  cbn [filter]. rewrite (H a (or_introl eq_refl)).
  f_equal. apply IH. intros b Hb. apply H. now right.
Qed.

Lemma positive_rows_bound (rows : list RowData.t) :
  (forall row, In row rows -> 0 <= RowData.imageCount row) ->
  let positive :=
    Z.of_nat (List.length
                (filter (fun row => RowData.imageCount row >? 0) rows)) in
  0 <= positive <= sumImageCount rows
  /\ (positive = 0 <-> sumImageCount rows = 0).
Proof.
  cbv zeta. induction rows as [|row rows IH]; intros Hpos.
  - cbn. split; [lia|tauto].
  - assert (H0 : 0 <= RowData.imageCount row) by (apply Hpos; now left).
    destruct IH as [IH1 IH2]; [intros r Hr; apply Hpos; now right|].
    cbn [filter sumImageCount fold_right].
    fold (sumImageCount rows).
    destruct (Z.gtb_spec (RowData.imageCount row) 0) as [Hgt|Hle].
    + cbn [List.length]. rewrite Nat2Z.inj_succ. split; lia.
    + split; [lia|]. split; intros H; [apply IH2 in H|apply IH2]; lia.
Qed.

Section ScanFacts.

Import ExcelImageReader.

Variable worksheet : WorkSheet.t.
Variable images : JSMap.t CellImage.t.
Variable options : ParseOptions.t.
Variable floatingForSheet : JSMap.t (list string).

#[local] Abbreviation bounds := (scanBounds worksheet floatingForSheet).
#[local] Abbreviation rowOf := (scannedRow worksheet images options floatingForSheet).
#[local] Abbreviation columns := (scannedColumns worksheet floatingForSheet).
#[local] Abbreviation parsed :=
  (parseWorksheet worksheet images options floatingForSheet).

Lemma countFloating_tallied (cellRef : string) (ids : list string) :
  forall acc, tallied acc -> tallied (fold_left (countFloating cellRef) ids acc).
Proof.
  induction ids as [|fid ids IH]; intros acc H; [exact H|].
  cbn [fold_left]. apply IH. unfold countFloating.
  destruct (existsb (String.eqb fid) (rowSeen acc)); [exact H|].
  unfold tallied in *.
  cbn [rowData countImage RowData.imageCount RowData.imageCells].
  rewrite length_app. cbn [List.length]. lia.
Qed.

Lemma scanCell_tallied (rowNum : Z) (acc : RowScan) (colNum : Z) :
  tallied acc ->
  tallied (scanCell worksheet images options floatingForSheet rowNum acc colNum).
Proof.
  intros H. unfold scanCell.
  set (cellRef := XLSX.encode_cell (XLSX.mkAddr rowNum colNum)).
  pose proof (countFloating_tallied cellRef (boundIds floatingForSheet cellRef) acc H)
    as H1.
  set (acc1 := fold_left (countFloating cellRef) (boundIds floatingForSheet cellRef) acc)
    in *.
  destruct ((match JSMap.get (WorkSheet.cellAt worksheet) cellRef with
             | Some _ => true | None => false end)
            || ParseOptions.includeEmptyColumns options); [|exact H1].
  destruct (namedImageCounts (JSMap.get (WorkSheet.cellAt worksheet) cellRef) images);
    unfold tallied in *;
    cbn [rowData countImage pushCell RowData.imageCount RowData.imageCells];
    [|exact H1].
  rewrite length_app. cbn [List.length]. lia.
Qed.

Lemma scanRow_tallied (b : Bounds) (total rowNum : Z) :
  tallied (scanRow worksheet images options floatingForSheet b total rowNum).
Proof.
  unfold scanRow.
  apply (fold_left_snoc_inv
           (scanCell worksheet images options floatingForSheet rowNum)
           (fun _ acc => tallied acc)).
  - unfold tallied. cbn [rowData].
    destruct (newRow_fresh worksheet rowNum) as (_ & -> & _ & ->). reflexivity.
  - intros l a x. apply scanCell_tallied.
Qed.

Lemma scanRow_imageCells (b : Bounds) (total rowNum : Z) :
  forall ref,
  In ref (RowData.imageCells
            (rowData (scanRow worksheet images options floatingForSheet b total rowNum))) ->
  exists colNum, In colNum (zrange (startCol b) (endCol b))
                 /\ ref = XLSX.encode_cell (XLSX.mkAddr rowNum colNum).
Proof.
  unfold scanRow.
  apply (fold_left_snoc_inv
           (scanCell worksheet images options floatingForSheet rowNum)
           (fun cols acc =>
              forall ref, In ref (RowData.imageCells (rowData acc)) ->
              exists colNum, In colNum cols
                             /\ ref = XLSX.encode_cell (XLSX.mkAddr rowNum colNum))).
  - cbn [rowData].
    destruct (newRow_fresh worksheet rowNum) as (_ & _ & _ & ->). intros ref [].
  - intros cols acc colNum IH ref. unfold scanCell.
    set (cellRef := XLSX.encode_cell (XLSX.mkAddr rowNum colNum)).
    pose proof (countFloating_fold cellRef (boundIds floatingForSheet cellRef) acc)
      as Hstep.
    set (acc1 := fold_left (countFloating cellRef) (boundIds floatingForSheet cellRef) acc)
      in *.
    assert (H1 : forall ref, In ref (RowData.imageCells (rowData acc1)) ->
                 exists colNum0, In colNum0 (cols ++ [colNum])%list
                   /\ ref = XLSX.encode_cell (XLSX.mkAddr rowNum colNum0)).
    { intros ref0 Hin. destruct (fs_refs _ _ _ _ Hstep ref0 Hin) as [Hold| ->].
      - destruct (IH ref0 Hold) as (c0 & Hc0 & ->). exists c0. split; [|reflexivity].
        apply in_or_app. now left.
      - exists colNum. split; [|reflexivity]. apply in_or_app. right. now left. }
    destruct ((match JSMap.get (WorkSheet.cellAt worksheet) cellRef with
               | Some _ => true | None => false end)
              || ParseOptions.includeEmptyColumns options); [|apply H1].
    destruct (namedImageCounts (JSMap.get (WorkSheet.cellAt worksheet) cellRef) images);
      cbn [rowData countImage pushCell RowData.imageCells]; [|apply H1].
    intros [Hin|[<-|[]]]%in_app_or; [now apply H1|].
    exists colNum. split; [|reflexivity]. apply in_or_app. right. now left.
Qed.

Lemma emitted_row_scanned (sheetName : string) (row : RowData.t) :
  In row (WorksheetData.rows (parsed sheetName)) ->
  exists rowNum,
    In rowNum (scannedRowNumbers worksheet floatingForSheet)
    /\ row = rowOf rowNum
    /\ keepRow options row = true
    /\ RowData.rowNumber row = rowNum + 1.
Proof.
  rewrite parseWorksheet_rows. intros [Hin Hkeep]%filter_In.
  unfold scannedRows in Hin. apply in_map_iff in Hin as (rowNum & <- & Hnum).
  exists rowNum. repeat split; try assumption.
  apply (scannedRow_count worksheet images options floatingForSheet rowNum).
Qed.

Lemma scannedRow_nonneg (rowNum : Z) : 0 <= RowData.imageCount (rowOf rowNum).
Proof.
  destruct (scannedRow_count worksheet images options floatingForSheet rowNum)
    as [_ ->]. lia.
Qed.

(** X6. In every emitted row [imageCount] is the length of
    [imageCells], and every entry of [imageCells] is the address of a
    cell of that row inside the scanned columns. *)
Theorem imageCount_is_imageCells_length (sheetName : string) (row : RowData.t) :
  In row (WorksheetData.rows (parsed sheetName)) ->
  RowData.imageCount row = Z.of_nat (List.length (RowData.imageCells row))
  /\ (forall ref, In ref (RowData.imageCells row) ->
      exists colNum,
        In colNum columns
        /\ ref = XLSX.encode_cell (XLSX.mkAddr (RowData.rowNumber row - 1) colNum)).
Proof.
  intros (rowNum & _ & -> & _ & Hnum)%emitted_row_scanned.
  rewrite Hnum. replace (rowNum + 1 - 1) with rowNum by lia.
  split.
  - apply (scanRow_tallied bounds 0 rowNum).
  - apply (scanRow_imageCells bounds 0 rowNum).
Qed.

Lemma scanSheetRow_withImages (rowNums : list Z) :
  sheetRowsWithImages
    (fold_left (scanSheetRow worksheet images options floatingForSheet bounds)
       rowNums (mkSheetScan [] 0 0))
  = Z.of_nat (List.length
                (filter (fun row => RowData.imageCount row >? 0)
                   (List.map rowOf rowNums))).
Proof.
  apply (fold_left_snoc_inv
           (scanSheetRow worksheet images options floatingForSheet bounds)
           (fun done acc =>
              sheetRowsWithImages acc
              = Z.of_nat (List.length
                            (filter (fun row => RowData.imageCount row >? 0)
                               (List.map rowOf done))))).
  - reflexivity.
  - intros done acc rowNum IH. unfold scanSheetRow. cbn [sheetRowsWithImages].
    rewrite scanRow_total_irrelevant. fold (rowOf rowNum).
    rewrite map_app, filter_app, length_app. cbn [List.map filter].
    destruct (RowData.imageCount (rowOf rowNum) >? 0); cbn [List.length]; lia.
Qed.

Lemma parseWorksheet_rowsWithImages (sheetName : string) :
  WorksheetData.rowsWithImages (parsed sheetName)
  = Z.of_nat (List.length
                (filter (fun row => RowData.imageCount row >? 0)
                   (scannedRows worksheet images options floatingForSheet))).
Proof.
  unfold parseWorksheet. cbn [WorksheetData.rowsWithImages].
  apply scanSheetRow_withImages.
Qed.

(** X7. [rowsWithImages] is the number of rows of the scan range whose
    [imageCount] is positive, emitted or not; it never exceeds
    [totalImages] and is zero exactly when [totalImages] is. When
    [includeEmptyRows] is set it is the number of emitted rows with a
    positive [imageCount]. *)
Theorem rowsWithImages_counts_rows (sheetName : string) :
  let scanned := scannedRows worksheet images options floatingForSheet in
  let sheet := parsed sheetName in
  WorksheetData.rowsWithImages sheet
  = Z.of_nat (List.length
                (filter (fun row => RowData.imageCount row >? 0) scanned))
  /\ 0 <= WorksheetData.rowsWithImages sheet <= WorksheetData.totalImages sheet
  /\ (WorksheetData.rowsWithImages sheet = 0
      <-> WorksheetData.totalImages sheet = 0)
  /\ (ParseOptions.includeEmptyRows options = true ->
      WorksheetData.rowsWithImages sheet
      = Z.of_nat (List.length
                    (filter (fun row => RowData.imageCount row >? 0)
                       (WorksheetData.rows sheet)))).
Proof.
  cbv zeta.
  pose proof (parseWorksheet_rowsWithImages sheetName) as Hcount.
  assert (Hpos : forall row,
             In row (scannedRows worksheet images options floatingForSheet) ->
             0 <= RowData.imageCount row).
  { unfold scannedRows. intros row (rowNum & <- & _)%in_map_iff.
    apply scannedRow_nonneg. }
  destruct (positive_rows_bound _ Hpos) as [Hle Hzero].
  rewrite parseWorksheet_total, Hcount.
  split; [reflexivity|]. split; [exact Hle|]. split; [exact Hzero|].
  intros Hall. rewrite parseWorksheet_rows.
  rewrite (filter_all (keepRow options)); [reflexivity|].
  intros row _. unfold keepRow. now rewrite Hall.
Qed.

Lemma emitted_numbers_sorted (rowNums : list Z) :
  StronglySorted Z.lt rowNums ->
  StronglySorted Z.lt
    (List.map RowData.rowNumber
       (filter (keepRow options) (List.map rowOf rowNums)))
  /\ (forall n, In n (List.map RowData.rowNumber
                        (filter (keepRow options) (List.map rowOf rowNums))) ->
      In (n - 1) rowNums).
Proof.
  assert (Hnum : forall rowNum, RowData.rowNumber (rowOf rowNum) = rowNum + 1)
    by (intros rowNum;
        apply (scannedRow_count worksheet images options floatingForSheet rowNum)).
  induction 1 as [|rowNum rest Hsorted [IH1 IH2] Hall].
  - split; [constructor|intros n []].
  - cbn [List.map filter].
    assert (Htail : forall n,
               In n (List.map RowData.rowNumber
                       (filter (keepRow options) (List.map rowOf rest))) ->
               rowNum + 1 < n).
    { intros n Hn%IH2. rewrite Forall_forall in Hall. specialize (Hall _ Hn). lia. }
    destruct (keepRow options (rowOf rowNum)); cbn [List.map].
    + split.
      * constructor; [exact IH1|]. apply Forall_forall. intros n Hn.
        rewrite Hnum. now apply Htail.
      * intros n [<-|Hn]; [left; rewrite Hnum; lia|right; now apply IH2].
    + split; [exact IH1|]. intros n Hn. right. now apply IH2.
Qed.

(** X8. The emitted rows come in strictly increasing order of
    [rowNumber], so no row number occurs twice; each is the 1-based
    number of a row of the scan range; when [includeEmptyRows] is set
    there is exactly one emitted row for every row of the scan range. *)
Theorem rows_in_increasing_order (sheetName : string) :
  let numbers := List.map RowData.rowNumber (WorksheetData.rows (parsed sheetName)) in
  StronglySorted Z.lt numbers
  /\ NoDup numbers
  /\ (forall n, In n numbers -> startRow bounds + 1 <= n <= endRow bounds + 1)
  /\ (ParseOptions.includeEmptyRows options = true ->
      numbers = List.map (fun rowNum => rowNum + 1)
                  (zrange (startRow bounds) (endRow bounds))).
Proof.
  cbv zeta. rewrite parseWorksheet_rows. unfold scannedRows, scannedRowNumbers.
  destruct (emitted_numbers_sorted (zrange (startRow bounds) (endRow bounds))
              (zrange_sorted _ _)) as [Hsorted Hin].
  split; [exact Hsorted|]. split; [|split].
  - clear Hin. induction Hsorted as [|n rest _ IH Hall]; constructor; [|exact IH].
    intros Hn. rewrite Forall_forall in Hall. specialize (Hall _ Hn). lia.
  - intros n Hn%Hin. apply zrange_In in Hn. lia.
  - intros Hall. rewrite (filter_all (keepRow options)).
    + rewrite map_map. apply map_ext. intros rowNum.
      apply (scannedRow_count worksheet images options floatingForSheet rowNum).
    + intros row _. unfold keepRow. now rewrite Hall.
Qed.

(** *** The cell records *)

Lemma parseCell_fields (cell : option CellObject.t) (cellRef : string) :
  CellData.ref (parseCell cell cellRef images) = cellRef
  /\ CellData.value (parseCell cell cellRef images)
     = match cell with Some c => valueString c | None => "" end
  /\ CellData.styleId (parseCell cell cellRef images)
     = match cell with Some c => CellObject.s c | None => None end.
Proof.
  destruct cell as [c|]; [|now cbn].
  unfold parseCell.
  destruct (valueHasDispimg c); [now cbn|].
  destruct (formulaHasDispimg c); now cbn.
Qed.

Lemma parseCell_image (cell : option CellObject.t) (cellRef : string)
    (img : CellImage.t) :
  CellData.image (parseCell cell cellRef images) = Some img ->
  exists imageId, JSMap.get images imageId = Some img.
Proof.
  destruct cell as [c|]; [|discriminate].
  unfold parseCell, lookupImage.
  destruct (valueHasDispimg c); cbn [CellData.image].
  - destruct (matchDispimg (valueText c)) as [imageId|]; [|discriminate].
    intros H. now exists imageId.
  - destruct (formulaHasDispimg c); cbn [CellData.image]; [|discriminate].
    destruct (matchDispimg (formulaText c)) as [imageId|]; [|discriminate].
    intros H. now exists imageId.
Qed.

Lemma cellOfColumn_cases (rowNum colNum : Z) :
  let cellRef := XLSX.encode_cell (XLSX.mkAddr rowNum colNum) in
  let cell := JSMap.get (WorkSheet.cellAt worksheet) cellRef in
  (cellOfColumn worksheet images options floatingForSheet rowNum colNum = []
   /\ cell = None /\ ParseOptions.includeEmptyColumns options = false)
  \/ (exists cellData,
        cellOfColumn worksheet images options floatingForSheet rowNum colNum
        = [cellData]
        /\ (JSMap.has (WorkSheet.cellAt worksheet) cellRef
            || ParseOptions.includeEmptyColumns options = true)
        /\ CellData.ref cellData = cellRef
        /\ CellData.value cellData
           = match cell with Some c => valueString c | None => "" end
        /\ CellData.styleId cellData
           = match cell with Some c => CellObject.s c | None => None end
        /\ (forall img, CellData.image cellData = Some img ->
            exists imageId, JSMap.get images imageId = Some img)).
Proof.
  cbv zeta. unfold cellOfColumn, JSMap.has.
  set (cellRef := XLSX.encode_cell (XLSX.mkAddr rowNum colNum)).
  set (cell := JSMap.get (WorkSheet.cellAt worksheet) cellRef).
  destruct (parseCell_fields cell cellRef) as (Href & Hval & Hsty).
  pose proof (parseCell_image cell cellRef) as Himg.
  destruct ((match cell with Some _ => true | None => false end)
            || ParseOptions.includeEmptyColumns options) eqn:Hpresent.
  - right. eexists. split; [reflexivity|]. split; [reflexivity|].
    destruct (CellData.image (parseCell cell cellRef images)) as [attached|] eqn:Ha.
    + repeat split; try assumption. intros img Hi. apply Himg. congruence.
    + destruct (boundIds floatingForSheet cellRef) as [|first others].
      * repeat split; try assumption. intros img Hi. congruence.
      * destruct (JSMap.get images first) as [found|] eqn:Hf.
        -- cbn [withImage CellData.ref CellData.value CellData.styleId CellData.image].
           repeat split; try assumption. intros img [= <-]. now exists first.
        -- repeat split; try assumption. intros img Hi. congruence.
  - left. apply orb_false_iff in Hpresent as [Hc Ho].
    repeat split; [|exact Ho]. now destruct cell.
Qed.

(** X9. The cell records of an emitted row are those of the scanned
    columns in increasing column order, one for each column where the
    sheet has a cell, and one for every scanned column when
    [includeEmptyColumns] is set; each carries the address of its cell
    and the text of its raw value, the empty text when the sheet has no
    cell there. *)
Theorem row_cells_in_column_order (sheetName : string) (row : RowData.t) :
  In row (WorksheetData.rows (parsed sheetName)) ->
  let rowNum := RowData.rowNumber row - 1 in
  let addressOf := fun colNum => XLSX.encode_cell (XLSX.mkAddr rowNum colNum) in
  List.map CellData.ref (RowData.cells row)
  = List.map addressOf
      (filter (fun colNum =>
                 JSMap.has (WorkSheet.cellAt worksheet) (addressOf colNum)
                 || ParseOptions.includeEmptyColumns options)
         columns)
  /\ (forall cellData, In cellData (RowData.cells row) ->
      CellData.value cellData
      = match JSMap.get (WorkSheet.cellAt worksheet) (CellData.ref cellData) with
        | Some cell => valueString cell
        | None => ""
        end)
  /\ (ParseOptions.includeEmptyColumns options = true ->
      List.length (RowData.cells row) = List.length columns).
Proof.
  intros Hrow. cbv zeta.
  rewrite (emitted_row_cells worksheet images options floatingForSheet sheetName row Hrow).
  set (rowNum := RowData.rowNumber row - 1).
  unfold cellsOfRow. generalize columns as cols.
  assert (Hrefs : forall cols,
    List.map CellData.ref
      (flat_map (cellOfColumn worksheet images options floatingForSheet rowNum) cols)
    = List.map (fun colNum => XLSX.encode_cell (XLSX.mkAddr rowNum colNum))
        (filter (fun colNum =>
                   JSMap.has (WorkSheet.cellAt worksheet)
                     (XLSX.encode_cell (XLSX.mkAddr rowNum colNum))
                   || ParseOptions.includeEmptyColumns options)
           cols)).
  { induction cols as [|colNum cols IH]; [reflexivity|].
    cbn [flat_map filter]. rewrite map_app, IH.
    destruct (cellOfColumn_cases rowNum colNum)
      as [(-> & Hnone & Hopt)|(cellData & -> & Hpresent & Href & _)].
    - unfold JSMap.has. rewrite Hnone, Hopt. reflexivity.
    - rewrite Hpresent. cbn [List.map app]. now rewrite Href. }
  intros cols. split; [apply Hrefs|]. split.
  - intros cellData (colNum & _ & Hin)%in_flat_map.
    destruct (cellOfColumn_cases rowNum colNum)
      as [(Hnil & _)|(cellData' & Heq & _ & Href & Hval & _)].
    + rewrite Hnil in Hin. destruct Hin.
    + rewrite Heq in Hin. destruct Hin as [<-|[]]. now rewrite Href.
  - intros Hopt.
    rewrite <- (length_map CellData.ref), Hrefs, length_map.
    rewrite filter_all; [reflexivity|].
    intros colNum _. rewrite Hopt. apply orb_true_r.
Qed.

Lemma numberToString_nonempty (n : Z) : JS.numberToString n <> "".
Proof.
  assert (Hd : forall fuel m acc, acc <> "" -> JS.digitsInto fuel m acc <> "").
  { induction fuel as [|fuel IH]; intros m acc Hacc; cbn [JS.digitsInto];
      [exact Hacc|].
    destruct (m <=? 0); [exact Hacc|]. apply IH. discriminate. }
  assert (Hn : forall m, JS.natToString m <> "").
  { intros m. unfold JS.natToString, JS.fuelFor.
    destruct (Z.leb_spec m 0) as [_|Hpos]; [discriminate|].
    cbn [JS.digitsInto]. destruct (Z.leb_spec m 0); [lia|].
    apply Hd. discriminate. }
  unfold JS.numberToString. destruct (n <? 0); [discriminate|apply Hn].
Qed.

(** X10. No cell with a value is lost: a cell of the sheet inside the
    scan range (the declared dimension included) whose raw value
    renders as a non-empty text has its row emitted, under every option,
    with a cell record that carries its address, that text and its style
    id. A numeric cell always renders as a non-empty text, the number 0
    included. *)
Theorem cell_with_value_is_emitted (sheetName : string) (rowIdx colIdx : Z)
    (cell : CellObject.t) :
  within (declaredBounds worksheet) (XLSX.mkAddr rowIdx colIdx)
  \/ within bounds (XLSX.mkAddr rowIdx colIdx) ->
  JSMap.get (WorkSheet.cellAt worksheet)
    (XLSX.encode_cell (XLSX.mkAddr rowIdx colIdx)) = Some cell ->
  (valueString cell <> "" \/ exists n, CellObject.v cell = VNumber n) ->
  exists row cellData,
    In row (WorksheetData.rows (parsed sheetName))
    /\ RowData.rowNumber row = rowIdx + 1
    /\ In cellData (RowData.cells row)
    /\ CellData.ref cellData = XLSX.encode_cell (XLSX.mkAddr rowIdx colIdx)
    /\ CellData.value cellData = valueString cell
    /\ CellData.value cellData <> ""
    /\ CellData.styleId cellData = CellObject.s cell.
Proof.
  intros Hwithin Hcell Hvalue.
  assert (Hin : within bounds (XLSX.mkAddr rowIdx colIdx)).
  { destruct Hwithin as [Hd|Hb]; [|exact Hb].
    destruct (scanBounds_union worksheet floatingForSheet) as ((?&?&?&?) & _).
    unfold within in *. cbn [XLSX.r XLSX.c] in *. lia. }
  assert (Hnonempty : valueString cell <> "").
  { destruct Hvalue as [H|[n Hn]]; [exact H|].
    unfold valueString. rewrite Hn. apply numberToString_nonempty. }
  destruct Hin as [Hr Hc]. cbn [XLSX.r XLSX.c] in Hr, Hc.
  destruct (cellOfColumn_cases rowIdx colIdx)
    as [(_ & Hnone & _)|(cellData & Hcol & _ & Href & Hval & Hsty & _)].
  { cbv zeta in Hnone. congruence. }
  cbv zeta in Hval, Hsty. rewrite Hcell in Hval, Hsty.
  assert (Hcells : In cellData (RowData.cells (rowOf rowIdx))).
  { unfold scannedRow. rewrite scanRow_cells. unfold cellsOfRow.
    apply in_flat_map. exists colIdx. split; [now apply zrange_In|].
    rewrite Hcol. now left. }
  exists (rowOf rowIdx), cellData.
  repeat split; try assumption.
  - rewrite parseWorksheet_rows. apply filter_In. split.
    + unfold scannedRows. apply in_map. now apply zrange_In.
    + unfold keepRow. apply orb_true_iff. right. apply existsb_exists.
      exists cellData. split; [exact Hcells|].
      rewrite Hval. now destruct (String.eqb_spec (valueString cell) "").
  - apply (scannedRow_count worksheet images options floatingForSheet rowIdx).
  - now rewrite Hval.
Qed.

Lemma emitted_cell_image (sheetName : string) (row : RowData.t)
    (cellData : CellData.t) (img : CellImage.t) :
  In row (WorksheetData.rows (parsed sheetName)) ->
  In cellData (RowData.cells row) ->
  CellData.image cellData = Some img ->
  exists imageId, JSMap.get images imageId = Some img.
Proof.
  intros Hrow Hcell Himg.
  rewrite (emitted_row_cells worksheet images options floatingForSheet sheetName row Hrow)
    in Hcell.
  apply in_flat_map in Hcell as (colNum & _ & Hin).
  destruct (cellOfColumn_cases (RowData.rowNumber row - 1) colNum)
    as [(Hnil & _)|(cellData' & Heq & _ & _ & _ & _ & Hreg)].
  - rewrite Hnil in Hin. destruct Hin.
  - rewrite Heq in Hin. destruct Hin as [<-|[]]. now apply Hreg.
Qed.

Lemma expandBounds_inside (b : Bounds) (anchors : list string) :
  (forall k, In k anchors -> within b (XLSX.decode_cell k)) ->
  fold_left expandBounds anchors b = b.
Proof.
  induction anchors as [|k anchors IH]; intros H; [reflexivity|].
  cbn [fold_left].
  assert (Hk : expandBounds b k = b).
  { destruct (H k (or_introl eq_refl)) as [Hr Hc]. unfold expandBounds.
    rewrite !Z.gtb_ltb.
    destruct (Z.ltb_spec (XLSX.r (XLSX.decode_cell k)) (startRow b)); [lia|].
    destruct (Z.ltb_spec (XLSX.c (XLSX.decode_cell k)) (startCol b)); [lia|].
    destruct (Z.ltb_spec (endRow b) (XLSX.r (XLSX.decode_cell k))); [lia|].
    destruct (Z.ltb_spec (endCol b) (XLSX.c (XLSX.decode_cell k))); [lia|].
    now destruct b. }
  rewrite Hk. apply IH. intros k' Hk'. apply H. now right.
Qed.

(** X11. The scan range is the declared dimension exactly when every
    anchor cell of the sheet lies inside the declared dimension: without
    floating images, or with all of them anchored inside, the reader
    scans the rows and columns it scanned before floating images were
    supported. *)
Theorem scan_range_is_declared_unless_anchor_outside :
  (bounds = declaredBounds worksheet
   <-> forall k, In k (JSMap.keys floatingForSheet) ->
       within (declaredBounds worksheet) (XLSX.decode_cell k))
  /\ scanBounds worksheet JSMap.empty = declaredBounds worksheet.
Proof.
  split; [|reflexivity]. split.
  - intros Heq k Hk.
    destruct (scanBounds_union worksheet floatingForSheet) as (_ & Hin & _).
    rewrite <- Heq. now apply Hin.
  - intros Hall. unfold scanBounds. now apply expandBounds_inside.
Qed.

End ScanFacts.

(** ** The parse as a whole *)

Lemma flat_map_nil {A B : Type} (f : A -> list B) (l : list A) :
  (forall a, In a l -> f a = []) -> flat_map f l = [].
Proof.
  induction l as [|a l IH]; intros H; [reflexivity|].
  cbn [flat_map]. rewrite (H a (or_introl eq_refl)), IH; [reflexivity|].
  intros b Hb. apply H. now right.
Qed.

Lemma filter_none {A : Type} (f : A -> bool) (l : list A) :
  (forall a, In a l -> f a = false) -> filter f l = [].
Proof.
  induction l as [|a l IH]; intros H; [reflexivity|].
  cbn [filter]. rewrite (H a (or_introl eq_refl)). apply IH.
  intros b Hb. apply H. now right.
Qed.

Lemma sumImageCount_zero (rows : list RowData.t) :
  (forall row, In row rows -> RowData.imageCount row = 0) ->
  sumImageCount rows = 0.
Proof.
  induction rows as [|row rows IH]; intros H; [reflexivity|].
  cbn [sumImageCount fold_right]. fold (sumImageCount rows).
  rewrite (H row (or_introl eq_refl)), IH; [reflexivity|].
  intros r Hr. apply H. now right.
Qed.

Section ParseFacts.

Import FloatingImageManager ExcelImageReader.

Variable xml_parse : string -> option JsVal.
Variable Number : JsVal -> option Z.
Variable toBase64 : string -> string.

#[local] Abbreviation parseBuffer := (parseBuffer xml_parse Number toBase64).
#[local] Abbreviation parseFile := (parseFile xml_parse Number toBase64).
#[local] Abbreviation extractImagesFromBuffer :=
  (extractImagesFromBuffer xml_parse Number toBase64).

Lemma afterNamedImages_bindings z st :
  floatingImagesBySheet (afterNamedImages xml_parse Number toBase64 z st)
  = floatingImagesBySheet st.
Proof.
  unfold afterNamedImages, parseCellImages.
  destruct (readText z "xl/cellimages.xml"); [|reflexivity].
  destruct (readText z "xl/_rels/cellimages.xml.rels"); reflexivity.
Qed.

Lemma extracted_keyed (loaded : Outcome Zip) :
  keyedById (imagesOf (extractImagesFromBuffer loaded freshState)).
Proof.
  assert (H0 : keyedById (imagesOf freshState)) by (intros k img; discriminate).
  destruct loaded as [message|z]; [exact H0|].
  cbn [ExcelImageReader.extractImagesFromBuffer].
  apply (parseFloatingImages_grows xml_parse Number toBase64 (Some z)).
  now apply afterNamedImages_invariants.
Qed.

(** X12. When the images of a package are extracted, every id that is
    bound to a cell of a sheet is a key of the image map, and the image
    stored there carries that id: the scan of a worksheet finds an image
    for every id it meets in the binding table. *)
Theorem bound_ids_are_registered (loaded : Outcome Zip)
    (sheetName cellRef fid : string) :
  let st := extractImagesFromBuffer loaded freshState in
  In fid (getFloatingImageIds (floatingImagesBySheet st) sheetName cellRef) ->
  exists img,
    JSMap.get (imagesOf st) fid = Some img /\ CellImage.id img = fid.
Proof.
  cbv zeta. intros Hin.
  assert (Hreg : boundRegistered (extractImagesFromBuffer loaded freshState)).
  { destruct loaded as [message|z]; [intros s c f []|].
    cbn [ExcelImageReader.extractImagesFromBuffer].
    apply parseFloatingImages_registered.
    intros s c f. rewrite afterNamedImages_bindings. intros []. }
  specialize (Hreg _ _ _ Hin). unfold JSMap.has in Hreg.
  destruct (JSMap.get (imagesOf (extractImagesFromBuffer loaded freshState)) fid)
    as [img|] eqn:E; [|discriminate].
  exists img. split; [reflexivity|]. now apply (extracted_keyed loaded).
Qed.

Lemma parseSheets_nth (sheets : Workbook) (options : ParseOptions.t) (st : State)
    (i : nat) (sheetName : string) (worksheet : WorkSheet.t) :
  nth_error sheets i = Some (sheetName, worksheet) ->
  nth_error (parseSheets sheets options st) i
  = Some (parseWorksheet worksheet (imagesOf st) options
            (getSheetFloatingImages (floatingImagesBySheet st) sheetName)
            sheetName).
Proof.
  intros H. unfold parseSheets. rewrite nth_error_map, H. reflexivity.
Qed.

Lemma parseSheets_names (sheets : Workbook) (options : ParseOptions.t) (st : State) :
  List.map WorksheetData.name (parseSheets sheets options st) = List.map fst sheets.
Proof. unfold parseSheets. rewrite map_map. reflexivity. Qed.

(** X13. When the workbook cannot be read the result of
    [parseBuffer] has no worksheet, no image and the one error of the
    failure. Otherwise it has one worksheet for each sheet
    of the workbook, in workbook order and under the name of the sheet,
    and each is the scan of that sheet against the very image map the
    result returns; a failure to open the archive costs the images and
    leaves one error, never the worksheets. *)
Theorem parseBuffer_sheets_in_order (input : Input) (options : ParseOptions.t) :
  let parsed := parseBuffer input options in
  match workbook input with
  | Threw message =>
      parsed
      = ExcelParseResult.mk [] JSMap.empty ["解析Buffer失败: " ++ message]
  | Returned sheets =>
      List.map WorksheetData.name (ExcelParseResult.worksheets parsed)
      = List.map fst sheets
      /\ (forall i sheetName worksheet,
            nth_error sheets i = Some (sheetName, worksheet) ->
            exists floatingForSheet,
              nth_error (ExcelParseResult.worksheets parsed) i
              = Some (parseWorksheet worksheet (ExcelParseResult.images parsed)
                        options floatingForSheet sheetName))
      /\ (ParseOptions.includeImages options = false ->
          ExcelParseResult.images parsed = JSMap.empty
          /\ ExcelParseResult.errors parsed = [])
      /\ (forall message,
            ParseOptions.includeImages options = true ->
            archive input = Threw message ->
            ExcelParseResult.images parsed = JSMap.empty
            /\ ExcelParseResult.errors parsed = ["提取图片失败: " ++ message])
  end.
Proof.
  cbv zeta. unfold ExcelImageReader.parseBuffer.
  destruct (workbook input) as [message|sheets]; [reflexivity|].
  cbn [ExcelParseResult.worksheets ExcelParseResult.images ExcelParseResult.errors].
  split; [apply parseSheets_names|]. split; [|split].
  - intros i sheetName worksheet Hnth. eexists.
    apply parseSheets_nth. exact Hnth.
  - intros ->. now split.
  - intros message -> ->. now split.
Qed.

Lemma namedImageCounts_no_images (cell : option CellObject.t) :
  namedImageCounts cell JSMap.empty = false.
Proof.
  unfold namedImageCounts.
  destruct (extractImageIdFromCell cell); cbn [JSMap.has JSMap.get JSMap.empty];
    now rewrite ?andb_false_r.
Qed.

Lemma scannedRow_no_images (worksheet : WorkSheet.t) (options : ParseOptions.t)
    (rowNum : Z) :
  let row := scannedRow worksheet JSMap.empty options JSMap.empty rowNum in
  RowData.imageCount row = 0 /\ RowData.imageCells row = [].
Proof.
  cbv zeta.
  assert (Hcount : RowData.imageCount
                     (scannedRow worksheet JSMap.empty options JSMap.empty rowNum) = 0).
  { destruct (scannedRow_count worksheet JSMap.empty options JSMap.empty rowNum)
      as [_ ->].
    unfold floatingIdsOfRow, namedCellsOfRow.
    rewrite flat_map_nil by reflexivity.
    rewrite filter_none by (intros; apply namedImageCounts_no_images).
    reflexivity. }
  split; [exact Hcount|].
  pose proof (scanRow_tallied worksheet JSMap.empty options JSMap.empty
                (scanBounds worksheet JSMap.empty) 0 rowNum) as Ht.
  unfold tallied in Ht. fold (scannedRow worksheet JSMap.empty options JSMap.empty rowNum) in Ht.
  rewrite Hcount in Ht.
  destruct (RowData.imageCells
              (scannedRow worksheet JSMap.empty options JSMap.empty rowNum));
    [reflexivity|cbn [List.length] in Ht; lia].
Qed.

(** X14. Without the archive there are no images anywhere: when
    [includeImages] is off, or when the archive cannot be opened, the
    image map is empty, every worksheet has [totalImages] and
    [rowsWithImages] zero, every row has [imageCount] zero and no
    [imageCells], and no cell record carries an image. *)
Theorem no_images_without_archive (sheets : Workbook) (loaded : Outcome Zip)
    (options : ParseOptions.t) (sheet : WorksheetData.t) :
  ParseOptions.includeImages options = false
  \/ (exists message, loaded = Threw message) ->
  let parsed := parseBuffer (mkInput (Returned sheets) loaded) options in
  In sheet (ExcelParseResult.worksheets parsed) ->
  ExcelParseResult.images parsed = JSMap.empty
  /\ WorksheetData.totalImages sheet = 0
  /\ WorksheetData.rowsWithImages sheet = 0
  /\ (forall row, In row (WorksheetData.rows sheet) ->
      RowData.imageCount row = 0
      /\ RowData.imageCells row = []
      /\ forall cellData, In cellData (RowData.cells row) ->
         CellData.image cellData = None).
Proof.
  intros Hoff. cbv zeta.
  assert (Hst : exists errors,
    parseBuffer (mkInput (Returned sheets) loaded) options
    = ExcelParseResult.mk
        (parseSheets sheets options
           (mkState (ExcelParseResult.mk [] JSMap.empty errors) clear))
        JSMap.empty errors).
  { unfold ExcelImageReader.parseBuffer. cbn [workbook archive].
    destruct (ParseOptions.includeImages options).
    - destruct Hoff as [Hf|[message ->]]; [discriminate|].
      now exists ["提取图片失败: " ++ message].
    - now exists []. }
  destruct Hst as [errors ->].
  cbn [ExcelParseResult.worksheets ExcelParseResult.images].
  unfold parseSheets. intros ([sheetName worksheet] & <- & _)%in_map_iff.
  cbn [fst snd result floatingImagesBySheet ExcelParseResult.images].
  change (getSheetFloatingImages clear sheetName) with (@JSMap.empty (list string)).
  assert (Hrows : forall row,
    In row (scannedRows worksheet JSMap.empty options JSMap.empty) ->
    RowData.imageCount row = 0 /\ RowData.imageCells row = []).
  { unfold scannedRows. intros row (rowNum & <- & _)%in_map_iff.
    apply scannedRow_no_images. }
  assert (Hsum : sumImageCount (scannedRows worksheet JSMap.empty options JSMap.empty) = 0)
    by (apply sumImageCount_zero; intros row Hr; now apply Hrows).
  split; [reflexivity|]. split; [|split].
  - now rewrite parseWorksheet_total.
  - rewrite parseWorksheet_rowsWithImages.
    rewrite filter_none; [reflexivity|].
    intros row Hr. destruct (Hrows row Hr) as [-> _]. reflexivity.
  - intros row Hrow.
    assert (Hscanned : In row (scannedRows worksheet JSMap.empty options JSMap.empty)).
    { rewrite parseWorksheet_rows in Hrow. now apply filter_In in Hrow as [? _]. }
    destruct (Hrows row Hscanned) as [Hc Hcells].
    split; [exact Hc|]. split; [exact Hcells|].
    intros cellData Hcell.
    destruct (CellData.image cellData) as [img|] eqn:Himg; [|reflexivity].
    destruct (emitted_cell_image worksheet JSMap.empty options JSMap.empty
                sheetName row cellData img Hrow Hcell Himg) as [imageId Hget].
    discriminate Hget.
Qed.

(** X15. [parseFile] is [parseBuffer] on the bytes of the file: when
    the file can be read the two results are equal. When the bytes
    cannot be read the images are lost with one error of its own and the
    worksheets are those [parseBuffer] gives without an archive; when
    the workbook cannot be read the result has the one error of the
    failure and nothing else. *)
Theorem parseFile_is_parseBuffer_on_bytes (sheets : Workbook)
    (loaded : Outcome Zip) (bytes : Outcome (Outcome Zip))
    (options : ParseOptions.t) (message : string) :
  parseFile (mkFileInput (Returned sheets) (Returned loaded)) options
  = parseBuffer (mkInput (Returned sheets) loaded) options
  /\ (ParseOptions.includeImages options = false ->
      parseFile (mkFileInput (Returned sheets) bytes) options
      = parseBuffer (mkInput (Returned sheets) loaded) options)
  /\ (ParseOptions.includeImages options = true ->
      let unread :=
        parseFile (mkFileInput (Returned sheets) (Threw message)) options in
      ExcelParseResult.errors unread = ["读取文件失败: " ++ message]
      /\ ExcelParseResult.images unread = JSMap.empty
      /\ ExcelParseResult.worksheets unread
         = ExcelParseResult.worksheets
             (parseBuffer (mkInput (Returned sheets) (Threw message)) options))
  /\ parseFile (mkFileInput (Threw message) bytes) options
     = ExcelParseResult.mk [] JSMap.empty ["解析文件失败: " ++ message].
Proof.
  unfold ExcelImageReader.parseFile, ExcelImageReader.parseBuffer.
  cbn [fileWorkbook fileArchive workbook archive extractImages].
  split; [reflexivity|]. split; [now intros ->|]. split; [|reflexivity].
  intros ->. cbv zeta. repeat split.
Qed.

(** X16. Every image a cell record carries is an entry of the image map
    of the same result, stored under the id of the image: the named cell
    image of a DISPIMG cell and the floating image that stands in for a
    cell without one are both taken from [images]. *)
Theorem cell_image_is_registered (input : Input) (options : ParseOptions.t)
    (sheet : WorksheetData.t) (row : RowData.t) (cellData : CellData.t)
    (img : CellImage.t) :
  let parsed := parseBuffer input options in
  In sheet (ExcelParseResult.worksheets parsed) ->
  In row (WorksheetData.rows sheet) ->
  In cellData (RowData.cells row) ->
  CellData.image cellData = Some img ->
  JSMap.get (ExcelParseResult.images parsed) (CellImage.id img) = Some img.
Proof.
  cbv zeta. intros Hsheet Hrow Hcell Himg.
  pose proof (parseBuffer_images_keyed xml_parse Number toBase64 input options)
    as Hkeyed.
  revert Hsheet Hkeyed. unfold ExcelImageReader.parseBuffer.
  destruct (workbook input) as [message|sheets]; [intros []|].
  cbn [ExcelParseResult.worksheets ExcelParseResult.images].
  unfold parseSheets. intros ([sheetName worksheet] & <- & _)%in_map_iff Hkeyed.
  cbn [fst snd] in *.
  destruct (emitted_cell_image _ _ _ _ _ _ _ _ Hrow Hcell Himg) as [imageId Hget].
  rewrite (Hkeyed _ _ Hget). exact Hget.
Qed.

End ParseFacts.

(** ** DrawingParser: descriptors and wrapped anchors *)

Lemma lookup_assign_same (fields : list (string * JsVal)) (k : string) (v : JsVal) :
  Js.lookup (Js.assign fields k v) k = v.
Proof.
  induction fields as [|[k' v'] fields IH]; cbn [Js.assign Js.lookup].
  - now rewrite String.eqb_refl.
  - destruct (String.eqb k' k) eqn:E; cbn [Js.lookup]; now rewrite E.
Qed.

Lemma lookup_assign_other (fields : list (string * JsVal)) (k k' : string)
    (v : JsVal) :
  k <> k' -> Js.lookup (Js.assign fields k v) k' = Js.lookup fields k'.
Proof.
  intros Hne. induction fields as [|[k0 v0] fields IH]; cbn [Js.assign Js.lookup].
  - now destruct (String.eqb_spec k k').
  - destruct (String.eqb_spec k0 k) as [->|Hk]; cbn [Js.lookup].
    + now destruct (String.eqb_spec k k').
    + destruct (String.eqb k0 k'); [reflexivity|exact IH].
Qed.

Lemma lookup_remove_same (fields : list (string * JsVal)) (k : string) :
  Js.lookup (Js.remove fields k) k = JUndefined.
Proof.
  induction fields as [|[k0 v0] fields IH]; cbn [Js.remove Js.lookup]; [reflexivity|].
  destruct (String.eqb k0 k) eqn:E; [exact IH|]. cbn [Js.lookup]. now rewrite E.
Qed.

Lemma lookup_remove_other (fields : list (string * JsVal)) (k k' : string) :
  k <> k' -> Js.lookup (Js.remove fields k) k' = Js.lookup fields k'.
Proof.
  intros Hne. induction fields as [|[k0 v0] fields IH]; cbn [Js.remove Js.lookup];
    [reflexivity|].
  destruct (String.eqb_spec k0 k) as [->|Hk]; cbn [Js.lookup].
  - rewrite IH. now destruct (String.eqb_spec k k').
  - destruct (String.eqb k0 k'); [reflexivity|exact IH].
Qed.

Lemma or_truthy (a b : JsVal) : Js.truthy a = true -> Js.or a b = a.
Proof. unfold Js.or. now intros ->. Qed.

Lemma or_falsy (a b : JsVal) : Js.truthy a = false -> Js.or a b = b.
Proof. unfold Js.or. now intros ->. Qed.

Lemma orElse_nonempty (a b : string) : b <> "" -> JS.orElse a b <> "".
Proof. intros Hb. unfold JS.orElse. destruct a; [exact Hb|discriminate]. Qed.

Section AnchorUnwrapping.

Import DrawingParser.

(** X17. An anchor whose [mc:AlternateContent] wrapper holds a picture
    is rewritten so that this picture is its [xdr:pic], replacing one it
    may have had, and the wrapper is deleted; its other properties stay
    as they are. The picture is looked for under [xdr:pic] in the choice
    branch, then under [xdr:pic] in the fallback branch, then under
    [pic] in the choice and the fallback. An anchor without a wrapper,
    or whose wrapper holds no picture, is left as it is. *)
Theorem unwrapAnchor_alternate_content (anc : JsVal) :
  let ac := Js.prop anc "mc:AlternateContent" in
  let choice := Js.or (Js.prop ac "mc:Choice") (Js.prop ac "mcChoice") in
  let fallback := Js.or (Js.prop ac "mc:Fallback") (Js.prop ac "mcFallback") in
  (Js.truthy ac = true -> Js.truthy (alternatePic ac) = true ->
   picOf (unwrapAnchor anc) = alternatePic ac
   /\ Js.prop (unwrapAnchor anc) "mc:AlternateContent" = JUndefined
   /\ (forall k, k <> "xdr:pic" -> k <> "mc:AlternateContent" ->
       Js.prop (unwrapAnchor anc) k = Js.prop anc k))
  /\ (Js.truthy ac = false \/ Js.truthy (alternatePic ac) = false ->
      unwrapAnchor anc = anc)
  /\ (Js.truthy (Js.prop choice "xdr:pic") = true ->
      alternatePic ac = Js.prop choice "xdr:pic")
  /\ (Js.truthy (Js.prop choice "xdr:pic") = false ->
      Js.truthy (Js.prop fallback "xdr:pic") = true ->
      alternatePic ac = Js.prop fallback "xdr:pic")
  /\ (Js.truthy (Js.prop choice "xdr:pic") = false ->
      Js.truthy (Js.prop fallback "xdr:pic") = false ->
      alternatePic ac = Js.or (Js.prop choice "pic") (Js.prop fallback "pic")).
Proof.
  cbv zeta. split; [|split; [|split; [|split]]].
  - intros Hac Hpic. unfold unwrapAnchor. cbv zeta.
    destruct anc as [| | | | |items|fields]; try discriminate Hac.
    change (Js.truthy (JObj fields)) with true. cbn [negb].
    rewrite Hac. cbn [negb]. rewrite Hpic.
    unfold picOf. cbn [Js.prop] in *.
    split; [|split].
    + rewrite lookup_remove_other by discriminate.
      rewrite lookup_assign_same. unfold Js.or. now rewrite Hpic.
    + apply lookup_remove_same.
    + intros k Hk1 Hk2.
      rewrite lookup_remove_other by congruence.
      now rewrite lookup_assign_other by congruence.
  - intros Hno. unfold unwrapAnchor. cbv zeta.
    destruct (Js.truthy anc); [|reflexivity]. cbn [negb].
    destruct (Js.truthy (Js.prop anc "mc:AlternateContent")); [|reflexivity].
    cbn [negb]. destruct Hno as [Hf|Hf]; [discriminate|]. now rewrite Hf.
  - intros H. unfold alternatePic. cbv zeta. now apply or_truthy.
  - intros Hc Hf. unfold alternatePic. cbv zeta.
    rewrite or_falsy by exact Hc. now apply or_truthy.
  - intros Hc Hf. unfold alternatePic. cbv zeta.
    rewrite or_falsy by exact Hc. now apply or_falsy.
Qed.

Lemma unwrapAnchor_alternate_content_witness :
  Js.truthy (Js.prop Cases.wrappedAnchor "mc:AlternateContent") = true
  /\ option_map id (extractImageFromAnchor Sample.Number
                      (unwrapAnchor Cases.wrappedAnchor))
     = Some "chosen"
  /\ picOf (unwrapAnchor Cases.wrappedAnchor)
     = alternatePic (Js.prop Cases.wrappedAnchor "mc:AlternateContent").
Proof.
  split; [reflexivity|]. split; [reflexivity|].
  exact (proj1 (proj1 (unwrapAnchor_alternate_content Cases.wrappedAnchor)
                  eq_refl eq_refl)).
Defined.

End AnchorUnwrapping.

Section DescriptorFacts.

Import DrawingParser FloatingImageManager.

Variable xml_parse : string -> option JsVal.
Variable Number : JsVal -> option Z.

Lemma parseDrawingXml_In (drawingXml : string) (info : FloatingImageInfo) :
  In info (parseDrawingXml xml_parse Number drawingXml) ->
  exists anchor, extractImageFromAnchor Number anchor = Some info.
Proof.
  unfold parseDrawingXml.
  destruct (xml_parse drawingXml) as [doc|]; [|intros []].
  destruct (Js.nullish doc); [intros []|].
  intros (anchor & _ & H)%collectImages_In. now exists anchor.
Qed.

Lemma descriptor_fields (anchor : JsVal) (info : FloatingImageInfo) :
  extractImageFromAnchor Number anchor = Some info ->
  id info <> ""
  /\ Js.truthy (relationshipId info) = true
  /\ cellRef info = XLSX.encode_cell (XLSX.mkAddr (rowIndex info) (colIndex info))
  /\ __skip info = None /\ mediaPath info = None.
Proof.
  intros H.
  destruct (extractImageFromAnchor_id Number anchor info H)
    as (_ & Htruthy & Href & Hskip & Hmedia & Hid).
  repeat split; try assumption.
  rewrite Hid. repeat apply orElse_nonempty. discriminate.
Qed.



End DescriptorFacts.



(** ** RelationshipParser: sheet names and part paths *)

Lemma nonEmptyString_Some (v : JsVal) (text : string) :
  Js.nonEmptyString v = Some text <-> v = JStr text /\ text <> "".
Proof.
  split.
  - destruct v as [| | | |[|a rest]| |]; try discriminate.
    intros [= <-]. now split.
  - intros [-> Hne]. destruct text; [contradiction|reflexivity].
Qed.

Lemma has_set {V : Type} (m : JSMap.t V) (k k' : string) (v : V) :
  JSMap.has m k' = true -> JSMap.has (JSMap.set m k v) k' = true.
Proof.
  unfold JSMap.has. destruct (String.eqb_spec k k') as [->|Hne].
  - now rewrite get_set_same.
  - now rewrite get_set_other.
Qed.

Section SheetMapFacts.

Import RelationshipParser.

Variable xml_parse : string -> option JsVal.

Lemma addSheet_fold (rels : JSMap.t RelationshipInfo) (sheets : list JsVal) :
  let result := fold_left (addSheet rels) sheets JSMap.empty in
  (forall name path,
     JSMap.get result name = Some path ->
     exists sheet rid rel,
       In sheet sheets
       /\ Js.prop sheet "name" = JStr name
       /\ sheetRelId sheet = JStr rid
       /\ JSMap.get rels rid = Some rel
       /\ path = sheetPathOf (target rel))
  /\ (forall sheet name rid rel,
        In sheet sheets ->
        Js.prop sheet "name" = JStr name -> name <> "" ->
        sheetRelId sheet = JStr rid -> rid <> "" ->
        JSMap.get rels rid = Some rel ->
        JSMap.has result name = true).
Proof.
  cbv zeta.
  apply (fold_left_snoc_inv (addSheet rels)
           (fun done result =>
              (forall name path,
                 JSMap.get result name = Some path ->
                 exists sheet rid rel,
                   In sheet done
                   /\ Js.prop sheet "name" = JStr name
                   /\ sheetRelId sheet = JStr rid
                   /\ JSMap.get rels rid = Some rel
                   /\ path = sheetPathOf (target rel))
              /\ (forall sheet name rid rel,
                    In sheet done ->
                    Js.prop sheet "name" = JStr name -> name <> "" ->
                    sheetRelId sheet = JStr rid -> rid <> "" ->
                    JSMap.get rels rid = Some rel ->
                    JSMap.has result name = true))).
  - split; [intros name path; discriminate|intros sheet name rid rel []].
  - intros done m sheet [Hsound Hcomplete].
    assert (Hold : forall name path,
               JSMap.get m name = Some path ->
               exists sheet0 rid rel,
                 In sheet0 (done ++ [sheet])%list
                 /\ Js.prop sheet0 "name" = JStr name
                 /\ sheetRelId sheet0 = JStr rid
                 /\ JSMap.get rels rid = Some rel
                 /\ path = sheetPathOf (target rel)).
    { intros name path H. destruct (Hsound name path H) as (s0 & rid & rel & Hin & H').
      exists s0, rid, rel. split; [apply in_or_app; now left|exact H']. }
    unfold addSheet. fold (sheetRelId sheet).
    destruct (Js.nonEmptyString (Js.prop sheet "name")) as [n|] eqn:En.
    + apply nonEmptyString_Some in En as [En Hn].
      destruct (Js.nonEmptyString (sheetRelId sheet)) as [ri|] eqn:Er.
      * apply nonEmptyString_Some in Er as [Er Hri].
        destruct (JSMap.get rels ri) as [rel|] eqn:Eg.
        -- split.
           ++ intros name path. destruct (String.eqb_spec n name) as [<-|Hne].
              ** rewrite get_set_same. intros [= <-].
                 exists sheet, ri, rel. split; [apply in_or_app; right; now left|].
                 now repeat split.
              ** rewrite get_set_other by exact Hne. apply Hold.
           ++ intros s0 name rid rel0 [Hin|[<-|[]]]%in_app_or Hname Hne Hrid Hridne Hget.
              ** apply has_set. eapply Hcomplete; eassumption.
              ** rewrite En in Hname. injection Hname as <-.
                 unfold JSMap.has. now rewrite get_set_same.
        -- split; [exact Hold|].
           intros s0 name rid rel0 [Hin|[<-|[]]]%in_app_or Hname Hne Hrid Hridne Hget.
           ++ eapply Hcomplete; eassumption.
           ++ rewrite Er in Hrid. injection Hrid as <-. congruence.
      * split; [exact Hold|].
        intros s0 name rid rel0 [Hin|[<-|[]]]%in_app_or Hname Hne Hrid Hridne Hget.
        -- eapply Hcomplete; eassumption.
        -- assert (Js.nonEmptyString (sheetRelId sheet) = Some rid)
             by (apply nonEmptyString_Some; now split).
           congruence.
    + split; [exact Hold|].
      intros s0 name rid rel0 [Hin|[<-|[]]]%in_app_or Hname Hne Hrid Hridne Hget.
      * eapply Hcomplete; eassumption.
      * assert (Js.nonEmptyString (Js.prop sheet "name") = Some name)
          by (apply nonEmptyString_Some; now split).
        congruence.
Qed.

(** X20. When the workbook part cannot be parsed the map of
    [mapSheetNamesToPaths] is empty. Otherwise every entry of the map
    takes a sheet name declared in the workbook part to the target of the
    relationship that the sheet refers to, with a leading [./] rewritten
    to [worksheets/]; and every declared sheet with a name and a
    relationship id that resolves has an entry. A name gets an entry
    only through a sheet whose relationship id resolves. *)
Theorem mapSheetNamesToPaths_entries (workbookXml workbookRelsXml : string) :
  let rels := parseRelationships xml_parse workbookRelsXml in
  let result := mapSheetNamesToPaths xml_parse workbookXml workbookRelsXml in
  (xml_parse workbookXml = None -> result = JSMap.empty)
  /\ (forall doc, xml_parse workbookXml = Some doc ->
      (forall name path,
         JSMap.get result name = Some path ->
         exists sheet rid rel,
           In sheet (sheetsOf doc)
           /\ Js.prop sheet "name" = JStr name
           /\ sheetRelId sheet = JStr rid
           /\ JSMap.get rels rid = Some rel
           /\ path = sheetPathOf (target rel))
      /\ (forall sheet name rid rel,
            In sheet (sheetsOf doc) ->
            Js.prop sheet "name" = JStr name -> name <> "" ->
            sheetRelId sheet = JStr rid -> rid <> "" ->
            JSMap.get rels rid = Some rel ->
            JSMap.has result name = true))
  /\ (forall rest, sheetPathOf ("./" ++ rest) = "worksheets/" ++ rest)
  /\ (forall target, JS.startsWith "./" target = false ->
      sheetPathOf target = target).
Proof.
  cbv zeta. unfold mapSheetNamesToPaths.
  split; [now intros ->|]. split; [|split].
  - intros doc ->. apply addSheet_fold.
  - reflexivity.
  - intros target H. unfold sheetPathOf. now rewrite H.
Qed.

End SheetMapFacts.

Lemma mapSheetNamesToPaths_entries_witness :
  JSMap.get
    (RelationshipParser.mapSheetNamesToPaths Sample.xml_parse
       Sample.workbookXml Sample.workbookRelsXml) "Sheet2"
  = Some "worksheets/sheet2.xml"
  /\ exists sheet rid rel,
       In sheet (sheetsOf Sample.workbookDoc)
       /\ Js.prop sheet "name" = JStr "Sheet2"
       /\ sheetRelId sheet = JStr rid
       /\ JSMap.get
            (RelationshipParser.parseRelationships Sample.xml_parse
               Sample.workbookRelsXml) rid = Some rel
       /\ "worksheets/sheet2.xml"
          = RelationshipParser.sheetPathOf (RelationshipParser.target rel).
Proof.
  split; [reflexivity|].
  exact (proj1 (proj1 (proj2 (mapSheetNamesToPaths_entries Sample.xml_parse
                                Sample.workbookXml Sample.workbookRelsXml))
                  Sample.workbookDoc eq_refl)
           "Sheet2" "worksheets/sheet2.xml" eq_refl).
Defined.

(** ** Named cell images *)

Lemma lastEntry_app {V : Type} (key : string) (a b : list (string * V)) :
  lastEntry key (a ++ b)
  = match lastEntry key b with
    | Some v => Some v
    | None => lastEntry key a
    end.
Proof.
  unfold lastEntry. rewrite rev_app_distr, find_app.
  now destruct (find (fun entry => String.eqb (fst entry) key) (rev b)).
Qed.

Section NamedFacts.

Import FloatingImageManager ExcelImageReader.

Variable xml_parse : string -> option JsVal.
Variable Number : JsVal -> option Z.
Variable toBase64 : string -> string.



Lemma registerNamed_entry z relationshipMap images cellImage :
  registerNamed toBase64 z relationshipMap images cellImage
  = match namedImageEntry toBase64 z relationshipMap cellImage with
    | Some img => JSMap.set images (named_id cellImage) img
    | None => images
    end.
Proof.
  unfold registerNamed, namedImageEntry.
  destruct (relOf relationshipMap (named_relationshipId cellImage)); [|reflexivity].
  now destruct (ImageExtractor.extractImageData toBase64 (Some z) _).
Qed.

Lemma registerNamed_fold z relationshipMap (cellImages : list NamedCellImage)
    (key : string) :
  forall images,
  JSMap.get (fold_left (registerNamed toBase64 z relationshipMap) cellImages images) key
  = match lastEntry key (namedEntries toBase64 z relationshipMap cellImages) with
    | Some img => Some img
    | None => JSMap.get images key
    end.
Proof.
  induction cellImages as [|d ds IH]; intros images; [reflexivity|].
  cbn [fold_left namedEntries flat_map]. rewrite IH, lastEntry_app.
  fold (namedEntries toBase64 z relationshipMap ds).
  destruct (lastEntry key (namedEntries toBase64 z relationshipMap ds));
    [reflexivity|].
  rewrite registerNamed_entry.
  destruct (namedImageEntry toBase64 z relationshipMap d) as [img|];
    [|reflexivity].
  unfold lastEntry. cbn [rev app find fst snd option_map].
  destruct (String.eqb_spec (named_id d) key) as [<-|Hne].
  - now rewrite get_set_same.
  - now rewrite get_set_other.
Qed.

(** X22. Among the named cell images the last declaration wins: after
    [parseCellImages] the image stored under a name is the one made of
    the last declaration of that name whose relationship resolves and
    whose media part exists, and an entry under any other key is left as
    it was. The media part is read at the relationship target as it
    stands. Nothing is added to [errors] and no cell binding is made. *)
Theorem named_last_declaration_wins (z : Zip)
    (cellImagesXml cellImagesRels : string) (st : State) (key : string) :
  let relationshipMap :=
    RelationshipParser.parseRelationships xml_parse cellImagesRels in
  let entries :=
    namedEntries toBase64 z relationshipMap
      (parseCellImagesXml xml_parse Number cellImagesXml) in
  let st' := parseCellImages xml_parse Number toBase64 z cellImagesXml
               cellImagesRels st in
  JSMap.get (imagesOf st') key
  = match lastEntry key entries with
    | Some img => Some img
    | None => JSMap.get (imagesOf st) key
    end
  /\ (forall img, lastEntry key entries = Some img -> CellImage.id img = key)
  /\ errorsOf st' = errorsOf st
  /\ floatingImagesBySheet st' = floatingImagesBySheet st.
Proof.
  cbv zeta. unfold parseCellImages, imagesOf, errorsOf.
  cbn [setImages result ExcelParseResult.images ExcelParseResult.errors
       floatingImagesBySheet].
  split; [apply registerNamed_fold|]. split; [|now split].
  intros img. unfold lastEntry.
  destruct (find _ _) as [[name img']|] eqn:Hfind; [|discriminate].
  cbn [option_map snd]. intros [= ->].
  apply find_some in Hfind as [Hin Hkey]. cbn [fst] in Hkey.
  apply String.eqb_eq in Hkey as <-.
  apply in_rev in Hin. unfold namedEntries in Hin.
  apply in_flat_map in Hin as (d & _ & Hd).
  unfold namedImageEntry in Hd.
  destruct (relOf _ _); [|destruct Hd].
  destruct (ImageExtractor.extractImageData _ _ _); [|destruct Hd].
  destruct Hd as [[= <- <-]|[]]. reflexivity.
Qed.

End NamedFacts.


(** ** The DISPIMG call of a cell *)

Lemma string_app_assoc (a b c : string) : (a ++ b) ++ c = a ++ b ++ c.
Proof. induction a as [|x a IH]; cbn; [reflexivity|now rewrite IH]. Qed.

Lemma includes_app_intro (p before text : string) :
  JS.startsWith p text = true -> JS.includes p (before ++ text) = true.
Proof.
  intros H. induction before as [|a before IH]; cbn [append].
  - destruct text; cbn [JS.includes]; now rewrite H.
  - cbn [JS.includes]. rewrite IH. apply orb_true_r.
Qed.

Section DispimgFacts.

Import ExcelImageReader.

Lemma spanNonQuote_spec (text : string) :
  text = fst (spanNonQuote text) ++ snd (spanNonQuote text)
  /\ JS.includes quote (fst (spanNonQuote text)) = false
  /\ (snd (spanNonQuote text) = ""
      \/ exists rest, snd (spanNonQuote text) = String dquote rest).
Proof.
  induction text as [|a text (IH1 & IH2 & IH3)]; [cbn; auto|].
  cbn [spanNonQuote]. destruct (Ascii.eqb_spec a dquote) as [->|Hne].
  - cbn. split; [reflexivity|]. split; [reflexivity|]. right. now exists text.
  - destruct (spanNonQuote text) as [taken after]. cbn [fst snd] in *.
    split; [cbn; now rewrite <- IH1|]. split; [|exact IH3].
    unfold quote. rewrite includes_char_cons. fold quote. rewrite IH2.
    rewrite orb_false_r. apply Ascii.eqb_neq. congruence.
Qed.

Lemma spanNonQuote_app (imageId after : string) :
  JS.includes quote imageId = false ->
  spanNonQuote (imageId ++ String dquote after) = (imageId, String dquote after).
Proof.
  induction imageId as [|a imageId IH]; intros H.
  - cbn [append spanNonQuote]. now rewrite Ascii.eqb_refl.
  - unfold quote in H. rewrite includes_char_cons in H.
    apply orb_false_iff in H as [Ha Hrest].
    cbn [append spanNonQuote]. rewrite Ascii.eqb_sym, Ha.
    now rewrite (IH Hrest).
Qed.

Lemma matchHere_Some (text imageId : string) :
  matchHere text = Some imageId ->
  imageId <> "" /\ JS.includes quote imageId = false
  /\ exists after, text = dispimgCall imageId ++ after.
Proof.
  unfold matchHere.
  destruct (JS.startsWith _ text) eqn:Hs; [|discriminate].
  apply startsWith_inv in Hs. change (String.length _) with 9%nat in Hs.
  destruct (spanNonQuote_spec (JS.drop 9 text)) as (Hsplit & Hfree & Hafter).
  destruct (spanNonQuote (JS.drop 9 text)) as [taken after].
  cbn [fst snd] in *.
  destruct taken as [|a taken]; [discriminate|].
  destruct after as [|b after]; [discriminate|].
  intros [= <-]. split; [discriminate|]. split; [exact Hfree|].
  destruct Hafter as [Hnil|[rest [= -> ->]]]; [discriminate|].
  exists rest. rewrite Hs, Hsplit. unfold dispimgCall, quote.
  now rewrite !string_app_assoc.
Qed.

Lemma matchHere_call (imageId after : string) :
  imageId <> "" -> JS.includes quote imageId = false ->
  matchHere (dispimgCall imageId ++ after) = Some imageId.
Proof.
  intros Hne Hfree. unfold matchHere, dispimgCall, quote.
  rewrite !string_app_assoc.
  change (JS.startsWith ("DISPIMG(" ++ String dquote "")
            ("DISPIMG(" ++ String dquote "" ++ imageId ++ String dquote "" ++ after))
    with true.
  change (JS.drop 9 ("DISPIMG(" ++ String dquote "" ++ imageId
                       ++ String dquote "" ++ after))
    with (imageId ++ String dquote after).
  rewrite (spanNonQuote_app _ _ Hfree).
  destruct imageId; [contradiction|reflexivity].
Qed.

Lemma matchDispimg_sound (text imageId : string) :
  matchDispimg text = Some imageId ->
  imageId <> "" /\ JS.includes quote imageId = false
  /\ exists before after, text = before ++ dispimgCall imageId ++ after.
Proof.
  induction text as [|a text IH].
  - discriminate.
  - cbn [matchDispimg].
    destruct (matchHere (String a text)) as [found|] eqn:Hm.
    + intros [= ->]. destruct (matchHere_Some _ _ Hm) as (Hne & Hfree & after & H).
      split; [exact Hne|]. split; [exact Hfree|]. now exists "", after.
    + intros (Hne & Hfree & before & after & ->)%IH.
      split; [exact Hne|]. split; [exact Hfree|].
      now exists (String a before), after.
Qed.

Lemma matchDispimg_skip (before text : string) :
  JS.includes "D" before = false ->
  matchDispimg (before ++ text) = matchDispimg text.
Proof.
  induction before as [|a before IH]; intros H; [reflexivity|].
  rewrite includes_char_cons in H. apply orb_false_iff in H as [Ha Hrest].
  cbn [append matchDispimg].
  assert (Hm : matchHere (String a (before ++ text)) = None).
  { unfold matchHere. cbn [append JS.startsWith]. now rewrite Ha. }
  rewrite Hm. now apply IH.
Qed.

(** X23. The image id of a cell text is read soundly: when
    [matchDispimg] finds an id in a text, the id is not empty, holds no
    double quote, and the text holds the call DISPIMG( followed by the
    id between double quotes; in particular the text includes DISPIMG.
    Conversely such a call on a non-empty id without double quotes,
    after a prefix without the letter D, is read back to that id. *)
Theorem matchDispimg_reads_the_call (text imageId : string) :
  (matchDispimg text = Some imageId ->
   imageId <> ""
   /\ JS.includes quote imageId = false
   /\ JS.includes "DISPIMG" text = true
   /\ exists before after, text = before ++ dispimgCall imageId ++ after)
  /\ (imageId <> "" -> JS.includes quote imageId = false ->
      forall before after,
        JS.includes "D" before = false ->
        matchDispimg (before ++ dispimgCall imageId ++ after) = Some imageId).
Proof.
  split.
  - intros (Hne & Hfree & before & after & ->)%matchDispimg_sound.
    split; [exact Hne|]. split; [exact Hfree|]. split; [|now exists before, after].
    apply includes_app_intro. reflexivity.
  - intros Hne Hfree before after Hbefore.
    rewrite (matchDispimg_skip _ _ Hbefore).
    destruct (dispimgCall imageId ++ after) as [|a rest] eqn:E.
    + discriminate E.
    + cbn [matchDispimg]. rewrite <- E. now rewrite matchHere_call.
Qed.

Lemma matchDispimg_reads_the_call_witness :
  matchDispimg ("=_xlfn." ++ dispimgCall "img1" ++ ",1)") = Some "img1"
  /\ JS.includes "DISPIMG" scenarioA_formula = true.
Proof.
  split.
  - apply (proj2 (matchDispimg_reads_the_call "" "img1"));
      [discriminate|reflexivity|reflexivity].
  - apply (proj1 (matchDispimg_reads_the_call scenarioA_formula "img1")).
    reflexivity.
Defined.

(** X24. What [parseCell] makes of a cell: the record carries the
    address it was given; its type is image exactly when the raw value
    or the formula text mentions DISPIMG; it carries an image only then,
    and that image is an entry of the image map; its value is the empty
    text exactly when the sheet has no cell there or the raw value is
    absent or the empty text, so that a number, the number 0 included,
    never yields an empty value; it carries a formula only when the cell
    type is neither [s] nor [n], and then the formula of the cell; and
    an id that [extractImageIdFromCell] reads is not empty and comes from
    a cell that [isImageCell] accepts. *)
Theorem parseCell_contract (cell : option CellObject.t) (cellRef : string)
    (images : JSMap.t CellImage.t) :
  let data := parseCell cell cellRef images in
  CellData.ref data = cellRef
  /\ (CellData.type data = TImage <-> isImageCell cell = true)
  /\ (forall img, CellData.image data = Some img ->
      isImageCell cell = true
      /\ exists imageId, JSMap.get images imageId = Some img)
  /\ (CellData.value data = ""
      <-> match cell with
          | None => True
          | Some c => CellObject.v c = VUndefined \/ CellObject.v c = VString ""
          end)
  /\ (forall text, CellData.formula data = Some text ->
      exists c, cell = Some c /\ CellObject.f c = Some text /\ text <> ""
                /\ CellObject.t_ c <> "s" /\ CellObject.t_ c <> "n")
  /\ (forall imageId, extractImageIdFromCell cell = Some imageId ->
      isImageCell cell = true /\ imageId <> "").
Proof.
  cbv zeta.
  destruct (parseCell_fields images cell cellRef) as (Href & Hval & _).
  split; [exact Href|]. split; [|split; [|split; [|split]]].
  - destruct cell as [c|]; [|cbn; split; discriminate].
    unfold parseCell, isImageCell.
    destruct (valueHasDispimg c); [cbn; tauto|].
    destruct (formulaHasDispimg c); [cbn; tauto|].
    cbn [CellData.type orb]. split; [|discriminate].
    destruct (String.eqb (CellObject.t_ c) "s"); [discriminate|].
    destruct (String.eqb (CellObject.t_ c) "n"); [discriminate|].
    destruct (JS.truthy (formulaText c)); discriminate.
  - intros img Himg. split; [|now apply (parseCell_image images cell cellRef)].
    destruct cell as [c|]; [|discriminate]. revert Himg.
    unfold parseCell, isImageCell.
    destruct (valueHasDispimg c); [reflexivity|].
    destruct (formulaHasDispimg c); [reflexivity|discriminate].
  - rewrite Hval. destruct cell as [c|]; [|tauto].
    unfold valueString. destruct (CellObject.v c) as [|text|n|[|]].
    + tauto.
    + split; [intros ->; now right|intros [H|[= ->]]; [discriminate|reflexivity]].
    + split; [intros H; now apply numberToString_nonempty in H|
              intros [H|H]; discriminate].
    + split; [discriminate|intros [H|H]; discriminate].
    + split; [discriminate|intros [H|H]; discriminate].
  - intros text. destruct cell as [c|]; [|discriminate].
    assert (Hformula :
      CellData.formula (parseCell (Some c) cellRef images)
      = if negb (String.eqb (CellObject.t_ c) "s")
           && negb (String.eqb (CellObject.t_ c) "n")
           && JS.truthy (formulaText c)
        then CellObject.f c else None).
    { unfold parseCell. destruct (valueHasDispimg c); [reflexivity|].
      destruct (formulaHasDispimg c); reflexivity. }
    rewrite Hformula.
    destruct (String.eqb_spec (CellObject.t_ c) "s"); [discriminate|].
    destruct (String.eqb_spec (CellObject.t_ c) "n"); [discriminate|].
    cbn [negb andb]. unfold formulaText.
    destruct (CellObject.f c) as [[|a rest]|] eqn:Hf; try discriminate.
    cbn [JS.truthy]. intros [= <-]. exists c.
    split; [reflexivity|]. split; [exact Hf|]. split; [discriminate|].
    now split.
  - intros imageId. destruct cell as [c|]; [|discriminate].
    unfold extractImageIdFromCell, isImageCell.
    destruct (formulaHasDispimg c), (valueHasDispimg c); cbn [orb];
      try (destruct (JS.truthy _); [|discriminate];
           intros (Hne & _)%matchDispimg_sound; now split).
    discriminate.
Qed.

End DispimgFacts.

(** ** FloatingImageManager: the parts a sheet leads to *)

Lemma replaceFirst_prefix (p r text : string) :
  JS.startsWith p text = true ->
  JS.replaceFirst p r text = r ++ JS.drop (String.length p) text.
Proof. intros H. destruct text; cbn [JS.replaceFirst]; now rewrite H. Qed.

Section SheetPartsFacts.

Import DrawingParser FloatingImageManager.

Variable xml_parse : string -> option JsVal.
Variable Number : JsVal -> option Z.
Variable toBase64 : string -> string.

(** X25. A sheet without a drawing is left alone: when no archive is
    set, when the relationship part of the sheet is missing or empty,
    when none of its relationships is a drawing relationship, or when
    the drawing part it names is missing or empty, the result and the
    binding table stay as they are and no error is added. The
    relationship part is looked up under the file name of the sheet path
    alone, in xl/worksheets/_rels. *)
Theorem sheet_without_drawing_is_left_alone (zip : option Zip)
    (sheetName sheetPath : string) (st : State) :
  (zip = None
   \/ (exists z, zip = Some z
                 /\ getSheetRelationships xml_parse sheetPath z = None)
   \/ (exists z sheetRels,
         zip = Some z
         /\ getSheetRelationships xml_parse sheetPath z = Some sheetRels
         /\ forall rel, In rel (JSMap.values sheetRels) ->
            JS.includes "/relationships/drawing" (RelationshipParser.type rel)
            = false)
   \/ (exists z sheetRels drawingRel,
         zip = Some z
         /\ getSheetRelationships xml_parse sheetPath z = Some sheetRels
         /\ RelationshipParser.findDrawingRelationship sheetRels = Some drawingRel
         /\ readText z
              ("xl/" ++ RelationshipParser.normalizeTargetPath
                          RelationshipParser.worksheets
                          (RelationshipParser.target drawingRel)) = None) ->
   parseSheetFloatingImages xml_parse Number toBase64 zip sheetName sheetPath st
   = st)
  /\ (forall z folder fileName,
        JS.includes "/" fileName = false ->
        sheetPath = folder ++ "/" ++ fileName ->
        getSheetRelationships xml_parse sheetPath z
        = option_map (RelationshipParser.parseRelationships xml_parse)
            (readText z ("xl/worksheets/_rels/" ++ fileName ++ ".rels"))).
Proof.
  split.
  - unfold parseSheetFloatingImages.
    intros [->|[(z & -> & ->)|[(z & sheetRels & -> & -> & Hnone)
                              |(z & sheetRels & drawingRel & -> & -> & -> & Hmissing)]]];
      try reflexivity.
    + unfold RelationshipParser.findDrawingRelationship.
      destruct (find _ (JSMap.values sheetRels)) as [rel|] eqn:Hfind; [|reflexivity].
      apply find_some in Hfind as [Hin Htype]. now rewrite (Hnone rel Hin) in Htype.
    + unfold parseDrawingFile. now rewrite Hmissing.
  - intros z folder fileName Hfile ->. unfold getSheetRelationships.
    change ("/" ++ fileName) with (String "/" fileName).
    rewrite lastSegment_after by exact Hfile.
    now destruct (readText z _).
Qed.

(** X26. For a drawing relationship whose target is ../drawings/
    followed by a file name, [parseDrawingFile] reads the drawing at
    xl/drawings/ and its relationships at xl/drawings/_rels/, under the
    same file name with .rels appended. A drawing part that is missing
    or empty gives no picture; when the relationship part is missing or
    empty every picture of the drawing is marked as skipped for a missing
    relationship. *)
Theorem parseDrawingFile_parts (fileName : string)
    (drawingRel : RelationshipParser.RelationshipInfo) (z : Zip) :
  RelationshipParser.target drawingRel = "../drawings/" ++ fileName ->
  parseDrawingFile xml_parse Number drawingRel z
  = match readText z ("xl/drawings/" ++ fileName) with
    | None => []
    | Some drawingXml =>
        List.map
          (resolveMedia
             (match readText z ("xl/drawings/_rels/" ++ fileName ++ ".rels") with
              | Some drawingRelsXml =>
                  RelationshipParser.parseRelationships xml_parse drawingRelsXml
              | None => JSMap.empty
              end))
          (parseDrawingXml xml_parse Number drawingXml)
    end
  /\ (readText z ("xl/drawings/_rels/" ++ fileName ++ ".rels") = None ->
      forall info, In info (parseDrawingFile xml_parse Number drawingRel z) ->
      __skip info = Some "missing_relationship" /\ mediaPath info = None).
Proof.
  intros Htarget.
  assert (Hparts :
    parseDrawingFile xml_parse Number drawingRel z
    = match readText z ("xl/drawings/" ++ fileName) with
      | None => []
      | Some drawingXml =>
          List.map
            (resolveMedia
               (match readText z ("xl/drawings/_rels/" ++ fileName ++ ".rels") with
                | Some drawingRelsXml =>
                    RelationshipParser.parseRelationships xml_parse drawingRelsXml
                | None => JSMap.empty
                end))
            (parseDrawingXml xml_parse Number drawingXml)
      end).
  { unfold parseDrawingFile. rewrite Htarget.
    change ("../drawings/" ++ fileName) with ("../" ++ "drawings/" ++ fileName).
    rewrite normalize_parent.
    rewrite (replaceFirst_prefix "drawings/" "drawings/_rels/"
               ("drawings/" ++ fileName) (startsWith_app _ _)).
    rewrite drop_app. reflexivity. }
  split; [exact Hparts|].
  intros Hmissing info. rewrite Hparts, Hmissing.
  destruct (readText z ("xl/drawings/" ++ fileName)); [|intros []].
  intros (raw & <- & [anchor Hraw]%(parseDrawingXml_In xml_parse Number))%in_map_iff.
  destruct (descriptor_fields Number anchor raw Hraw) as (_ & _ & _ & _ & Hm).
  unfold resolveMedia, relOf.
  destruct (relationshipId raw); cbn [JSMap.get JSMap.empty withSkip __skip mediaPath];
    now split.
Qed.

(** *** Errors of the floating pipeline *)






End SheetPartsFacts.

(** ** Row heights *)

Section HeightFacts.

Import ExcelImageReader.

Variable worksheet : WorkSheet.t.
Variable images : JSMap.t CellImage.t.
Variable options : ParseOptions.t.
Variable floatingForSheet : JSMap.t (list string).





End HeightFacts.

(** ** A floating image from its relationship to the image map *)

Section HappyPath.

Import DrawingParser FloatingImageManager.

Variable toBase64 : string -> string.

(** X29. A picture whose relationship is not external and targets
    ../media/ followed by a file name, with that media part in the
    archive, is bound and registered: [parseDrawingFile] gives it the
    media path media/ followed by the file name, and
    [processFloatingImage] then adds no error, appends its id to the ids
    of its anchor cell, and, when the id is not yet a key of the image
    map, stores under it the image with the id, description, position
    and relationship id of the picture, the MIME type of the file name
    and the data URI of the bytes of the part. When the id is already a
    key the image map stays as it is. *)
Theorem floating_image_is_registered_and_bound (z : Zip)
    (drawingRels : JSMap.t RelationshipParser.RelationshipInfo)
    (imageInfo : FloatingImageInfo) (rid fileName bytes sheetName : string)
    (rel : RelationshipParser.RelationshipInfo) (st : State) :
  __skip imageInfo = None ->
  relationshipId imageInfo = JStr rid ->
  JSMap.get drawingRels rid = Some rel ->
  isExternal rel = false ->
  RelationshipParser.target rel = "../media/" ++ fileName ->
  JSMap.get z ("xl/media/" ++ fileName) = Some bytes ->
  let marked := resolveMedia drawingRels imageInfo in
  let st' := processFloatingImage toBase64 (Some z) marked sheetName st in
  let mime := ImageExtractor.getMimeTypeFromPath ("media/" ++ fileName) in
  mediaPath marked = Some ("media/" ++ fileName)
  /\ errorsOf st' = errorsOf st
  /\ getFloatingImageIds (floatingImagesBySheet st') sheetName (cellRef imageInfo)
     = (getFloatingImageIds (floatingImagesBySheet st) sheetName (cellRef imageInfo)
          ++ [id imageInfo])%list
  /\ (JSMap.has (imagesOf st) (id imageInfo) = false ->
      JSMap.get (imagesOf st') (id imageInfo)
      = Some (CellImage.mk (id imageInfo) (description imageInfo)
                ("data:" ++ mime ++ ";base64," ++ toBase64 bytes) mime
                (position imageInfo) (JStr rid)))
  /\ (JSMap.has (imagesOf st) (id imageInfo) = true ->
      imagesOf st' = imagesOf st).
Proof.
  intros Hskip Hrid Hrel Hext Htarget Hpart. cbv zeta.
  assert (Hmarked : resolveMedia drawingRels imageInfo
                    = withMediaPath imageInfo ("media/" ++ fileName)).
  { unfold resolveMedia, relOf. rewrite Hrid, Hrel, Hext, Htarget.
    change ("../media/" ++ fileName) with ("../" ++ "media/" ++ fileName).
    now rewrite normalize_parent. }
  rewrite Hmarked.
  split; [reflexivity|].
  unfold processFloatingImage, extractAndBind.
  cbn [withMediaPath __skip mediaPath id cellRef description relationshipId position].
  rewrite Hskip.
  change (truthyProp None) with (@None string).
  change (truthyProp (Some ("media/" ++ fileName)))
    with (Some ("media/" ++ fileName)).
  cbv iota. unfold ImageExtractor.extractImageData.
  change (JSMap.get z ("xl/" ++ "media/" ++ fileName) = Some bytes) in Hpart.
  rewrite Hpart. cbv zeta. unfold imagesOf, errorsOf.
  destruct (JSMap.has (ExcelParseResult.images (result st)) (id imageInfo)) eqn:Hhas;
    cbn [negb result floatingImagesBySheet setImages ExcelParseResult.images
         ExcelParseResult.errors].
  - split; [reflexivity|]. split; [|split; [discriminate|reflexivity]].
    now rewrite getFloatingImageIds_bind, !String.eqb_refl.
  - split; [reflexivity|]. split; [|split; [|discriminate]].
    + now rewrite getFloatingImageIds_bind, !String.eqb_refl.
    + intros _. rewrite get_set_same. unfold ImageExtractor.createCellImage.
      cbn [ImageExtractionResult.base64 ImageExtractionResult.mimeType].
      now rewrite Hrid.
Qed.

End HappyPath.

(** ** Column records *)

Section ColumnFacts.

Import ExcelImageReader.


End ColumnFacts.

(** ** The further properties on the sample package *)

Lemma bound_ids_are_registered_witness :
  In "7"
     (FloatingImageManager.getFloatingImageIds
        (FloatingImageManager.floatingImagesBySheet Sample.extracted)
        "Sheet1" "A101")
  /\ exists img,
       JSMap.get Sample.images "7" = Some img /\ CellImage.id img = "7".
Proof.
  assert (Hin : In "7"
                  (FloatingImageManager.getFloatingImageIds
                     (FloatingImageManager.floatingImagesBySheet Sample.extracted)
                     "Sheet1" "A101"))
    by (vm_compute; left; reflexivity).
  split; [exact Hin|].
  exact (bound_ids_are_registered Sample.xml_parse Sample.Number Sample.toBase64
           (ExcelImageReader.Returned Sample.zip) "Sheet1" "A101" "7" Hin).
Defined.

Lemma imageCount_is_imageCells_length_witness :
  In (scannedRow Sample.sheet2 Sample.images ParseOptions.defaults
        (Sample.floatingOf "Sheet2") 0)
     (WorksheetData.rows
        (Sample.parsed Sample.sheet2 "Sheet2" ParseOptions.defaults))
  /\ RowData.imageCells
       (scannedRow Sample.sheet2 Sample.images ParseOptions.defaults
          (Sample.floatingOf "Sheet2") 0)
     = ["B1"; "C1"]
  /\ RowData.imageCount
       (scannedRow Sample.sheet2 Sample.images ParseOptions.defaults
          (Sample.floatingOf "Sheet2") 0)
     = 2.
Proof.
  assert (Hin : In (scannedRow Sample.sheet2 Sample.images ParseOptions.defaults
                      (Sample.floatingOf "Sheet2") 0)
                   (WorksheetData.rows
                      (Sample.parsed Sample.sheet2 "Sheet2" ParseOptions.defaults)))
    by (vm_compute; left; reflexivity).
  assert (Hcells : RowData.imageCells
                     (scannedRow Sample.sheet2 Sample.images ParseOptions.defaults
                        (Sample.floatingOf "Sheet2") 0)
                   = ["B1"; "C1"])
    by (vm_compute; reflexivity).
  split; [exact Hin|]. split; [exact Hcells|].
  rewrite (proj1 (imageCount_is_imageCells_length Sample.sheet2 Sample.images
                    ParseOptions.defaults (Sample.floatingOf "Sheet2") "Sheet2" _ Hin)).
  rewrite Hcells. reflexivity.
Defined.

Lemma row_cells_in_column_order_witness :
  In (scannedRow Sample.sheet2 Sample.images ParseOptions.defaults
        (Sample.floatingOf "Sheet2") 0)
     (WorksheetData.rows
        (Sample.parsed Sample.sheet2 "Sheet2" ParseOptions.defaults))
  /\ List.map CellData.ref
       (RowData.cells
          (scannedRow Sample.sheet2 Sample.images ParseOptions.defaults
             (Sample.floatingOf "Sheet2") 0))
     = ["A1"; "B1"; "C1"].
Proof.
  assert (Hin : In (scannedRow Sample.sheet2 Sample.images ParseOptions.defaults
                      (Sample.floatingOf "Sheet2") 0)
                   (WorksheetData.rows
                      (Sample.parsed Sample.sheet2 "Sheet2" ParseOptions.defaults)))
    by (vm_compute; left; reflexivity).
  split; [exact Hin|].
  rewrite (proj1 (row_cells_in_column_order Sample.sheet2 Sample.images
                    ParseOptions.defaults (Sample.floatingOf "Sheet2") "Sheet2" _ Hin)).
  vm_compute. reflexivity.
Defined.

Lemma cell_with_value_is_emitted_witness :
  JSMap.get (WorkSheet.cellAt Cases.zeroSheet) (XLSX.encode_cell (XLSX.mkAddr 1 1))
  = Some (CellObject.mk (VNumber 0) "n" None (Some 4))
  /\ exists row cellData,
       In row (WorksheetData.rows
                 (ExcelImageReader.parseWorksheet Cases.zeroSheet JSMap.empty
                    ParseOptions.defaults JSMap.empty "Zero"))
       /\ RowData.rowNumber row = 2
       /\ In cellData (RowData.cells row)
       /\ CellData.ref cellData = "B2"
       /\ CellData.value cellData = "0".
Proof.
  split; [reflexivity|].
  destruct (cell_with_value_is_emitted Cases.zeroSheet JSMap.empty
              ParseOptions.defaults JSMap.empty "Zero" 1 1
              (CellObject.mk (VNumber 0) "n" None (Some 4)))
    as (row & cellData & Hrow & Hnum & Hcell & Href & Hval & _).
  - left. vm_compute. intuition discriminate.
  - reflexivity.
  - right. now exists 0.
  - exists row, cellData. repeat split; assumption.
Defined.

Lemma no_images_without_archive_witness :
  In (ExcelImageReader.parseWorksheet Sample.sheet2 JSMap.empty
        ParseOptions.defaults JSMap.empty "Sheet2")
     (ExcelParseResult.worksheets
        (ExcelImageReader.parseBuffer Sample.xml_parse Sample.Number Sample.toBase64
           (ExcelImageReader.mkInput
              (ExcelImageReader.Returned [("Sheet2", Sample.sheet2)])
              (ExcelImageReader.Threw "corrupt"))
           ParseOptions.defaults))
  /\ WorksheetData.totalImages
       (ExcelImageReader.parseWorksheet Sample.sheet2 JSMap.empty
          ParseOptions.defaults JSMap.empty "Sheet2") = 0
  /\ WorksheetData.totalImages
       (Sample.parsed Sample.sheet2 "Sheet2" ParseOptions.defaults) = 2.
Proof.
  assert (Hin : In (ExcelImageReader.parseWorksheet Sample.sheet2 JSMap.empty
                      ParseOptions.defaults JSMap.empty "Sheet2")
                   (ExcelParseResult.worksheets
                      (ExcelImageReader.parseBuffer Sample.xml_parse Sample.Number
                         Sample.toBase64
                         (ExcelImageReader.mkInput
                            (ExcelImageReader.Returned [("Sheet2", Sample.sheet2)])
                            (ExcelImageReader.Threw "corrupt"))
                         ParseOptions.defaults)))
    by (left; reflexivity).
  split; [exact Hin|]. split; [|vm_compute; reflexivity].
  exact (proj1 (proj2 (no_images_without_archive Sample.xml_parse Sample.Number
                         Sample.toBase64 [("Sheet2", Sample.sheet2)]
                         (ExcelImageReader.Threw "corrupt") ParseOptions.defaults _
                         (or_intror (ex_intro _ "corrupt" eq_refl)) Hin))).
Defined.

Lemma cell_image_is_registered_witness :
  exists img,
    CellData.image
      (ExcelImageReader.parseCell (Some (Sample.imageCell "img1")) "B2"
         Sample.images) = Some img
    /\ CellImage.id img = "img1"
    /\ JSMap.get (ExcelParseResult.images (Sample.parse ParseOptions.defaults))
         (CellImage.id img) = Some img.
Proof.
  destruct (CellData.image
              (ExcelImageReader.parseCell (Some (Sample.imageCell "img1")) "B2"
                 Sample.images)) as [img|] eqn:E;
    [|vm_compute in E; discriminate E].
  exists img. split; [reflexivity|].
  split; [vm_compute in E; injection E as <-; reflexivity|].
  apply (cell_image_is_registered Sample.xml_parse Sample.Number Sample.toBase64
           Sample.input ParseOptions.defaults
           (Sample.parsed Sample.sheet1 "Sheet1" ParseOptions.defaults)
           (scannedRow Sample.sheet1 Sample.images ParseOptions.defaults
              (Sample.floatingOf "Sheet1") 1)
           (ExcelImageReader.parseCell (Some (Sample.imageCell "img1")) "B2"
              Sample.images)).
  - vm_compute. left. reflexivity.
  - vm_compute. right. left. reflexivity.
  - vm_compute. left. reflexivity.
  - exact E.
Defined.

Lemma parseCell_contract_witness :
  CellData.value
    (ExcelImageReader.parseCell (Some (CellObject.mk (VNumber 0) "n" None (Some 4)))
       "B2" JSMap.empty)
  = "0"
  /\ CellData.type
       (ExcelImageReader.parseCell (Some Sample.staleValueCell) "B2" Sample.images)
     = TImage.
Proof.
  split; [reflexivity|].
  apply (proj1 (proj2 (parseCell_contract (Some Sample.staleValueCell) "B2"
                         Sample.images))).
  reflexivity.
Defined.


Lemma sheet_without_drawing_is_left_alone_witness :
  FloatingImageManager.getSheetRelationships Sample.xml_parse "worksheets/sheet2.xml" Sample.zip = None
  /\ FloatingImageManager.parseSheetFloatingImages Sample.xml_parse Sample.Number Sample.toBase64
       (Some Sample.zip) "Sheet2" "worksheets/sheet2.xml" freshState
     = freshState.
Proof.
  split; [reflexivity|].
  apply (proj1 (sheet_without_drawing_is_left_alone Sample.xml_parse Sample.Number
                  Sample.toBase64 (Some Sample.zip) "Sheet2"
                  "worksheets/sheet2.xml" freshState)).
  right. left. exists Sample.zip. split; reflexivity.
Defined.

Lemma parseDrawingFile_parts_witness :
  RelationshipParser.target Cases.sheet1Drawing = "../drawings/" ++ "drawing1.xml"
  /\ FloatingImageManager.parseDrawingFile Sample.xml_parse Sample.Number Cases.sheet1Drawing Sample.zip
     = List.map (FloatingImageManager.resolveMedia Sample.drawingRels) Sample.pictures.
Proof.
  split; [reflexivity|].
  rewrite (proj1 (parseDrawingFile_parts Sample.xml_parse Sample.Number "drawing1.xml" Cases.sheet1Drawing
                    Sample.zip eq_refl)).
  reflexivity.
Defined.

Lemma floating_image_is_registered_and_bound_witness :
  JSMap.get Sample.drawingRels "rId3"
  = Some (RelationshipParser.mkRel "rId3" (Sample.relsNs ++ "/image")
            "../media/image3.png" JUndefined)
  /\ option_map CellImage.base64
       (JSMap.get
          (imagesOf
             (FloatingImageManager.processFloatingImage Sample.toBase64
                (Some Sample.zip)
                (FloatingImageManager.resolveMedia Sample.drawingRels
                   Sample.unnamedPicture)
                "Sheet1" freshState))
          "7")
     = Some "data:image/png;base64,UE5HMw==".
Proof.
  split; [reflexivity|].
  destruct (floating_image_is_registered_and_bound Sample.toBase64 Sample.zip
              Sample.drawingRels Sample.unnamedPicture "rId3" "image3.png" "PNG3"
              "Sheet1"
              (RelationshipParser.mkRel "rId3" (Sample.relsNs ++ "/image")
                 "../media/image3.png" JUndefined)
              freshState eq_refl eq_refl eq_refl eq_refl eq_refl eq_refl)
    as (_ & _ & _ & Hnew & _).
  change (DrawingParser.id Sample.unnamedPicture) with "7" in Hnew.
  rewrite (Hnew eq_refl). reflexivity.
Defined.
